(** * Admin dashboard: session gate, account client, bulk dispatcher,
      list filters, audit recorder and schema bootstrap

    A shallow embedding of the Python sources
    [utils/auth.py], [utils/supabase_client.py], [components/user_forms.py],
    [utils/database_setup.py] and the filter block of
    [render_user_management] in [app.py] / [enhanced_app.py].

    Python code that reads and writes [st.session_state], calls the backend
    SDK and may raise is written in a state-and-exception monad over an
    explicit [world]. *)

From Stdlib Require Import ZArith Lia Ascii String List.
From stdpp Require Import base option list gmap strings pretty.

Local Open Scope string_scope.
Local Open Scope Z_scope.

Set Warnings "-register-all".

(** ** Python values *)

(** The values that travel through session state, form payloads, SDK
    responses and audit entries.  A [datetime] is its number of
    microseconds since [datetime.min], the start of year 1 (datetime
    arithmetic is exact on microseconds); a dict keeps its items in
    insertion order. *)
Inductive value :=
| VNone
| VBool (b : bool)
| VInt (n : Z)
| VStr (s : string)
| VTime (t : Z)
| VList (l : list value)
| VDict (d : list (string * value)).

Abbreviation dict := (list (string * value)).

(** [bool(v)] *)
Definition truthy (v : value) : bool :=
  match v with
  | VNone => false
  | VBool b => b
  | VInt n => negb (n =? 0)
  | VStr s => match s with EmptyString => false | _ => true end
  | VTime _ => true
  | VList l => match l with [] => false | _ => true end
  | VDict d => match d with [] => false | _ => true end
  end.

(** [k in d] and [d.get(k)] on a dict. *)
Fixpoint dict_lookup (d : dict) (k : string) : option value :=
  match d with
  | [] => None
  | (k', v) :: d' => if String.eqb k k' then Some v else dict_lookup d' k
  end.

Definition dict_has (d : dict) (k : string) : bool :=
  match dict_lookup d k with Some _ => true | None => false end.

(** [d.get(k)] is [None] for an absent key, [d.get(k, dflt)] is [dflt]. *)
Definition dict_get (d : dict) (k : string) : value :=
  default VNone (dict_lookup d k).

Definition dict_get_or (d : dict) (k : string) (dflt : value) : value :=
  default dflt (dict_lookup d k).

(** [d[k] = v]: overwrite in place, or add at the end. *)
Fixpoint dict_set (d : dict) (k : string) (v : value) : dict :=
  match d with
  | [] => [(k, v)]
  | (k', v') :: d' =>
      if String.eqb k k' then (k', v) :: d' else (k', v') :: dict_set d' k v
  end.

(** [v == 'literal'] for a string literal. *)
Definition is_str (v : value) (s : string) : bool :=
  match v with VStr s' => String.eqb s' s | _ => false end.

(** ** Strings *)

(** Characters are the code points 0..255.  [str.lower] on that range:
    A-Z and the Latin-1 capitals move up by 32. *)
Definition lower_char (c : ascii) : ascii :=
  let n := N_of_ascii c in
  if ((65 <=? n) && (n <=? 90))%N then ascii_of_N (n + 32)
  else if ((192 <=? n) && (n <=? 222) && negb (n =? 215))%N then ascii_of_N (n + 32)
  else c.

Fixpoint lower (s : string) : string :=
  match s with
  | EmptyString => EmptyString
  | String c s' => String (lower_char c) (lower s')
  end.

(** [n] in decimal, at least [width] digits wide: the [%0<width>d] of
    Python's formatting, for [n] not negative. *)
Fixpoint zeros (n : nat) : string :=
  match n with
  | O => EmptyString
  | S n' => String "0" (zeros n')
  end.

Definition zero_padded (width : nat) (n : Z) : string :=
  let digits := pretty n in
  zeros (width - String.length digits) ++ digits.

(** [s.startswith(p)] *)
Fixpoint startswith (p s : string) : bool :=
  match p, s with
  | EmptyString, _ => true
  | String a p', String b s' => if Ascii.eqb a b then startswith p' s' else false
  | String _ _, EmptyString => false
  end.

(** [str.isspace] on one character of the range 0..255. *)
Definition is_space (c : ascii) : bool :=
  let n := N_of_ascii c in
  (((9 <=? n) && (n <=? 13)) || ((28 <=? n) && (n <=? 32))
   || (n =? 133) || (n =? 160))%N.

Fixpoint lstrip (s : string) : string :=
  match s with
  | String c s' => if is_space c then lstrip s' else s
  | EmptyString => EmptyString
  end.

(** Drops the trailing whitespace: a character stays when it is not a
    space or when something stays after it. *)
Fixpoint rstrip (s : string) : string :=
  match s with
  | EmptyString => EmptyString
  | String c s' =>
      match rstrip s' with
      | EmptyString => if is_space c then EmptyString else String c EmptyString
      | r => String c r
      end
  end.

(** [s.strip()] *)
Definition strip (s : string) : string := rstrip (lstrip s).

(** [s.split(sep)] for a one-character separator: the pieces between the
    separators, empty ones included. *)
Fixpoint split (sep : ascii) (s : string) : list string :=
  match s with
  | EmptyString => [EmptyString]
  | String c s' =>
      if Ascii.eqb c sep then EmptyString :: split sep s'
      else match split sep s' with
           | piece :: rest => String c piece :: rest
           | [] => [String c EmptyString]
           end
  end.

(** ** datetime.isoformat *)

(** The calendar arithmetic of the [datetime] module: the year, month
    and day of the proleptic Gregorian ordinal [n], day 1 being the first
    of January of year 1 ([_ord2ymd]). *)
Definition DAYS_IN_MONTH : list Z := [31; 28; 31; 30; 31; 30; 31; 31; 30; 31; 30; 31].

Definition days_in_month (month : Z) : Z :=
  nth (Z.to_nat (month - 1)) DAYS_IN_MONTH 0.

Definition days_before_month (month : Z) : Z :=
  fold_right Z.add 0 (firstn (Z.to_nat (month - 1)) DAYS_IN_MONTH).

Definition ord2ymd (n : Z) : Z * Z * Z :=
  let n := n - 1 in
  let n400 := n / 146097 in let n := n mod 146097 in
  let n100 := n / 36524 in let n := n mod 36524 in
  let n4 := n / 1461 in let n := n mod 1461 in
  let n1 := n / 365 in let n := n mod 365 in
  let year := n400 * 400 + 1 + n100 * 100 + n4 * 4 + n1 in
  if (n1 =? 4) || (n100 =? 4) then (year - 1, 12, 31)
  else
    let leapyear := (n1 =? 3) && (negb (n4 =? 24) || (n100 =? 3)) in
    let month := Z.shiftr (n + 50) 5 in
    let preceding :=
      days_before_month month + (if (month >? 2) && leapyear then 1 else 0) in
    if preceding >? n then
      let month := month - 1 in
      let preceding :=
        preceding - (days_in_month month + (if (month =? 2) && leapyear then 1 else 0)) in
      (year, month, n - preceding + 1)
    else (year, month, n - preceding + 1).

(** [t.isoformat()] of a naive datetime: [YYYY-MM-DDTHH:MM:SS], followed
    by the six digits of the microseconds when they are not zero. *)
Definition isoformat (t : Z) : string :=
  let microsecond := t mod 1000000 in
  let seconds := t / 1000000 in
  let '(year, month, day) := ord2ymd (seconds / 86400 + 1) in
  let second_of_day := seconds mod 86400 in
  zero_padded 4 year ++ "-" ++ zero_padded 2 month ++ "-" ++ zero_padded 2 day ++ "T" ++
  zero_padded 2 (second_of_day / 3600) ++ ":" ++
  zero_padded 2 (second_of_day mod 3600 / 60) ++ ":" ++
  zero_padded 2 (second_of_day mod 60) ++
  (if microsecond =? 0 then "" else "." ++ zero_padded 6 microsecond).

(** ** Exceptions and results *)

(** An exception of class [Exception]. *)
Inductive exn := Exn (kind : string) (msg : string).

(** [str(e)] *)
Definition exn_str (e : exn) : string := let 'Exn _ m := e in m.

(** What ends a statement early: an [Exception], which
    [except Exception] catches, or the [RerunException] that [st.rerun()]
    raises to end the script run, a [BaseException] outside [Exception]
    that [except Exception] lets through. *)
Inductive signal := Exception (e : exn) | RerunException.

Inductive result_in (E A : Type) :=
| Ok (a : A)
| Raise (e : E).
Arguments Ok {E A} a.
Arguments Raise {E A} e.

(** The answer of a call that returns or raises an [Exception]. *)
Abbreviation result := (result_in exn).

(** How a computation of the program ends. *)
Abbreviation outcome := (result_in signal).

(** ** The backend SDK *)

(** The calls the repository makes into the client SDK.  Each call answers
    with the part of the response the code reads ([response.user],
    [response.data], or the response itself) or raises. *)
Inductive sdk_call :=
| SignInWithPassword (email password : string)
    (* auth_client.auth.sign_in_with_password; answers response.user *)
| AdminListUsers
    (* client.auth.admin.list_users(); answers the response *)
| ProfilesSelectById (user_id : string)
    (* table('profiles').select('*').eq('id', id).execute(); response.data *)
| AdminCreateUser (attrs : dict)
    (* client.auth.admin.create_user; answers response.user *)
| ProfilesInsert (row : dict)
| AdminUpdateUserById (user_id : string) (attrs : dict)
| ProfilesUpdate (user_id : string) (changes : dict)
| ProfilesDelete (user_id : string)
| AdminDeleteUser (user_id : string)
| ResetPasswordEmail (email : string)
| ProfilesSelectRoleStatus
    (* table('profiles').select('role, status').execute(); response.data *)
| ProfilesSearch (or_filter : string)
    (* table('profiles').select('*').or_(filter).execute(); response.data *)
| RpcExecSql (sql : string).

(** One entry of the call history: the call and whether it raised. *)
Record sdk_event := SdkEvent { ev_call : sdk_call; ev_raised : bool }.

Inductive ui_kind := UiError | UiSuccess | UiWarning | UiInfo.
Inductive log_level := LInfo | LWarning | LError.

(** ** The world the code runs in *)

(** [session_state] is [st.session_state]; [clock] is what
    [datetime.now()] reads; [backend] is the remote service behind the
    SDK, any deterministic function of the calls made so far and the
    current call; [calls] is that history, oldest first; [shown] and
    [logged] collect [st.error]/[st.success] messages and [logger]
    records, an f-string kept as the list of its pieces in order;
    [rerun_requested] records a call of [st.rerun()]. *)
Record world := World {
  session_state : gmap string value;
  clock : Z;
  backend : list sdk_event → sdk_call → result value;
  calls : list sdk_event;
  shown : list (ui_kind * list value);
  logged : list (log_level * list value);
  rerun_requested : bool
}.

(** ** State and exception monad *)

Definition M (A : Type) : Type := world → outcome A * world.

Definition ret {A} (a : A) : M A := λ w, (Ok a, w).

Definition bind {A B} (m : M A) (k : A → M B) : M B :=
  λ w, match m w with
       | (Ok a, w') => k a w'
       | (Raise e, w') => (Raise e, w')
       end.

Definition raise {A} (e : exn) : M A := λ w, (Raise (Exception e), w).

(** [try: body  except Exception as e: handler e] *)
Definition try_except {A} (body : M A) (handler : exn → M A) : M A :=
  λ w, match body w with
       | (Ok a, w') => (Ok a, w')
       | (Raise (Exception e), w') => handler e w'
       | (Raise RerunException, w') => (Raise RerunException, w')
       end.

Notation "'let*' x ':=' m 'in' k" := (bind m (λ x, k))
  (at level 10, x name, m at level 100, k at level 200).
Notation "m ';;;' k" := (bind m (λ _, k))
  (at level 100, k at level 200, right associativity).

(** *** Primitive effects *)

Definition get_world : M world := λ w, (Ok w, w).

(** [st.session_state.get(k)] and [st.session_state.get(k, dflt)] *)
Definition ss_get (k : string) : M value :=
  λ w, (Ok (default VNone (session_state w !! k)), w).

Definition ss_get_or (k : string) (dflt : value) : M value :=
  λ w, (Ok (default dflt (session_state w !! k)), w).

(** [k in st.session_state] *)
Definition ss_has (k : string) : M bool :=
  λ w, (Ok (bool_decide (is_Some (session_state w !! k))), w).

Definition with_session (f : gmap string value → gmap string value) (w : world) : world :=
  {| session_state := f (session_state w); clock := clock w; backend := backend w;
     calls := calls w; shown := shown w; logged := logged w;
     rerun_requested := rerun_requested w |}.

(** [st.session_state[k] = v] *)
Definition ss_set (k : string) (v : value) : M unit :=
  λ w, (Ok tt, with_session (insert k v) w).

(** [del st.session_state[k]] *)
Definition ss_del (k : string) : M unit :=
  λ w, match session_state w !! k with
       | Some _ => (Ok tt, with_session (delete k) w)
       | None => (Raise (Exception (Exn "KeyError" k)), w)
       end.

(** [datetime.now()] *)
Definition datetime_now : M Z := λ w, (Ok (clock w), w).

Definition st_show (kind : ui_kind) (msg : list value) : M unit :=
  λ w, (Ok tt,
        {| session_state := session_state w; clock := clock w; backend := backend w;
           calls := calls w; shown := shown w ++ [(kind, msg)]; logged := logged w;
           rerun_requested := rerun_requested w |}).

Definition st_error := st_show UiError.
Definition st_success := st_show UiSuccess.

Definition logger (lvl : log_level) (msg : list value) : M unit :=
  λ w, (Ok tt,
        {| session_state := session_state w; clock := clock w; backend := backend w;
           calls := calls w; shown := shown w; logged := logged w ++ [(lvl, msg)];
           rerun_requested := rerun_requested w |}).

(** [st.rerun()] records the rerun request and raises [RerunException]:
    the statements that follow it in the source are not reached, and no
    [except Exception] on the way out catches it. *)
Definition st_rerun : M unit :=
  λ w, (Raise RerunException,
        {| session_state := session_state w; clock := clock w; backend := backend w;
           calls := calls w; shown := shown w; logged := logged w;
           rerun_requested := true |}).

(** One SDK call: ask the backend, record the call and its outcome. *)
Definition sdk (c : sdk_call) : M value :=
  λ w, let r := backend w (calls w) c in
       let raised := match r with Ok _ => false | Raise _ => true end in
       (match r with Ok v => Ok v | Raise e => Raise (Exception e) end,
        {| session_state := session_state w; clock := clock w; backend := backend w;
           calls := calls w ++ [SdkEvent c raised]; shown := shown w;
           logged := logged w; rerun_requested := rerun_requested w |}).

(** *** Operations on Python values that can raise *)

(** [v.get(k)]: only a dict has the method. *)
Definition py_get (v : value) (k : string) : M value :=
  match v with
  | VDict d => ret (dict_get d k)
  | _ => raise (Exn "AttributeError" "get")
  end.

(** [v.name] on an SDK object, kept as the dict of its attributes. *)
Definition py_attr (v : value) (name : string) : M value :=
  match v with
  | VDict d => match dict_lookup d name with
               | Some x => ret x
               | None => raise (Exn "AttributeError" name)
               end
  | _ => raise (Exn "AttributeError" name)
  end.

(** [v[0]] *)
Definition py_first (v : value) : M value :=
  match v with
  | VList (x :: _) => ret x
  | VList [] => raise (Exn "IndexError" "list index out of range")
  | VStr (String c _) => ret (VStr (String c EmptyString))
  | VStr EmptyString => raise (Exn "IndexError" "string index out of range")
  | VDict _ => raise (Exn "KeyError" "0")
  | _ => raise (Exn "TypeError" "not subscriptable")
  end.

(** The SDK passes identifiers as [str]. *)
Definition py_as_str (v : value) : M string :=
  match v with
  | VStr s => ret s
  | _ => raise (Exn "TypeError" "str expected")
  end.

(** [len(v)] *)
Definition py_len (v : value) : M Z :=
  match v with
  | VList l => ret (Z.of_nat (length l))
  | VDict d => ret (Z.of_nat (length d))
  | VStr s => ret (Z.of_nat (String.length s))
  | _ => raise (Exn "TypeError" "object has no len()")
  end.

Fixpoint chars (s : string) : list value :=
  match s with
  | EmptyString => []
  | String c s' => VStr (String c EmptyString) :: chars s'
  end.

(** [for p in v]: the items a loop over [v] visits. *)
Definition py_iter (v : value) : M (list value) :=
  match v with
  | VList l => ret l
  | VDict d => ret (map (λ kv, VStr (fst kv)) d)
  | VStr s => ret (chars s)
  | _ => raise (Exn "TypeError" "object is not iterable")
  end.

(** ** utils/auth.py: AuthManager *)

(** [timedelta(hours=24)] in microseconds. *)
Definition SESSION_LIFETIME : Z := 24 * 3600 * 1000000.

Definition is_admin_authenticated : M value :=
  ss_get_or "admin_authenticated" (VBool false).

Definition get_current_admin : M value := ss_get "admin_user".

(** The loop of [logout] over its three keys. *)
Fixpoint del_present (keys : list string) : M unit :=
  match keys with
  | [] => ret tt
  | key :: rest =>
      let* present := ss_has key in
      (if present : bool then ss_del key else ret tt) ;;;
      del_present rest
  end.

Definition logout : M unit :=
  del_present ["admin_authenticated"; "admin_user"; "session_token"] ;;;
  st_rerun.

(** [token] is what [generate_session_token()] returned. *)
Definition create_session (token : string) (user_data : dict) : M string :=
  ss_set "session_token" (VStr token) ;;;
  ss_set "admin_user" (VDict user_data) ;;;
  ss_set "admin_authenticated" (VBool true) ;;;
  let* now := datetime_now in
  ss_set "session_created" (VTime now) ;;;
  ret token.

Definition validate_session : M bool :=
  let* token := ss_get "session_token" in
  if negb (truthy token) then ret false
  else
    let* session_created := ss_get "session_created" in
    if negb (truthy session_created) then ret false
    else
      let* now := datetime_now in
      match session_created with
      | VTime created =>
          if now - created >? SESSION_LIFETIME
          then logout ;;; ret false
          else ret true
      | _ => raise (Exn "TypeError" "unsupported operand type(s) for -")
      end.

Definition get_user_ip : string := "127.0.0.1".

(** [details] is [None] when the caller leaves it out. *)
Definition log_admin_action (action : string) (details : value) : M unit :=
  let* admin_user := get_current_admin in
  if truthy admin_user then
    let* admin_id := py_get admin_user "id" in
    let* admin_email := py_get admin_user "email" in
    let* now := datetime_now in
    let log_entry :=
      VDict [("admin_id", admin_id);
             ("admin_email", admin_email);
             ("action", VStr action);
             ("details", if truthy details then details else VDict []);
             ("timestamp", VStr (isoformat now));
             ("ip_address", VStr get_user_ip)] in
    let* present := ss_has "audit_logs" in
    (if present : bool then ret tt else ss_set "audit_logs" (VList [])) ;;;
    let* audit_logs := ss_get "audit_logs" in
    match audit_logs with
    | VList entries =>
        ss_set "audit_logs" (VList (entries ++ [log_entry])) ;;;
        let* shown_email := py_get admin_user "email" in
        logger LInfo [VStr "Admin action logged: "; VStr action; VStr " by "; shown_email]
    | _ => raise (Exn "AttributeError" "append")
    end
  else ret tt.

(** ** utils/supabase_client.py: SupabaseAdmin *)

Definition get_user_profile (user_id : string) : M value :=
  try_except
    (let* data := sdk (ProfilesSelectById user_id) in
     if truthy data then py_first data else ret VNone)
    (λ e,
       logger LError [VStr "Failed to fetch user profile: "; VStr (exn_str e)] ;;;
       ret VNone).

Definition authenticate_admin (email password : string) : M bool :=
  try_except
    (let* user := sdk (SignInWithPassword email password) in
     if truthy user then
       let* uid := py_attr user "id" in
       let* uid := py_as_str uid in
       let* user_data := get_user_profile uid in
       let* is_admin :=
         (if truthy user_data
          then let* role := py_get user_data "role" in ret (is_str role "admin")
          else ret false) in
       if is_admin : bool then
         ss_set "admin_user" user ;;;
         ss_set "admin_authenticated" (VBool true) ;;;
         ret true
       else
         st_error [VStr "Access denied. Admin privileges required."] ;;;
         ret false
     else ret false)
    (λ e,
       logger LError [VStr "Admin authentication failed: "; VStr (exn_str e)] ;;;
       st_error [VStr "Authentication failed: "; VStr (exn_str e)] ;;;
       ret false).

Definition get_all_users : M value :=
  try_except
    (let* response := sdk AdminListUsers in
     ret (if truthy response then response else VList []))
    (λ e,
       logger LError [VStr "Failed to fetch users: "; VStr (exn_str e)] ;;;
       st_error [VStr "Failed to fetch users: "; VStr (exn_str e)] ;;;
       ret (VList [])).

Definition create_user (email password : string) (user_data : dict) : M bool :=
  try_except
    (let* user := sdk (AdminCreateUser [("email", VStr email);
                                        ("password", VStr password);
                                        ("email_confirm", VBool true)]) in
     if truthy user then
       let* uid := py_attr user "id" in
       let* created_at := py_attr user "created_at" in
       let profile_data :=
         [("id", uid);
          ("email", VStr email);
          ("full_name", dict_get_or user_data "full_name" (VStr ""));
          ("role", dict_get_or user_data "role" (VStr "user"));
          ("status", dict_get_or user_data "status" (VStr "active"));
          ("created_at", created_at)] in
       sdk (ProfilesInsert profile_data) ;;;
       logger LInfo [VStr "User created successfully: "; VStr email] ;;;
       ret true
     else ret false)
    (λ e,
       logger LError [VStr "Failed to create user: "; VStr (exn_str e)] ;;;
       st_error [VStr "Failed to create user: "; VStr (exn_str e)] ;;;
       ret false).

(** The two payloads [update_user] builds from [user_data]. *)
Definition auth_updates_of (user_data : dict) : dict :=
  let with_email :=
    match dict_lookup user_data "email" with
    | Some e => dict_set [] "email" e
    | None => []
    end in
  match dict_lookup user_data "password" with
  | Some p => if truthy p then dict_set with_email "password" p else with_email
  | None => with_email
  end.

Definition profile_updates_of (user_data : dict) : dict :=
  List.filter (λ kv, negb (String.eqb (fst kv) "password")) user_data.

Definition update_user (user_id : string) (user_data : dict) : M bool :=
  try_except
    (let auth_updates := auth_updates_of user_data in
     (if truthy (VDict auth_updates)
      then sdk (AdminUpdateUserById user_id auth_updates) ;;; ret tt
      else ret tt) ;;;
     let profile_updates := profile_updates_of user_data in
     (if truthy (VDict profile_updates)
      then sdk (ProfilesUpdate user_id profile_updates) ;;; ret tt
      else ret tt) ;;;
     logger LInfo [VStr "User updated successfully: "; VStr user_id] ;;;
     ret true)
    (λ e,
       logger LError [VStr "Failed to update user: "; VStr (exn_str e)] ;;;
       st_error [VStr "Failed to update user: "; VStr (exn_str e)] ;;;
       ret false).

Definition delete_user (user_id : string) : M bool :=
  try_except
    (sdk (ProfilesDelete user_id) ;;;
     sdk (AdminDeleteUser user_id) ;;;
     logger LInfo [VStr "User deleted successfully: "; VStr user_id] ;;;
     ret true)
    (λ e,
       logger LError [VStr "Failed to delete user: "; VStr (exn_str e)] ;;;
       st_error [VStr "Failed to delete user: "; VStr (exn_str e)] ;;;
       ret false).

Definition reset_user_password (email : string) : M bool :=
  try_except
    (sdk (ResetPasswordEmail email) ;;;
     logger LInfo [VStr "Password reset email sent to: "; VStr email] ;;;
     ret true)
    (λ e,
       logger LError [VStr "Failed to send password reset: "; VStr (exn_str e)] ;;;
       st_error [VStr "Failed to send password reset: "; VStr (exn_str e)] ;;;
       ret false).

(** The comprehension [[p for p in items if p.get(field) == wanted]]
    counted: every item is asked [.get(field)], in order. *)
Fixpoint count_where (field wanted : string) (items : list value) : M Z :=
  match items with
  | [] => ret 0
  | p :: rest =>
      let* v := py_get p field in
      let* n := count_where field wanted rest in
      ret (if is_str v wanted then 1 + n else n)
  end.

(** [len([p for p in profiles if p.get(field) == wanted])] *)
Definition count_profiles (field wanted : string) (profiles : value) : M Z :=
  let* items := py_iter profiles in
  count_where field wanted items.

Definition zero_stats : value :=
  VDict [("total_users", VInt 0); ("active_users", VInt 0);
         ("inactive_users", VInt 0); ("admin_users", VInt 0);
         ("regular_users", VInt 0)].

Definition get_user_stats : M value :=
  try_except
    (let* users := get_all_users in
     let* data := sdk ProfilesSelectRoleStatus in
     let profiles := if truthy data then data else VList [] in
     let* total := py_len users in
     let* active := count_profiles "status" "active" profiles in
     let* inactive := count_profiles "status" "inactive" profiles in
     let* admins := count_profiles "role" "admin" profiles in
     let* regular := count_profiles "role" "user" profiles in
     ret (VDict [("total_users", VInt total); ("active_users", VInt active);
                 ("inactive_users", VInt inactive); ("admin_users", VInt admins);
                 ("regular_users", VInt regular)]))
    (λ e,
       logger LError [VStr "Failed to get user stats: "; VStr (exn_str e)] ;;;
       ret zero_stats).


(** ** components/user_forms.py *)

Definition in_range (lo hi : N) (c : ascii) : bool :=
  let n := N_of_ascii c in ((lo <=? n) && (n <=? hi))%N.

(** [[A-Za-z]] and [[0-9]] *)
Definition is_letter (c : ascii) : bool := in_range 65 90 c || in_range 97 122 c.
Definition is_digit (c : ascii) : bool := in_range 48 57 c.

Definition one_of (set : string) (c : ascii) : bool :=
  existsb (Ascii.eqb c) (list_ascii_of_string set).

(** [[a-zA-Z0-9._%+-]] and [[a-zA-Z0-9.-]] *)
Definition is_local_char (c : ascii) : bool := is_letter c || is_digit c || one_of "._%+-" c.
Definition is_domain_char (c : ascii) : bool := is_letter c || is_digit c || one_of ".-" c.

(** The text before the first [sep] and the text after it. *)
Fixpoint cut_first (sep : ascii) (cs : list ascii) : option (list ascii * list ascii) :=
  match cs with
  | [] => None
  | c :: rest =>
      if Ascii.eqb c sep then Some ([], rest)
      else match cut_first sep rest with
           | Some (before, after) => Some (c :: before, after)
           | None => None
           end
  end.

(** The text before the last [sep] and the text after it. *)
Fixpoint cut_last (sep : ascii) (cs : list ascii) : option (list ascii * list ascii) :=
  match cs with
  | [] => None
  | c :: rest =>
      match cut_last sep rest with
      | Some (before, after) => Some (c :: before, after)
      | None => if Ascii.eqb c sep then Some ([], rest) else None
      end
  end.

Definition nonempty {A} (l : list A) : bool :=
  match l with [] => false | _ => true end.

(** The whole of [cs] reads [local+ @ domain+ . letter{2,}].  The local
    part has no [@], so it ends at the first one; the final letters have
    no dot, so they start after the last one. *)
Definition email_shape (cs : list ascii) : bool :=
  match cut_first "@" cs with
  | Some (loc, rest) =>
      nonempty loc && forallb is_local_char loc &&
      match cut_last "." rest with
      | Some (dom, tld) =>
          nonempty dom && forallb is_domain_char dom &&
          (2 <=? length tld)%nat && forallb is_letter tld
      | None => false
      end
  | None => false
  end.

(** [re.match(pattern, email) is not None]; the closing [$] also matches
    just before a newline that ends the string. *)
Definition validate_email (email : string) : bool :=
  let cs := list_ascii_of_string email in
  email_shape cs ||
  match cut_last "010" cs with
  | Some (body, []) => email_shape body
  | _ => false
  end.

Definition validate_password (password : string) : bool * string :=
  let cs := list_ascii_of_string password in
  if (length cs <? 8)%nat then (false, "Password must be at least 8 characters long")
  else if negb (existsb is_letter cs) then (false, "Password must contain at least one letter")
  else if negb (existsb is_digit cs) then (false, "Password must contain at least one number")
  else (true, "Password is valid").

(** A connected [SupabaseAdmin] object; [None] is demo mode.  Its methods
    reach the service through the [backend] of the world. *)
Record SupabaseAdmin := { url : string; key : string; service_role_key : string }.

Fixpoint show_errors (errors : list string) : M unit :=
  match errors with
  | [] => ret tt
  | error :: rest => st_error [VStr error] ;;; show_errors rest
  end.

Definition email_errors (email : string) : list string :=
  if negb (truthy (VStr email)) then ["Email is required"]
  else if negb (validate_email email) then ["Invalid email format"]
  else [].

(** [success = False; if supabase_admin: ... else: ...]: the client call
    of each form, or its demo-mode stand-in. *)
Definition create_attempt (supabase_admin : option SupabaseAdmin)
    (email password role : string) (user_data : dict) : M bool :=
  match supabase_admin with
  | Some _ => create_user email password user_data
  | None =>
      st_success [VStr "Demo: User "; VStr email;
                  VStr " would be created with role "; VStr role] ;;;
      ret true
  end.

Definition update_attempt (supabase_admin : option SupabaseAdmin)
    (user_id email : string) (update_data : dict) : M bool :=
  match supabase_admin with
  | Some _ => update_user user_id update_data
  | None =>
      st_success [VStr "Demo: User "; VStr email; VStr " would be updated"] ;;;
      ret true
  end.

Definition delete_attempt (supabase_admin : option SupabaseAdmin)
    (user_id user_email : string) : M bool :=
  match supabase_admin with
  | Some _ => delete_user user_id
  | None =>
      st_success [VStr "Demo: User "; VStr user_email; VStr " would be deleted"] ;;;
      ret true
  end.

(** The [user_data] dict of [add_user_form]. *)
Definition add_user_data (full_name role status phone department job_title : string) : dict :=
  [("full_name", VStr full_name); ("role", VStr (lower role));
   ("status", VStr (lower status)); ("phone", VStr phone);
   ("department", VStr department); ("job_title", VStr job_title)].

(** The [update_data] dict of [edit_user_form]; the password joins it
    only when one was typed. *)
Definition edit_update_data
    (email full_name role status phone department job_title new_password : string) : dict :=
  let update_data :=
    [("email", VStr email); ("full_name", VStr full_name);
     ("role", VStr (lower role)); ("status", VStr (lower status));
     ("phone", VStr phone); ("department", VStr department);
     ("job_title", VStr job_title)] in
  if truthy (VStr new_password)
  then dict_set update_data "password" (VStr new_password)
  else update_data.

(** The [if submit:] block of [add_user_form]. *)
Definition add_user_form_submit
    (email full_name role phone password status department job_title : string)
    (supabase_admin : option SupabaseAdmin) : M unit :=
  let errors :=
    (email_errors email ++
     (if negb (truthy (VStr password)) then ["Password is required"]
      else let '(is_valid, msg) := validate_password password in
           if is_valid then [] else [msg]))%list in
  if nonempty errors then show_errors errors
  else
    let user_data := add_user_data full_name role status phone department job_title in
    let* success := create_attempt supabase_admin email password role user_data in
    if success : bool then
      st_success [VStr "User "; VStr email; VStr " created successfully!"] ;;;
      log_admin_action "create_user"
        (VDict [("email", VStr email); ("role", VStr role);
                ("department", VStr department)]) ;;;
      ss_set "show_add_user" (VBool false) ;;;
      st_rerun
    else ret tt.

(** [if k in st.session_state: del st.session_state[k]] *)
Definition ss_discard (k : string) : M unit :=
  let* present := ss_has k in
  if present : bool then ss_del k else ret tt.

(** The [if submit:] block of [edit_user_form]. *)
Definition edit_user_form_submit
    (user_id email full_name role phone new_password status department job_title : string)
    (supabase_admin : option SupabaseAdmin) : M unit :=
  let errors :=
    (email_errors email ++
     (if truthy (VStr new_password)
      then let '(is_valid, msg) := validate_password new_password in
           if is_valid then [] else [msg]
      else []))%list in
  if nonempty errors then show_errors errors
  else
    let update_data :=
      edit_update_data email full_name role status phone department job_title
        new_password in
    let* success := update_attempt supabase_admin user_id email update_data in
    if success : bool then
      st_success [VStr "User "; VStr email; VStr " updated successfully!"] ;;;
      log_admin_action "update_user"
        (VDict [("user_id", VStr user_id); ("email", VStr email);
                ("changes", VDict update_data)]) ;;;
      ss_set "show_edit_user" (VBool false) ;;;
      ss_discard "edit_user_id" ;;;
      st_rerun
    else ret tt.

(** The [Yes, Delete User] button of [delete_user_confirmation]. *)
Definition delete_user_confirmed
    (user_id user_email : string) (supabase_admin : option SupabaseAdmin) : M unit :=
  let* success := delete_attempt supabase_admin user_id user_email in
  if success : bool then
    st_success [VStr "User "; VStr user_email; VStr " deleted successfully!"] ;;;
    log_admin_action "delete_user"
      (VDict [("user_id", VStr user_id); ("email", VStr user_email)]) ;;;
    ss_set "show_delete_user" (VBool false) ;;;
    ss_discard "delete_user_id" ;;;
    st_rerun
  else ret tt.

(** *** Bulk operations *)

(** The five entries of the operation select box. *)
Inductive bulk_operation :=
| ActivateUsers | DeactivateUsers | ChangeRole | DeleteUsers | SendPasswordReset.

Definition operation_label (operation : bulk_operation) : string :=
  match operation with
  | ActivateUsers => "Activate Users"
  | DeactivateUsers => "Deactivate Users"
  | ChangeRole => "Change Role"
  | DeleteUsers => "Delete Users"
  | SendPasswordReset => "Send Password Reset"
  end.

(** The body of the loop over [selected_users]: the value of [success]
    for one [user_id]. *)
Definition bulk_one (operation : bulk_operation) (new_role : string)
    (supabase_admin : option SupabaseAdmin) (user_id : string) : M bool :=
  match operation with
  | ActivateUsers =>
      match supabase_admin with
      | Some _ => update_user user_id [("status", VStr "active")]
      | None => ret true
      end
  | DeactivateUsers =>
      match supabase_admin with
      | Some _ => update_user user_id [("status", VStr "inactive")]
      | None => ret true
      end
  | ChangeRole =>
      match supabase_admin with
      | Some _ => update_user user_id [("role", VStr (lower new_role))]
      | None => ret true
      end
  | DeleteUsers =>
      match supabase_admin with
      | Some _ => delete_user user_id
      | None => ret true
      end
  | SendPasswordReset => ret true
  end.

(** [for user_id in selected_users: ...] with its counter. *)
Fixpoint bulk_loop (operation : bulk_operation) (new_role : string)
    (supabase_admin : option SupabaseAdmin) (selected_users : list string)
    (success_count : Z) : M Z :=
  match selected_users with
  | [] => ret success_count
  | user_id :: rest =>
      let* success := bulk_one operation new_role supabase_admin user_id in
      bulk_loop operation new_role supabase_admin rest
        (if success : bool then success_count + 1 else success_count)
  end.

(** The [Execute] button of [bulk_operations_form]. *)
Definition bulk_execute (operation : bulk_operation) (new_role : string)
    (supabase_admin : option SupabaseAdmin) (selected_users : list string) : M unit :=
  let* success_count := bulk_loop operation new_role supabase_admin selected_users 0 in
  if success_count >? 0 then
    st_success [VStr (operation_label operation); VStr " completed for ";
                VInt success_count; VStr " users!"] ;;;
    log_admin_action "bulk_operation"
      (VDict [("operation", VStr (operation_label operation));
              ("user_count", VInt success_count);
              ("user_ids", VList (map VStr selected_users))]) ;;;
    st_rerun
  else st_error [VStr "Operation failed for all selected users"].

Definition bulk_operations_form (execute : bool) (operation : bulk_operation)
    (new_role : string) (selected_users : list string)
    (supabase_admin : option SupabaseAdmin) : M unit :=
  if negb (nonempty selected_users) then ret tt
  else if execute then bulk_execute operation new_role supabase_admin selected_users
  else ret tt.

(** ** utils/database_setup.py: DatabaseSetup *)

(** The double quote, kept apart from the text of the script. *)
Definition double_quote : string := String "034" EmptyString.

(** [get_setup_sql()]: the script, written here as the pieces between
    its double quotes. *)
Definition get_setup_sql : string :=
  String.concat double_quote
    ["
-- UserFlow Pro Database Setup Script
-- Run this in your Supabase SQL Editor

-- Enable necessary extensions
CREATE EXTENSION IF NOT EXISTS ";
     "uuid-ossp";
     ";

-- Create profiles table
CREATE TABLE IF NOT EXISTS profiles (
    id UUID REFERENCES auth.users(id) ON DELETE CASCADE PRIMARY KEY,
    email TEXT UNIQUE NOT NULL,
    full_name TEXT,
    avatar_url TEXT,
    role TEXT DEFAULT 'user' CHECK (role IN ('user', 'admin', 'moderator')),
    status TEXT DEFAULT 'active' CHECK (status IN ('active', 'inactive', 'suspended')),
    phone TEXT,
    department TEXT,
    job_title TEXT,
    bio TEXT,
    location TEXT,
    website TEXT,
    last_login TIMESTAMPTZ,
    email_notifications BOOLEAN DEFAULT TRUE,
    created_at TIMESTAMPTZ DEFAULT NOW(),
    updated_at TIMESTAMPTZ DEFAULT NOW()
);

-- Create user_sessions table for tracking login sessions
CREATE TABLE IF NOT EXISTS user_sessions (
    id UUID DEFAULT uuid_generate_v4() PRIMARY KEY,
    user_id UUID REFERENCES auth.users(id) ON DELETE CASCADE,
    session_token TEXT UNIQUE NOT NULL,
    ip_address INET,
    user_agent TEXT,
    created_at TIMESTAMPTZ DEFAULT NOW(),
    expires_at TIMESTAMPTZ NOT NULL,
    is_active BOOLEAN DEFAULT TRUE
);

-- Create audit_logs table for tracking admin actions
CREATE TABLE IF NOT EXISTS audit_logs (
    id UUID DEFAULT uuid_generate_v4() PRIMARY KEY,
    admin_id UUID REFERENCES auth.users(id) ON DELETE SET NULL,
    action TEXT NOT NULL,
    target_user_id UUID REFERENCES auth.users(id) ON DELETE SET NULL,
    details JSONB,
    ip_address INET,
    created_at TIMESTAMPTZ DEFAULT NOW()
);

-- Create password_reset_tokens table
CREATE TABLE IF NOT EXISTS password_reset_tokens (
    id UUID DEFAULT uuid_generate_v4() PRIMARY KEY,
    user_id UUID REFERENCES auth.users(id) ON DELETE CASCADE,
    token TEXT UNIQUE NOT NULL,
    expires_at TIMESTAMPTZ NOT NULL,
    used BOOLEAN DEFAULT FALSE,
    created_at TIMESTAMPTZ DEFAULT NOW()
);

-- Create user_preferences table
CREATE TABLE IF NOT EXISTS user_preferences (
    id UUID DEFAULT uuid_generate_v4() PRIMARY KEY,
    user_id UUID REFERENCES auth.users(id) ON DELETE CASCADE UNIQUE,
    theme TEXT DEFAULT 'light' CHECK (theme IN ('light', 'dark', 'auto')),
    language TEXT DEFAULT 'en',
    timezone TEXT DEFAULT 'UTC',
    notifications JSONB DEFAULT '{";
     "email";
     ": true, ";
     "push";
     ": false, ";
     "sms";
     ": false}',
    privacy_settings JSONB DEFAULT '{";
     "profile_visible";
     ": true, ";
     "email_visible";
     ": false}',
    created_at TIMESTAMPTZ DEFAULT NOW(),
    updated_at TIMESTAMPTZ DEFAULT NOW()
);

-- Create function to handle updated_at timestamp
CREATE OR REPLACE FUNCTION handle_updated_at()
RETURNS TRIGGER AS $$
BEGIN
    NEW.updated_at = NOW();
    RETURN NEW;
END;
$$ LANGUAGE plpgsql;

-- Create triggers for updated_at
CREATE TRIGGER profiles_updated_at
    BEFORE UPDATE ON profiles
    FOR EACH ROW
    EXECUTE FUNCTION handle_updated_at();

CREATE TRIGGER user_preferences_updated_at
    BEFORE UPDATE ON user_preferences
    FOR EACH ROW
    EXECUTE FUNCTION handle_updated_at();

-- Create function to handle new user profile creation
CREATE OR REPLACE FUNCTION handle_new_user()
RETURNS TRIGGER AS $$
BEGIN
    INSERT INTO profiles (id, email, full_name)
    VALUES (NEW.id, NEW.email, NEW.raw_user_meta_data->>'full_name');
    
    INSERT INTO user_preferences (user_id)
    VALUES (NEW.id);
    
    RETURN NEW;
END;
$$ LANGUAGE plpgsql SECURITY DEFINER;

-- Create trigger for new user profile creation
DROP TRIGGER IF EXISTS on_auth_user_created ON auth.users;
CREATE TRIGGER on_auth_user_created
    AFTER INSERT ON auth.users
    FOR EACH ROW
    EXECUTE FUNCTION handle_new_user();

-- Row Level Security (RLS) Policies

-- Enable RLS on all tables
ALTER TABLE profiles ENABLE ROW LEVEL SECURITY;
ALTER TABLE user_sessions ENABLE ROW LEVEL SECURITY;
ALTER TABLE audit_logs ENABLE ROW LEVEL SECURITY;
ALTER TABLE password_reset_tokens ENABLE ROW LEVEL SECURITY;
ALTER TABLE user_preferences ENABLE ROW LEVEL SECURITY;

-- Profiles policies
CREATE POLICY ";
     "Users can view their own profile";
     " ON profiles
    FOR SELECT USING (auth.uid() = id);

CREATE POLICY ";
     "Users can update their own profile";
     " ON profiles
    FOR UPDATE USING (auth.uid() = id);

CREATE POLICY ";
     "Admins can view all profiles";
     " ON profiles
    FOR SELECT USING (
        EXISTS (
            SELECT 1 FROM profiles 
            WHERE id = auth.uid() AND role = 'admin'
        )
    );

CREATE POLICY ";
     "Admins can insert profiles";
     " ON profiles
    FOR INSERT WITH CHECK (
        EXISTS (
            SELECT 1 FROM profiles 
            WHERE id = auth.uid() AND role = 'admin'
        )
    );

CREATE POLICY ";
     "Admins can update all profiles";
     " ON profiles
    FOR UPDATE USING (
        EXISTS (
            SELECT 1 FROM profiles 
            WHERE id = auth.uid() AND role = 'admin'
        )
    );

CREATE POLICY ";
     "Admins can delete profiles";
     " ON profiles
    FOR DELETE USING (
        EXISTS (
            SELECT 1 FROM profiles 
            WHERE id = auth.uid() AND role = 'admin'
        )
    );

-- User preferences policies
CREATE POLICY ";
     "Users can view their own preferences";
     " ON user_preferences
    FOR SELECT USING (auth.uid() = user_id);

CREATE POLICY ";
     "Users can update their own preferences";
     " ON user_preferences
    FOR UPDATE USING (auth.uid() = user_id);

CREATE POLICY ";
     "Users can insert their own preferences";
     " ON user_preferences
    FOR INSERT WITH CHECK (auth.uid() = user_id);

-- User sessions policies
CREATE POLICY ";
     "Users can view their own sessions";
     " ON user_sessions
    FOR SELECT USING (auth.uid() = user_id);

CREATE POLICY ";
     "Admins can view all sessions";
     " ON user_sessions
    FOR SELECT USING (
        EXISTS (
            SELECT 1 FROM profiles 
            WHERE id = auth.uid() AND role = 'admin'
        )
    );

CREATE POLICY ";
     "System can insert sessions";
     " ON user_sessions
    FOR INSERT WITH CHECK (true);

CREATE POLICY ";
     "System can update sessions";
     " ON user_sessions
    FOR UPDATE USING (true);

-- Audit logs policies
CREATE POLICY ";
     "Admins can view audit logs";
     " ON audit_logs
    FOR SELECT USING (
        EXISTS (
            SELECT 1 FROM profiles 
            WHERE id = auth.uid() AND role = 'admin'
        )
    );

CREATE POLICY ";
     "System can insert audit logs";
     " ON audit_logs
    FOR INSERT WITH CHECK (true);

-- Password reset tokens policies
CREATE POLICY ";
     "System can manage password reset tokens";
     " ON password_reset_tokens
    FOR ALL USING (true);

-- Create indexes for better performance
CREATE INDEX IF NOT EXISTS idx_profiles_email ON profiles(email);
CREATE INDEX IF NOT EXISTS idx_profiles_role ON profiles(role);
CREATE INDEX IF NOT EXISTS idx_profiles_status ON profiles(status);
CREATE INDEX IF NOT EXISTS idx_user_sessions_user_id ON user_sessions(user_id);
CREATE INDEX IF NOT EXISTS idx_user_sessions_token ON user_sessions(session_token);
CREATE INDEX IF NOT EXISTS idx_audit_logs_admin_id ON audit_logs(admin_id);
CREATE INDEX IF NOT EXISTS idx_audit_logs_target_user_id ON audit_logs(target_user_id);
CREATE INDEX IF NOT EXISTS idx_audit_logs_created_at ON audit_logs(created_at);
CREATE INDEX IF NOT EXISTS idx_password_reset_tokens_user_id ON password_reset_tokens(user_id);
CREATE INDEX IF NOT EXISTS idx_password_reset_tokens_token ON password_reset_tokens(token);
CREATE INDEX IF NOT EXISTS idx_user_preferences_user_id ON user_preferences(user_id);

-- Create views for easier data access
CREATE OR REPLACE VIEW user_details AS
SELECT 
    p.id,
    p.email,
    p.full_name,
    p.role,
    p.status,
    p.department,
    p.job_title,
    p.last_login,
    p.created_at,
    up.theme,
    up.language,
    up.timezone,
    au.email_confirmed_at,
    au.last_sign_in_at
FROM profiles p
LEFT JOIN user_preferences up ON p.id = up.user_id
LEFT JOIN auth.users au ON p.id = au.id;

-- Insert sample data (optional - remove in production)
-- This creates a default admin user - update with your actual admin email
INSERT INTO auth.users (id, email, encrypted_password, email_confirmed_at, created_at, updated_at)
VALUES (
    gen_random_uuid(),
    'entremotivator@gmail.com',
    crypt('admin123', gen_salt('bf')),
    NOW(),
    NOW(),
    NOW()
) ON CONFLICT (email) DO NOTHING;

-- Update the admin user role
UPDATE profiles 
SET role = 'admin', status = 'active' 
WHERE email = 'entremotivator@gmail.com';

-- Create a function to safely create admin users
CREATE OR REPLACE FUNCTION create_admin_user(
    admin_email TEXT,
    admin_password TEXT,
    admin_name TEXT DEFAULT NULL
)
RETURNS UUID AS $$
DECLARE
    new_user_id UUID;
BEGIN
    -- Insert into auth.users
    INSERT INTO auth.users (
        id,
        email,
        encrypted_password,
        email_confirmed_at,
        created_at,
        updated_at
    ) VALUES (
        gen_random_uuid(),
        admin_email,
        crypt(admin_password, gen_salt('bf')),
        NOW(),
        NOW(),
        NOW()
    ) RETURNING id INTO new_user_id;
    
    -- Update profile to admin role
    UPDATE profiles 
    SET role = 'admin', 
        status = 'active',
        full_name = COALESCE(admin_name, admin_email)
    WHERE id = new_user_id;
    
    RETURN new_user_id;
END;
$$ LANGUAGE plpgsql SECURITY DEFINER;

-- Grant necessary permissions
GRANT USAGE ON SCHEMA public TO anon, authenticated;
GRANT ALL ON ALL TABLES IN SCHEMA public TO anon, authenticated;
GRANT ALL ON ALL SEQUENCES IN SCHEMA public TO anon, authenticated;

-- Success message
SELECT 'UserFlow Pro database setup completed successfully!' as message;
"].

(** [[stmt.strip() for stmt in setup_sql.split(';') if stmt.strip()]] *)
Definition statements_of (setup_sql : string) : list string :=
  List.filter (λ stmt, truthy (VStr stmt)) (map strip (split ";" setup_sql)).

(** [for i, statement in enumerate(statements): ...], from index [i]. *)
Fixpoint run_statements (i : Z) (statements : list string) (success_count : Z) : M Z :=
  match statements with
  | [] => ret success_count
  | statement :: rest =>
      if truthy (VStr statement) && negb (startswith "--" statement) then
        let* executed :=
          try_except
            (sdk (RpcExecSql statement) ;;; ret true)
            (λ e,
               logger LWarning [VStr "Statement "; VInt (i + 1); VStr " failed: ";
                                VStr (exn_str e)] ;;;
               ret false) in
        run_statements (i + 1) rest
          (if executed : bool then success_count + 1 else success_count)
      else run_statements (i + 1) rest success_count
  end.

(** [setup_sql] is the script [get_setup_sql()] returns. *)
Definition execute_setup (setup_sql : string) : M bool :=
  try_except
    (let statements := statements_of setup_sql in
     let total_statements := Z.of_nat (length statements) in
     let* success_count := run_statements 0 statements 0 in
     logger LInfo [VStr "Database setup completed: "; VInt success_count; VStr "/";
                   VInt total_statements; VStr " statements executed"] ;;;
     ret (success_count >? 0))
    (λ e,
       logger LError [VStr "Database setup failed: "; VStr (exn_str e)] ;;;
       ret false).

(** ** The filter block of render_user_management *)

(** A row keeps its string cells by column name; a column the row has no
    entry for holds a missing value (NaN). *)
Record DataFrame := {
  columns : list string;
  rows : list (gmap string string)
}.

(** [df.empty] *)
Definition df_empty (df : DataFrame) : bool :=
  negb (nonempty (columns df)) || negb (nonempty (rows df)).

Fixpoint is_substring (p s : string) : bool :=
  startswith p s ||
  match s with
  | EmptyString => false
  | String _ s' => is_substring p s'
  end.

(** The characters a regular expression reads as operators. *)
Definition is_literal (pat : string) : bool :=
  forallb (λ c, negb (one_of ".^$*+?{}[]\|()" c)) (list_ascii_of_string pat).

Section Filters.

(** [Series.str.contains(pat, case=False, na=False)] reads [pat] as a
    regular expression ([regex=True] is its default) and searches each
    cell for it, ignoring case.  For a pattern made of ordinary
    characters that is a search for the pattern as a substring, case
    folded; the outcome for any other pattern is the library's. *)
Variable re_search_ignorecase : string → string → bool.

Definition str_contains (pat : string) (cell : option string) : bool :=
  match cell with
  | None => false
  | Some s =>
      if is_literal pat then is_substring (lower pat) (lower s)
      else re_search_ignorecase pat s
  end.

(** [df[col] == wanted], row by row. *)
Definition cell_is (col wanted : string) (row : gmap string string) : bool :=
  match row !! col with
  | Some s => String.eqb s wanted
  | None => false
  end.

Definition has_column (df : DataFrame) (col : string) : bool :=
  existsb (String.eqb col) (columns df).

(** The rows shown for a non-empty [users_df]: the three filters in
    the order of the source.  [filtered_df['Email']] and
    [filtered_df['Status']] need their column; [Full Name] is fetched
    with [.get] and an empty default, which matches nothing. *)
Definition filter_users (users_df : DataFrame)
    (search_query role_filter status_filter : string)
    : result (list (gmap string string)) :=
  if df_empty users_df then Ok []
  else
    let filtered := rows users_df in
    let searched :=
      if truthy (VStr search_query) then
        if has_column users_df "Email" then
          Ok (List.filter (λ row,
                        str_contains search_query (row !! "Email") ||
                        (if has_column users_df "Full Name"
                         then str_contains search_query (row !! "Full Name")
                         else false))
                     filtered)
        else Raise (Exn "KeyError" "Email")
      else Ok filtered in
    match searched with
    | Raise e => Raise e
    | Ok filtered =>
        let filtered :=
          if negb (String.eqb role_filter "All") && has_column users_df "Role"
          then List.filter (cell_is "Role" role_filter) filtered
          else filtered in
        if negb (String.eqb status_filter "All") then
          if has_column users_df "Status"
          then Ok (List.filter (cell_is "Status" status_filter) filtered)
          else Raise (Exn "KeyError" "Status")
        else Ok filtered
    end.

End Filters.

(** * Further code of the same files *)

(** ** utils/supabase_client.py: bulk_update_users *)

(** [for user_id in user_ids: self.update_user(user_id, updates)]; the
    value [update_user] returns is dropped. *)
Fixpoint update_each (user_ids : list string) (updates : dict) : M unit :=
  match user_ids with
  | [] => ret tt
  | user_id :: rest => update_user user_id updates ;;; update_each rest updates
  end.

Definition bulk_update_users (user_ids : list string) (updates : dict) : M bool :=
  try_except
    (update_each user_ids updates ;;;
     logger LInfo [VStr "Bulk updated "; VInt (Z.of_nat (length user_ids)); VStr " users"] ;;;
     ret true)
    (λ e,
       logger LError [VStr "Failed to bulk update users: "; VStr (exn_str e)] ;;;
       ret false).

(** ** components/user_forms.py: reset_password_form *)

(** The [Send Reset Email] button. *)
Definition reset_email_clicked (user_id user_email : string)
    (supabase_admin : option SupabaseAdmin) : M unit :=
  let* success :=
    match supabase_admin with
    | Some _ => reset_user_password user_email
    | None =>
        st_success [VStr "Demo: Reset email would be sent to "; VStr user_email] ;;;
        ret true
    end in
  if success : bool then
    st_success [VStr "Password reset email sent to "; VStr user_email; VStr "!"] ;;;
    log_admin_action "password_reset_email"
      (VDict [("user_id", VStr user_id); ("email", VStr user_email)])
  else ret tt.

(** The errors of the [manual_password_reset] form. *)
Definition manual_reset_errors (new_password confirm_password : string) : list string :=
  ((if negb (truthy (VStr new_password)) then ["Password is required"]
    else let '(is_valid, msg) := validate_password new_password in
         if is_valid then [] else [msg]) ++
   (if negb (String.eqb new_password confirm_password)
    then ["Passwords do not match"] else []))%list.

(** The [if submit:] block of the [manual_password_reset] form. *)
Definition manual_reset_submit (user_id user_email new_password confirm_password : string)
    (supabase_admin : option SupabaseAdmin) : M unit :=
  let errors := manual_reset_errors new_password confirm_password in
  if nonempty errors then show_errors errors
  else
    let* success :=
      match supabase_admin with
      | Some _ => update_user user_id [("password", VStr new_password)]
      | None =>
          st_success [VStr "Demo: Password would be updated for "; VStr user_email] ;;;
          ret true
      end in
    if success : bool then
      st_success [VStr "Password updated successfully for "; VStr user_email; VStr "!"] ;;;
      log_admin_action "password_reset_manual"
        (VDict [("user_id", VStr user_id); ("email", VStr user_email)]) ;;;
      ss_set "show_reset_password" (VBool false) ;;;
      ss_discard "reset_user_id" ;;;
      st_rerun
    else ret tt.

(** ** utils/database_setup.py: create_sample_users *)

(** [d[k]] on a dict. *)
Definition py_item (d : dict) (k : string) : M value :=
  match dict_lookup d k with
  | Some v => ret v
  | None => raise (Exn "KeyError" k)
  end.

Definition sample_users : list dict :=
  [[("email", VStr "john.doe@example.com"); ("password", VStr "password123");
    ("full_name", VStr "John Doe"); ("role", VStr "user");
    ("department", VStr "Engineering")];
   [("email", VStr "jane.smith@example.com"); ("password", VStr "password123");
    ("full_name", VStr "Jane Smith"); ("role", VStr "user");
    ("department", VStr "Marketing")];
   [("email", VStr "mike.wilson@example.com"); ("password", VStr "password123");
    ("full_name", VStr "Mike Wilson"); ("role", VStr "moderator");
    ("department", VStr "Sales")]].

(** The body of the loop over [sample_users], with its own [try]. *)
Definition create_sample_user (user : dict) : M unit :=
  try_except
    (let* email := py_item user "email" in
     let* password := py_item user "password" in
     let* full_name := py_item user "full_name" in
     let* auth_user :=
       sdk (AdminCreateUser [("email", email); ("password", password);
                             ("email_confirm", VBool true);
                             ("user_metadata", VDict [("full_name", full_name)])]) in
     if truthy auth_user then
       let* full_name := py_item user "full_name" in
       let* role := py_item user "role" in
       let* department := py_item user "department" in
       let* uid := py_attr auth_user "id" in
       let* uid := py_as_str uid in
       sdk (ProfilesUpdate uid [("full_name", full_name); ("role", role);
                                ("department", department);
                                ("status", VStr "active")]) ;;;
       ret tt
     else ret tt)
    (λ e,
       let* email := py_item user "email" in
       logger LWarning [VStr "Failed to create sample user "; email; VStr ": ";
                        VStr (exn_str e)]).

Fixpoint create_each (users : list dict) : M unit :=
  match users with
  | [] => ret tt
  | user :: rest => create_sample_user user ;;; create_each rest
  end.

Definition create_sample_users : M bool :=
  try_except
    (create_each sample_users ;;; ret true)
    (λ e,
       logger LError [VStr "Failed to create sample users: "; VStr (exn_str e)] ;;;
       ret false).

(** ** app.py: the inline handlers of the user-management page *)

(** The three bulk buttons of [render_user_management] in [app.py]. *)
Inductive bulk_button := ActivateSelected | DeactivateSelected | DeleteSelected.

Definition bulk_button_clicked (button : bulk_button) (selected_users : list string)
    : M unit :=
  let n := VInt (Z.of_nat (length selected_users)) in
  match button with
  | ActivateSelected =>
      st_success [VStr "Activated "; n; VStr " users"] ;;;
      log_admin_action "bulk_activate" (VDict [("user_count", n)])
  | DeactivateSelected =>
      st_success [VStr "Deactivated "; n; VStr " users"] ;;;
      log_admin_action "bulk_deactivate" (VDict [("user_count", n)])
  | DeleteSelected =>
      st_error [VStr "Deleted "; n; VStr " users"] ;;;
      log_admin_action "bulk_delete" (VDict [("user_count", n)])
  end.

(** The [Create User] button of the add-user modal of [handle_modals] in
    [app.py]. *)
Definition inline_create_user (new_email new_password new_role : string) : M unit :=
  if truthy (VStr new_email) && truthy (VStr new_password) then
    st_success [VStr "User "; VStr new_email; VStr " created successfully!"] ;;;
    log_admin_action "create_user"
      (VDict [("email", VStr new_email); ("role", VStr new_role)]) ;;;
    ss_set "show_add_user" (VBool false) ;;;
    st_rerun
  else st_error [VStr "Email and password are required"].

(** ** utils/auth.py: login_form and require_auth *)

(** [d.get(k, dflt)] on a value. *)
Definition py_get_or (v : value) (k : string) (dflt : value) : M value :=
  match v with
  | VDict d => ret (dict_get_or d k dflt)
  | _ => raise (Exn "AttributeError" "get")
  end.

(** [st.secrets.get(section, {}).get(k, dflt)] for the secrets [secrets]. *)
Definition secret_or (secrets : dict) (section k : string) (dflt : value) : M value :=
  py_get_or (dict_get_or secrets section (VDict [])) k dflt.

(** The [if submit:] block of [login_form].  [connect] is the
    constructor call [SupabaseAdmin()], [secrets] is [st.secrets] and
    [token] is what [generate_session_token()] gives. *)
Definition login_form_submit (connect : M SupabaseAdmin) (secrets : dict) (token : string)
    (email password : string) : M bool :=
  if negb (truthy (VStr email)) || negb (truthy (VStr password)) then
    st_error [VStr "Please enter both email and password"] ;;;
    ret false
  else
    try_except
      (let* supabase_admin := connect in
       let* admitted := authenticate_admin email password in
       if admitted : bool then
         st_success [VStr "Login successful!"] ;;;
         st_rerun ;;;
         ret true
       else
         st_error [VStr "Invalid credentials or insufficient privileges"] ;;;
         ret false)
      (λ e,
         let* default_email :=
           secret_or secrets "admin" "default_email" (VStr "entremotivator@gmail.com") in
         let* default_password :=
           secret_or secrets "admin" "default_password" (VStr "admin123") in
         if is_str default_email email && is_str default_password password then
           let admin_user :=
             [("id", VStr "demo-admin-id"); ("email", VStr email);
              ("full_name", VStr "Demo Administrator"); ("role", VStr "admin")] in
           create_session token admin_user ;;;
           st_success [VStr "Login successful! (Demo mode)"] ;;;
           st_rerun ;;;
           ret true
         else
           st_error [VStr "Invalid credentials"] ;;;
           ret false).

(** The three ways [require_auth] ends on its own: after the login form
    with [st.stop()], after the expiry message with [st.stop()], or by
    returning to the page.  A rerun raised inside it, by the login form
    or by [validate_session], ends it as it ends the run. *)
Inductive gate := LoginShown | SessionExpired | Proceed.

(** [login] is the call [login_form()]. *)
Definition require_auth (login : M bool) : M gate :=
  let* authenticated := is_admin_authenticated in
  if negb (truthy authenticated) then
    login ;;; ret LoginShown
  else
    let* valid := validate_session in
    if negb valid then
      st_error [VStr "Session expired. Please log in again."] ;;;
      ret SessionExpired
    else ret Proceed.

(** ** enhanced_app.py: the recent activity of the dashboard *)

(** A row of the activity table; the f-string of [Details] is kept as
    the list of its pieces. *)
Record activity := Activity { Time : value; Action : value; Details : list value }.

Definition last_ten {A} (l : list A) : list A := drop (length l - 10)%nat l.

(** [v[-10:]] *)
Definition py_last_ten (v : value) : M value :=
  match v with
  | VList l => ret (VList (last_ten l))
  | VStr s => ret (VStr (string_of_list_ascii (last_ten (list_ascii_of_string s))))
  | _ => raise (Exn "TypeError" "not subscriptable")
  end.

Fixpoint activity_rows (recent_logs : list value) : M (list activity) :=
  match recent_logs with
  | [] => ret []
  | log :: rest =>
      let* time := py_get_or log "timestamp" (VStr "Unknown") in
      let* action := py_get_or log "action" (VStr "Unknown") in
      let* admin_email := py_get_or log "admin_email" (VStr "Unknown") in
      let* details := py_get_or log "details" (VDict []) in
      let* rows := activity_rows rest in
      ret (Activity time action [admin_email; VStr " - "; details] :: rows)
  end.

Definition demo_activity : list activity :=
  [Activity (VStr "2 minutes ago") (VStr "User created") [VStr "john.doe@example.com"];
   Activity (VStr "15 minutes ago") (VStr "Password reset") [VStr "jane.smith@example.com"];
   Activity (VStr "1 hour ago") (VStr "User updated") [VStr "mike.wilson@example.com"];
   Activity (VStr "2 hours ago") (VStr "User deleted") [VStr "old.user@example.com"];
   Activity (VStr "3 hours ago") (VStr "Bulk update") [VStr "5 users updated"]].

(** The rows [render_dashboard] hands to [st.dataframe] under
    [Recent Activity]. *)
Definition recent_activity : M (list activity) :=
  let* audit_logs := ss_get_or "audit_logs" (VList []) in
  let* recent_logs := py_last_ten audit_logs in
  if truthy recent_logs then
    let* logs := py_iter recent_logs in
    activity_rows logs
  else ret demo_activity.

(** * Vocabulary of the properties *)

(** ** Reading a world *)

(** The audit store: the entries under [audit_logs], none when the key
    is absent. *)
Definition audit_store (w : world) : list value :=
  match session_state w !! "audit_logs" with
  | Some (VList entries) => entries
  | _ => []
  end.

(** The SDK calls made between [w] and a later world [w']. *)
Definition calls_since (w w' : world) : list sdk_event :=
  drop (length (calls w)) (calls w').

(** The current actor, as [log_admin_action] tests it. *)
Definition actor (w : world) : value :=
  default VNone (session_state w !! "admin_user").

(** No session: the token or the creation time is missing. *)
Definition no_session (w : world) : Prop :=
  session_state w !! "session_token" = None ∨
  session_state w !! "session_created" = None.

(** Expired: created more than 24 hours before the clock. *)
Definition expired (w : world) : Prop :=
  ∃ created, session_state w !! "session_created" = Some (VTime created) ∧
             clock w - created > SESSION_LIFETIME.

(** Session state as [create_session] writes it: the token a non-empty
    string, the creation time a datetime. *)
Definition session_typed (w : world) : Prop :=
  (∀ v, session_state w !! "session_token" = Some v → ∃ tok, v = VStr tok ∧ tok ≠ "") ∧
  (∀ v, session_state w !! "session_created" = Some v → ∃ created, v = VTime created).

(** Every session field is gone. *)
Definition session_cleared (w : world) : Prop :=
  session_state w !! "session_token" = None ∧
  session_state w !! "admin_user" = None ∧
  session_state w !! "admin_authenticated" = None ∧
  session_state w !! "session_created" = None.

(** The actor is absent or a dict, the audit store absent or a list. *)
Definition audit_typed (w : world) : Prop :=
  (∀ v, session_state w !! "admin_user" = Some v → ∃ d, v = VDict d) ∧
  (∀ v, session_state w !! "audit_logs" = Some v → ∃ entries, v = VList entries).

(** ** Worlds of the examples *)

(** A backend that is unreachable: every call raises. *)
Definition unreachable : list sdk_event → sdk_call → result value :=
  λ _ _, Raise (Exn "ConnectionError" "backend unreachable").

(** The admin user the demo login of [login_form] creates. *)
Definition demo_admin : dict :=
  [("id", VStr "demo-admin-id"); ("email", VStr "entremotivator@gmail.com");
   ("full_name", VStr "Demo Administrator"); ("role", VStr "admin")].

Definition world_of (session : gmap string value) (now : Z)
    (service : list sdk_event → sdk_call → result value) : world :=
  World session now service [] [] [] false.

(** The time of the demo login: 20 January 2024, 09:00. *)
Definition login_time : Z := 63841338000000000.

(** The session [create_session] leaves at that time, read one hour
    later and 25 hours later. *)
Definition demo_session : gmap string value :=
  <["session_created" := VTime login_time]>
    (<["admin_authenticated" := VBool true]>
       (<["admin_user" := VDict demo_admin]>
          (<["session_token" := VStr "k3Jq0bTn"]> ∅))).

Definition fresh_world : world :=
  world_of demo_session (login_time + 3600 * 1000000) unreachable.
Definition stale_world : world :=
  world_of demo_session (login_time + 25 * 3600 * 1000000) unreachable.

(** The session [authenticate_admin] leaves: a user and the flag, no
    token and no creation time. *)
Definition signed_in_session : gmap string value :=
  <["admin_authenticated" := VBool true]> (<["admin_user" := VDict demo_admin]> ∅).

Definition signed_in_world : world := world_of signed_in_session login_time unreachable.

(** ** Audit entries *)

(** The entry [log_admin_action] builds for the actor [admin]. *)
Definition audit_entry (admin : dict) (action : string) (details : value) (now : Z) : value :=
  VDict [("admin_id", dict_get admin "id");
         ("admin_email", dict_get admin "email");
         ("action", VStr action);
         ("details", if truthy details then details else VDict []);
         ("timestamp", VStr (isoformat now));
         ("ip_address", VStr "127.0.0.1")].

(** What a step may change when it only talks to the backend, the page
    and the logger. *)
Definition same_session (w w' : world) : Prop :=
  session_state w' = session_state w ∧ clock w' = clock w ∧
  backend w' = backend w ∧ rerun_requested w' = rerun_requested w.

(** A computation that only talks to the backend, the page and the logger. *)
Definition frames {A} (m : M A) : Prop := ∀ w, same_session w (snd (m w)).

(** An actor is signed in: a non-empty dict under [admin_user]. *)
Definition has_actor (admin : dict) (w : world) : Prop :=
  audit_typed w ∧ actor w = VDict admin ∧ admin ≠ [].

(** From [w] to [w'] the store grew by exactly the entry for [action]. *)
Definition appends_entry (admin : dict) (action : string) (details : value)
    (w w' : world) : Prop :=
  audit_store w' = (audit_store w ++ [audit_entry admin action details (clock w)])%list.

(** ** Bulk operations against a backend with failing identifiers *)

(** The identifier an SDK call is about. *)
Definition call_target (c : sdk_call) : option string :=
  match c with
  | ProfilesSelectById u | AdminUpdateUserById u _ | ProfilesUpdate u _
  | ProfilesDelete u | AdminDeleteUser u => Some u
  | _ => None
  end.

Definition raises {A} (r : result A) : bool :=
  match r with Raise _ => true | Ok _ => false end.

(** The backend fails exactly on the identifiers of [failing], at any
    point of the history. *)
Definition fails_on (failing : string → bool) (w : world) : Prop :=
  ∀ history c u, call_target c = Some u → raises (backend w history c) = failing u.

(** The SDK calls one identifier costs: one profile update for the three
    update operations; for a deletion the profile row and then, if that
    went through, the credential row. *)
Definition bulk_events (operation : bulk_operation) (new_role : string)
    (failing : string → bool) (user_id : string) : list sdk_event :=
  match operation with
  | ActivateUsers =>
      [SdkEvent (ProfilesUpdate user_id [("status", VStr "active")]) (failing user_id)]
  | DeactivateUsers =>
      [SdkEvent (ProfilesUpdate user_id [("status", VStr "inactive")]) (failing user_id)]
  | ChangeRole =>
      [SdkEvent (ProfilesUpdate user_id [("role", VStr (lower new_role))]) (failing user_id)]
  | DeleteUsers =>
      SdkEvent (ProfilesDelete user_id) (failing user_id) ::
      (if failing user_id then [] else [SdkEvent (AdminDeleteUser user_id) false])
  | SendPasswordReset => []
  end.

(** A backend that fails on [user-3] and on nothing else. *)
Definition fails_for_user3 : list sdk_event → sdk_call → result value :=
  λ _ c, match call_target c with
         | Some u => if String.eqb u "user-3"
                     then Raise (Exn "APIError" "row is locked")
                     else Ok VNone
         | None => Ok VNone
         end.

(** ** The password in the payloads of update_user *)

(** The password [update_user] will pass on: the one in [user_data],
    when there is one and it is not empty. *)
Definition password_of (user_data : dict) : option value :=
  match dict_lookup user_data "password" with
  | Some p => if truthy p then Some p else None
  | None => None
  end.

(** The calls [update_user] can make about [user_id], and what each may
    carry of the password. *)
Definition password_routed (user_id : string) (user_data : dict) (ev : sdk_event) : Prop :=
  match ev_call ev with
  | AdminUpdateUserById u attrs =>
      u = user_id ∧ dict_lookup attrs "password" = password_of user_data
  | ProfilesUpdate u changes =>
      u = user_id ∧ dict_has changes "password" = false
  | _ => False
  end.

(** ** Failing soft *)

(** Some SDK call between [w] and [w'] raised. *)
Definition any_raised (w w' : world) : bool := existsb ev_raised (calls_since w w').

(** [op] never lets an exception out, and gives [failure] whenever an
    SDK call made during it raised. *)
Definition fail_soft {A} (op : M A) (failure : A) : Prop :=
  ∀ w, ∃ v w', op w = (Ok v, w') ∧ (any_raised w w' = true → v = failure).

(** [m] only adds to the call history, is not ended by a rerun, and an
    [Ok v] reached although one of its SDK calls raised satisfies [P]. *)
Definition soft {A} (P : A → Prop) (m : M A) : Prop :=
  ∀ w, ∃ events, calls (snd (m w)) = (calls w ++ events)%list ∧
       fst (m w) ≠ Raise RerunException ∧
       ∀ v, fst (m w) = Ok v → existsb ev_raised events = true → P v.

(** [m] lets every SDK exception through. *)
Definition strict {A} (m : M A) : Prop := soft (λ _, False) m.

(** [m] makes no SDK call and is not ended by a rerun. *)
Definition quiet {A} (m : M A) : Prop :=
  ∀ w, calls (snd (m w)) = calls w ∧ fst (m w) ≠ Raise RerunException.

(** [m] makes no SDK call and returns [a]. *)
Definition answers {A} (m : M A) (a : A) : Prop :=
  ∀ w, fst (m w) = Ok a ∧ calls (snd (m w)) = calls w.



(** ** The statements of the setup script *)

(** The statements the loop hands to the backend: not empty and not
    starting with a comment marker. *)
Definition runnable (statement : string) : bool :=
  truthy (VStr statement) && negb (startswith "--" statement).

Definition succeeded (events : list sdk_event) : Z :=
  Z.of_nat (length (List.filter (λ ev, negb (ev_raised ev)) events)).

Definition failed (events : list sdk_event) : nat :=
  length (List.filter ev_raised events).

(** The warnings the logger received between [w] and [w']. *)
Definition warnings_since (w w' : world) : list (log_level * list value) :=
  List.filter (λ r, match fst r with LWarning => true | _ => false end)
    (drop (length (logged w)) (logged w')).

(** A backend that accepts every call. *)
Definition accepting : list sdk_event → sdk_call → result value := λ _ _, Ok VNone.

(** The opening of the setup script, cut down to two statements. *)
Definition two_statements : string :=
"
-- Create profiles table
CREATE TABLE IF NOT EXISTS profiles (id UUID);

GRANT USAGE ON SCHEMA public TO anon;
".

(** ** The filters as the specification words them *)

Abbreviation row := (gmap string string).

(** A record is kept when the query is, case folded, a substring of its
    email or of its display name, when its role is the chosen one unless
    the choice is [All], and likewise for its status. *)
Definition substring_ignorecase (query : string) (cell : option string) : bool :=
  match cell with
  | Some s => is_substring (lower query) (lower s)
  | None => false
  end.

Definition spec_text (query : string) (r : row) : bool :=
  substring_ignorecase query (r !! "Email") ||
  substring_ignorecase query (r !! "Full Name").

Definition spec_choice (col choice : string) (r : row) : bool :=
  String.eqb choice "All" || cell_is col choice r.

Definition spec_keeps (query role_filter status_filter : string) (r : row) : bool :=
  spec_text query r && spec_choice "Role" role_filter r &&
  spec_choice "Status" status_filter r.

(** The same with the two provisos of the code: an empty query keeps
    every record, and a table without a [Role] column is not filtered
    by role. *)
Definition keeps (df : DataFrame) (query role_filter status_filter : string)
    (r : row) : bool :=
  (negb (truthy (VStr query)) || spec_text query r) &&
  (negb (has_column df "Role") || spec_choice "Role" role_filter r) &&
  spec_choice "Status" status_filter r.

(** Every cell of every row sits in a column of the frame. *)
Definition frame_wf (df : DataFrame) : bool :=
  forallb (λ r : row, forallb (λ kv, has_column df (fst kv)) (map_to_list r)) (rows df).

(** ** The two tables of the source *)

(** Stands for the regular-expression search in the examples, whose
    queries are plain text and never reach it. *)
Definition no_regex : string → string → bool := λ _ _, false.

Definition demo_row (id email name role status created last_login : string)
    : gmap string string :=
  <["ID" := id]> (<["Email" := email]> (<["Full Name" := name]> (<["Role" := role]>
    (<["Status" := status]> (<["Created" := created]> (<["Last Login" := last_login]> ∅)))))).

(** The demo table of [render_user_management]. *)
Definition demo_users : DataFrame :=
  {| columns := ["ID"; "Email"; "Full Name"; "Role"; "Status"; "Created"; "Last Login"];
     rows :=
       [demo_row "user-1" "entremotivator@gmail.com" "Admin User" "Admin" "Active"
          "2024-01-15" "2024-01-20";
        demo_row "user-2" "john.doe@example.com" "John Doe" "User" "Active"
          "2024-01-16" "2024-01-19";
        demo_row "user-3" "jane.smith@example.com" "Jane Smith" "User" "Inactive"
          "2024-01-17" "2024-01-18";
        demo_row "user-4" "mike.wilson@example.com" "Mike Wilson" "Moderator" "Active"
          "2024-01-18" "2024-01-20"] |}.

(** A table as the live branch builds it from [get_all_users]: no
    [Role] and no [Full Name] column. *)
Definition live_row (id email created last_sign_in status : string) : gmap string string :=
  <["ID" := id]> (<["Email" := email]> (<["Created" := created]>
    (<["Last Sign In" := last_sign_in]> (<["Status" := status]> ∅)))).

Definition live_users : DataFrame :=
  {| columns := ["ID"; "Email"; "Created"; "Last Sign In"; "Status"];
     rows := [live_row "9f1c" "john.doe@example.com" "2024-01-16" "Never" "Active"] |}.

(** The identifiers of the rows shown. *)
Definition shown_ids (shown : result (list (gmap string string))) : list (option string) :=
  match shown with
  | Ok shown => map (λ r : gmap string string, r !! "ID") shown
  | Raise _ => []
  end.

(** ** The session over time *)

(** The world [w] read when the clock shows [now]. *)
Definition at_time (now : Z) (w : world) : world :=
  {| session_state := session_state w; clock := now; backend := backend w;
     calls := calls w; shown := shown w; logged := logged w;
     rerun_requested := rerun_requested w |}.

(** ** Signing in as an administrator *)

(** What the backend said when [authenticate_admin] lets [user] in: the
    sign-in answered with [user], an object with a string [id], and the
    profile query for that [id], made next, answered with rows of which
    the first has the role [admin]. *)
Definition admin_confirmed (email password : string) (w : world) (user : value) : Prop :=
  backend w (calls w) (SignInWithPassword email password) = Ok user ∧
  ∃ fields uid profile rest,
    user = VDict fields ∧ dict_lookup fields "id" = Some (VStr uid) ∧
    backend w (calls w ++ [SdkEvent (SignInWithPassword email password) false])%list
      (ProfilesSelectById uid) = Ok (VList (VDict profile :: rest)) ∧
    dict_get profile "role" = VStr "admin".

(** A backend with one administrator, [root@example.com]. *)
Definition one_admin : list sdk_event → sdk_call → result value :=
  λ _ c, match c with
         | SignInWithPassword _ _ =>
             Ok (VDict [("id", VStr "7c2e"); ("email", VStr "root@example.com")])
         | ProfilesSelectById _ =>
             Ok (VList [VDict [("id", VStr "7c2e"); ("role", VStr "admin");
                               ("status", VStr "active")]])
         | _ => Ok VNone
         end.

(** ** What a form leaves behind *)

(** From [w] to [w'] only messages were shown: [msgs], all of them errors. *)
Definition only_errors_shown (w w' : world) (msgs : list (ui_kind * list value)) : Prop :=
  session_state w' = session_state w ∧ clock w' = clock w ∧ backend w' = backend w ∧
  calls w' = calls w ∧ logged w' = logged w ∧
  rerun_requested w' = rerun_requested w ∧
  shown w' = (shown w ++ msgs)%list ∧ msgs ≠ [] ∧
  Forall (λ m, fst m = UiError) msgs.

(** The last entry of the audit store. *)
Definition last_entry (w : world) : option value := last (audit_store w).

(** The [changes] an [update_user] entry of the audit store records. *)
Definition recorded_changes (entry : value) : value :=
  match entry with
  | VDict fields =>
      match dict_get fields "details" with
      | VDict details => dict_get details "changes"
      | _ => VNone
      end
  | _ => VNone
  end.

(** ** The sample users *)



(** ** The inline handlers of app.py *)

Definition bulk_button_action (button : bulk_button) : string :=
  match button with
  | ActivateSelected => "bulk_activate"
  | DeactivateSelected => "bulk_deactivate"
  | DeleteSelected => "bulk_delete"
  end.

(** ** Signing in through the form *)

(** The [admin] section of the secrets, empty when there is none. *)
Definition admin_secrets (secrets : dict) : value := dict_get_or secrets "admin" (VDict []).

(** The credentials the fallback of [login_form] compares with. *)
Definition default_email (section : dict) : value :=
  dict_get_or section "default_email" (VStr "entremotivator@gmail.com").
Definition default_password (section : dict) : value :=
  dict_get_or section "default_password" (VStr "admin123").

(** The session [create_session] writes for the demo administrator. *)
Definition demo_session_of (token email : string) (now : Z)
    (session : gmap string value) : gmap string value :=
  <["session_created" := VTime now]>
    (<["admin_authenticated" := VBool true]>
       (<["admin_user" :=
            VDict [("id", VStr "demo-admin-id"); ("email", VStr email);
                   ("full_name", VStr "Demo Administrator"); ("role", VStr "admin")]]>
          (<["session_token" := VStr token]> session))).

(** [SupabaseAdmin()] when the body of [__init__] raises [e]: the
    handler logs, shows its message and raises [e] again. *)
Definition init_fails (e : exn) : M SupabaseAdmin :=
  logger LError [VStr "Failed to initialize Supabase client: "; VStr (exn_str e)] ;;;
  st_error [VStr "Failed to connect to Supabase. Please check your configuration."] ;;;
  raise e.

(** The flag [require_auth] reads. *)
Definition authenticated (w : world) : bool :=
  truthy (default (VBool false) (session_state w !! "admin_authenticated")).

(** ** The dashboard *)

(** The row of the activity table for an entry of the audit store. *)
Definition activity_of (fields : dict) : activity :=
  Activity (dict_get_or fields "timestamp" (VStr "Unknown"))
           (dict_get_or fields "action" (VStr "Unknown"))
           [dict_get_or fields "admin_email" (VStr "Unknown"); VStr " - ";
            dict_get_or fields "details" (VDict [])].

Definition is_dict (v : value) : Prop := ∃ fields, v = VDict fields.

Definition entry_row (entry : value) : activity :=
  activity_of (match entry with VDict fields => fields | _ => [] end).

(** ** The statistics *)

(** The rows of [profiles] whose [field] is the word [wanted]. *)
Definition matching (field wanted : string) (profiles : list value) : Z :=
  Z.of_nat (length (List.filter
                      (λ p, match p with
                            | VDict fields => is_str (dict_get fields field) wanted
                            | _ => false
                            end) profiles)).

(** A backend with three accounts and two profile rows. *)
Definition two_profiles : list sdk_event → sdk_call → result value :=
  λ _ c, match c with
         | AdminListUsers =>
             Ok (VList [VDict [("id", VStr "7c2e")]; VDict [("id", VStr "9f1c")];
                        VDict [("id", VStr "a41b")]])
         | ProfilesSelectRoleStatus =>
             Ok (VList [VDict [("role", VStr "admin"); ("status", VStr "active")];
                        VDict [("role", VStr "moderator"); ("status", VStr "suspended")]])
         | _ => Ok VNone
         end.

(** ** The addresses validate_email accepts *)

(** The pattern of [validate_email], part by part: one or more
    characters of the local class, [@], one or more of the domain class,
    a dot, two or more letters. *)
Definition email_parts (loc dom tld : list ascii) : bool :=
  nonempty loc && forallb is_local_char loc &&
  nonempty dom && forallb is_domain_char dom &&
  (2 <=? length tld)%nat && forallb is_letter tld.

Definition email_text (loc dom tld : list ascii) : list ascii :=
  (loc ++ "@"%char :: dom ++ "."%char :: tld)%list.

(** ** What the setup sends *)

(** The character [c] occurs in [s]. *)
Fixpoint mentions (c : ascii) (s : string) : bool :=
  match s with
  | EmptyString => false
  | String c' s' => Ascii.eqb c' c || mentions c s'
  end.

(** A trigger function as the setup script declares them. *)
Definition trigger_function : string :=
  "CREATE FUNCTION touch() RETURNS TRIGGER AS $$ BEGIN NEW.updated_at = NOW(); RETURN NEW; END; $$ language 'plpgsql';".

(** ** Changes done by halves *)

(** A backend that creates accounts and refuses every profile row. *)
Definition profiles_locked : list sdk_event → sdk_call → result value :=
  λ _ c, match c with
         | AdminCreateUser _ =>
             Ok (VDict [("id", VStr "b7d0"); ("created_at", VStr "2024-01-20T09:00:00Z")])
         | ProfilesInsert _ => Raise (Exn "APIError" "permission denied for table profiles")
         | _ => Ok VNone
         end.

(** ** Closing a modal *)

(** The modal behind [flag] is closed and the page asked to run again. *)
Definition modal_closed (flag : string) (w : world) : Prop :=
  session_state w !! flag = Some (VBool false) ∧ rerun_requested w = true.

(** A session in which the delete modal of [enhanced_app.py] is open for
    [user-2]. *)
Definition delete_modal_open : world :=
  world_of (<["show_delete_user" := VBool true]>
              (<["delete_user_email" := VStr "john.doe@example.com"]>
                 (<["delete_user_id" := VStr "user-2"]> signed_in_session)))
    login_time accepting.

(** * Properties *)

(** ** Session state bookkeeping *)

Lemma with_session_id (w : world) : with_session (λ s, s) w = w.
Proof. by destruct w. Qed.

Lemma with_session_compose f g (w : world) :
  with_session f (with_session g w) = with_session (λ s, f (g s)) w.
Proof. by destruct w. Qed.

(** Deleting a key when it is present is [delete] on the map, present or not. *)
Lemma ss_discard_delete (k : string) (w : world) :
  ss_discard k w = (Ok tt, with_session (delete k) w).
Proof.
  unfold ss_discard, bind, ss_has, ss_del.
  destruct (session_state w !! k) as [v|] eqn:Hk; simpl.
  - by rewrite Hk.
  - unfold ret. f_equal. destruct w; unfold with_session; simpl in *.
    by rewrite delete_id.
Qed.

Lemma del_present_delete (keys : list string) (w : world) :
  del_present keys w =
  (Ok tt, with_session (λ s, foldl (λ m k, delete k m) s keys) w).
Proof.
  revert w. induction keys as [|k keys IH]; intros w; simpl.
  - unfold ret. by rewrite with_session_id.
  - pose proof (ss_discard_delete k w) as Hd.
    unfold ss_discard, bind in Hd. unfold bind.
    destruct (ss_has k w) as [[p|e] w1] eqn:Hhas.
    + destruct ((if p then ss_del k else ret tt) w1) as [[u|e] w2] eqn:Hstep;
        inversion Hd; subst.
      rewrite IH. by rewrite with_session_compose.
    + discriminate.
Qed.

(** What [logout] leaves: the three keys deleted, and the run ended by
    its [st.rerun()]. *)
Lemma logout_spec (w : world) :
  ∃ w', logout w = (Raise RerunException, w') ∧
        session_state w' =
          delete "session_token"
            (delete "admin_user" (delete "admin_authenticated" (session_state w))) ∧
        clock w' = clock w ∧ calls w' = calls w ∧ rerun_requested w' = true.
Proof.
  unfold logout, bind. rewrite del_present_delete. simpl.
  eexists; split; [reflexivity|]. by destruct w.
Qed.

(** ** C5: what the session gate answers *)

(** The three ways of [validate_session] on a session state as
    [create_session] writes it: [False] without a session, the rerun of
    [logout] on an expired one, [True] otherwise. *)
Lemma validate_session_cases (w : world) :
  session_typed w →
  (no_session w ∧ validate_session w = (Ok false, w)) ∨
  (¬ no_session w ∧ expired w ∧
   ∃ w', validate_session w = (Raise RerunException, w') ∧
         session_state w' =
           delete "session_token"
             (delete "admin_user" (delete "admin_authenticated" (session_state w)))) ∨
  (¬ no_session w ∧ ¬ expired w ∧ validate_session w = (Ok true, w)).
Proof.
  intros [Htok Hcre]. unfold validate_session, bind, ss_get, datetime_now, no_session, expired.
  destruct (session_state w !! "session_token") as [tok|] eqn:Et; simpl.
  2:{ left. split; [by left | done]. }
  destruct (Htok _ eq_refl) as (t & -> & Hne).
  destruct t as [|c t]; [done|]. simpl.
  destruct (session_state w !! "session_created") as [cre|] eqn:Ec; simpl.
  2:{ left. split; [by right | done]. }
  destruct (Hcre _ eq_refl) as (created & ->). simpl.
  right. destruct (Z.gtb_spec (clock w - created) SESSION_LIFETIME) as [Hgt|Hle].
  - left. split; [intros [?|?]; congruence|]. split; [exists created; split; [done|lia]|].
    destruct (logout_spec w) as (w' & -> & Hs & _). simpl. by exists w'.
  - right. split; [intros [?|?]; congruence|]. split; [|done].
    intros (c' & Hc' & Hgt). inversion Hc'; subst. lia.
Qed.

(** *** On the demo session *)

Example isoformat_login_time : isoformat login_time = "2024-01-20T09:00:00".
Proof. vm_compute. reflexivity. Qed.

Example isoformat_microseconds :
  isoformat (login_time + 1500000) = "2024-01-20T09:00:01.500000".
Proof. vm_compute. reflexivity. Qed.

Example isoformat_leap_day :
  isoformat (login_time + 40 * 86400 * 1000000) = "2024-02-29T09:00:00".
Proof. vm_compute. reflexivity. Qed.

Example create_session_demo :
  session_state
    (snd (create_session "k3Jq0bTn" demo_admin (world_of ∅ login_time unreachable)))
  = demo_session.
Proof. reflexivity. Qed.

Lemma demo_session_typed now service : session_typed (world_of demo_session now service).
Proof.
  split; intros v H; vm_compute in H; inversion H; subst; eexists; eauto.
Qed.

Lemma stale_world_expired : ¬ no_session stale_world ∧ expired stale_world.
Proof.
  split.
  - intros [H|H]; vm_compute in H; discriminate.
  - exists login_time. split.
    + unfold stale_world, world_of, demo_session. simpl. by rewrite lookup_insert_eq.
    + unfold stale_world, world_of, SESSION_LIFETIME. simpl. lia.
Qed.

Example validate_session_fresh : fst (validate_session fresh_world) = Ok true.
Proof. vm_compute. reflexivity. Qed.

(** C5 fails on an expired session.  The demo session read 25 hours
    after its creation is a session that exists and is expired, and
    [validate_session] does not return [False] on it: it goes into
    [logout], which removes the token, the user and the flag and ends
    the run with [st.rerun()], so that the [return False] written after
    the call is not reached; the same session read one hour after its
    creation is answered with [True]. *)
Theorem validate_session_expired_never_returns :
  session_typed stale_world ∧ ¬ no_session stale_world ∧ expired stale_world ∧
  fst (validate_session stale_world) = Raise RerunException ∧
  fst (validate_session stale_world) ≠ Ok false ∧
  session_state (snd (validate_session stale_world)) !! "session_token" = None ∧
  rerun_requested (snd (validate_session stale_world)) = true ∧
  validate_session fresh_world = (Ok true, fresh_world).
Proof.
  split; [apply demo_session_typed|].
  destruct stale_world_expired as [Hsession Hexpired].
  split; [exact Hsession|]. split; [exact Hexpired|].
  destruct (validate_session_cases stale_world (demo_session_typed _ _))
    as [[Hno _] | [(_ & _ & w' & Hrun & Hstate) | (_ & Hvalid & _)]];
    [contradiction | | contradiction].
  rewrite Hrun. cbn [fst snd]. split; [done|]. split; [discriminate|].
  split; [by rewrite Hstate, lookup_delete_eq|].
  split; [|vm_compute; reflexivity].
  assert (rerun_requested (snd (validate_session stale_world)) = true) as Hr
    by (vm_compute; reflexivity).
  by rewrite Hrun in Hr.
Qed.

(** ** C2: what a failed validation leaves behind *)

(** C2, as stated, fails.  After a sign-in through [authenticate_admin]
    the session holds a user and the authenticated flag but no token:
    [validate_session] returns [False] at its first test and returns the
    state as it found it. *)
Lemma validate_session_false_keeps_state :
  validate_session signed_in_world = (Ok false, signed_in_world) ∧
  ¬ session_cleared signed_in_world.
Proof.
  split; [vm_compute; reflexivity|].
  intros (_ & Huser & _). vm_compute in Huser. discriminate.
Qed.

(** The expiry path goes through [logout], whose key list has no
    [session_created]. *)
Example validate_session_stale_keeps_created :
  session_state (snd (validate_session stale_world)) !! "session_created"
  = Some (VTime login_time).
Proof. vm_compute. reflexivity. Qed.

(** C2, amended. When [validate_session] returns [False] because the
    token or the creation time is missing, it leaves the world, session
    state with it, exactly as it found it. *)
Theorem validate_session_false_effect (w : world) :
  no_session w → validate_session w = (Ok false, w).
Proof.
  unfold no_session, validate_session, bind, ss_get.
  destruct (session_state w !! "session_token") as [tok|] eqn:Et; simpl; [|done].
  intros [Hnone | Hcreated]; [discriminate|].
  destruct (truthy tok); simpl; [|done].
  by rewrite Hcreated.
Qed.

Lemma validate_session_false_effect_witness :
  no_session signed_in_world ∧
  validate_session signed_in_world = (Ok false, signed_in_world).
Proof.
  assert (no_session signed_in_world) as Hno by (left; reflexivity).
  split; [exact Hno|]. exact (validate_session_false_effect signed_in_world Hno).
Defined.

(** ** C8: the audit recorder *)

(** The recorder with an actor: the entry goes to the end of the store,
    and nothing else in the world moves but the logger. *)
Lemma log_admin_action_actor (action : string) (details : value) (w : world) (admin : dict) :
  audit_typed w →
  actor w = VDict admin → truthy (VDict admin) = true →
  ∃ w', log_admin_action action details w = (Ok tt, w') ∧
        session_state w' =
          <["audit_logs" :=
              VList (audit_store w ++ [audit_entry admin action details (clock w)])]>
            (session_state w) ∧
        clock w' = clock w ∧ backend w' = backend w ∧ calls w' = calls w ∧
        shown w' = shown w ∧ rerun_requested w' = rerun_requested w.
Proof.
  intros [_ Hlogs] Hactor Htruthy.
  unfold log_admin_action, get_current_admin, bind, ss_get. fold (actor w).
  rewrite Hactor, Htruthy. simpl.
  unfold ss_has, datetime_now, bind, audit_store. simpl.
  destruct (session_state w !! "audit_logs") as [v|] eqn:El; simpl.
  - destruct (Hlogs _ eq_refl) as (entries & ->). simpl.
    unfold ss_get, bind, ss_set, logger; simpl. rewrite El. simpl.
    eexists; split; [reflexivity|]. by destruct w.
  - unfold ss_get, bind, ss_set, logger; simpl.
    rewrite lookup_insert_eq. simpl.
    eexists; split; [reflexivity|]. simpl.
    split; [by rewrite insert_insert_eq|]. by destruct w.
Qed.

(** The recorder without an actor does nothing. *)
Lemma log_admin_action_no_actor (action : string) (details : value) (w : world) :
  truthy (actor w) = false → log_admin_action action details w = (Ok tt, w).
Proof.
  intros Hfalsy. unfold log_admin_action, get_current_admin, bind, ss_get.
  fold (actor w). by rewrite Hfalsy.
Qed.

Lemma audit_store_insert (w w' : world) (entries : list value) :
  session_state w' = <["audit_logs" := VList entries]> (session_state w) →
  audit_store w' = entries.
Proof. intros H. unfold audit_store. by rewrite H, lookup_insert_eq. Qed.

(** C8. [log_admin_action(action, details)] with no actor in session
    state (no [admin_user], or a falsy one) returns without touching
    anything, the audit store included; with an actor it appends exactly
    one entry, made of the actor's id and email, the action, the details,
    the timestamp and the source address, to the end of the store. *)
Theorem log_admin_action_appends_one (action : string) (details : value) (w : world) :
  audit_typed w →
  ∃ w', log_admin_action action details w = (Ok tt, w') ∧
        match actor w with
        | VDict (item :: items) =>
            audit_store w' =
              (audit_store w ++
                 [audit_entry (item :: items) action details (clock w)])%list
        | _ => w' = w
        end.
Proof.
  intros Hty.
  assert (actor w = VNone ∨ ∃ d, actor w = VDict d) as [Hactor | [d Hactor]].
  { destruct Hty as [Huser _]. unfold actor.
    destruct (session_state w !! "admin_user") as [v|] eqn:Eu; simpl; [|by left].
    destruct (Huser _ eq_refl) as (d & ->). right. by exists d. }
  - exists w. rewrite Hactor.
    split; [apply log_admin_action_no_actor; by rewrite Hactor | done].
  - rewrite Hactor. destruct d as [|item items].
    + exists w; split; [apply log_admin_action_no_actor; by rewrite Hactor | done].
    + destruct (log_admin_action_actor action details w (item :: items) Hty Hactor eq_refl)
        as (w' & Hrun & Hs & _).
      exists w'. split; [done|]. by apply audit_store_insert in Hs.
Qed.

(** ** The account client leaves the session alone *)

Lemma same_session_refl w : same_session w w.
Proof. done. Qed.

Lemma same_session_trans w1 w2 w3 :
  same_session w1 w2 → same_session w2 w3 → same_session w1 w3.
Proof. unfold same_session. intros (-> & -> & -> & ->) (-> & -> & -> & ->). done. Qed.

Lemma frames_ret {A} (a : A) : frames (ret a).
Proof. intros w. apply same_session_refl. Qed.

Lemma frames_raise {A} e : frames (@raise A e).
Proof. intros w. apply same_session_refl. Qed.

Lemma frames_bind {A B} (m : M A) (k : A → M B) :
  frames m → (∀ a, frames (k a)) → frames (bind m k).
Proof.
  intros Hm Hk w. unfold bind. specialize (Hm w).
  destruct (m w) as [[a|e] w1]; simpl in *; [|done].
  eapply same_session_trans; [exact Hm | apply Hk].
Qed.

Lemma frames_try_except {A} (body : M A) (handler : exn → M A) :
  frames body → (∀ e, frames (handler e)) → frames (try_except body handler).
Proof.
  intros Hb Hh w. unfold try_except. specialize (Hb w).
  destruct (body w) as [[a|[e|]] w1]; simpl in *; [done| |done].
  eapply same_session_trans; [exact Hb | apply Hh].
Qed.

Lemma frames_sdk c : frames (sdk c).
Proof. by intros w. Qed.

Lemma frames_logger lvl msg : frames (logger lvl msg).
Proof. by intros w. Qed.

Lemma frames_st_show kind msg : frames (st_show kind msg).
Proof. by intros w. Qed.

Lemma frames_py_attr v name : frames (py_attr v name).
Proof. intros w. unfold py_attr. destruct v; try done. by destruct (dict_lookup _ _). Qed.

Lemma frames_py_get v k : frames (py_get v k).
Proof. intros w. by destruct v. Qed.

Lemma frames_py_first v : frames (py_first v).
Proof.
  intros w. unfold py_first. by destruct v as [| | |[|c s]| |[|x l]|d].
Qed.

Lemma frames_py_as_str v : frames (py_as_str v).
Proof. intros w. by destruct v. Qed.

Ltac frame_step :=
  first
    [ apply frames_ret | apply frames_raise | apply frames_sdk
    | apply frames_logger | apply frames_st_show
    | apply frames_py_attr | apply frames_py_get | apply frames_py_first
    | apply frames_py_as_str
    | apply frames_bind | apply frames_try_except
    | match goal with
      | |- frames (if ?b then _ else _) => destruct b
      | |- frames (match ?x with Some _ => _ | None => _ end) => destruct x
      | |- ∀ _, _ => intros ?
      end ].

Ltac frame := repeat frame_step.

Lemma create_user_frames email password user_data :
  frames (create_user email password user_data).
Proof. unfold create_user, st_error. frame. Qed.

Lemma update_user_frames user_id user_data :
  frames (update_user user_id user_data).
Proof. unfold update_user, st_error. frame. Qed.

Lemma delete_user_frames user_id : frames (delete_user user_id).
Proof. unfold delete_user, st_error. frame. Qed.

Lemma create_attempt_frames admin email password role user_data :
  frames (create_attempt admin email password role user_data).
Proof.
  unfold create_attempt. destruct admin; [apply create_user_frames|].
  unfold st_success. frame.
Qed.

Lemma update_attempt_frames admin user_id email update_data :
  frames (update_attempt admin user_id email update_data).
Proof.
  unfold update_attempt. destruct admin; [apply update_user_frames|].
  unfold st_success. frame.
Qed.

Lemma delete_attempt_frames admin user_id user_email :
  frames (delete_attempt admin user_id user_email).
Proof.
  unfold delete_attempt. destruct admin; [apply delete_user_frames|].
  unfold st_success. frame.
Qed.

Lemma bulk_one_frames operation new_role admin user_id :
  frames (bulk_one operation new_role admin user_id).
Proof.
  unfold bulk_one.
  destruct operation, admin;
    first [apply update_user_frames | apply delete_user_frames | apply frames_ret].
Qed.

Lemma bulk_loop_frames operation new_role admin selected_users success_count :
  frames (bulk_loop operation new_role admin selected_users success_count).
Proof.
  revert success_count.
  induction selected_users as [|user_id rest IH]; intros n; simpl.
  - apply frames_ret.
  - apply frames_bind; [apply bulk_one_frames | intros success; apply IH].
Qed.

(** ** C1: audit entries of the mutating forms *)

Lemma has_actor_same_session admin w w1 :
  same_session w w1 → has_actor admin w → has_actor admin w1.
Proof.
  intros (Hs & _) (Hty & Hact & Hne). unfold has_actor, audit_typed, actor in *.
  by rewrite Hs.
Qed.

Lemma audit_store_same_session w w1 :
  same_session w w1 → audit_store w1 = audit_store w ∧ clock w1 = clock w.
Proof. intros (Hs & Hc & _). unfold audit_store. by rewrite Hs. Qed.

Lemma truthy_nonempty_dict (d : dict) : d ≠ [] → truthy (VDict d) = true.
Proof. by destruct d. Qed.

(** A success message, then the recorder, then whatever the form does
    to keys other than the store. *)
Lemma success_then_log admin msg action details (tail : M unit) w w1 :
  same_session w w1 → has_actor admin w →
  ∃ w2, (st_success msg ;;; log_admin_action action details ;;; tail) w1 = tail w2 ∧
        session_state w2 =
          <["audit_logs" :=
              VList (audit_store w ++ [audit_entry admin action details (clock w)])]>
            (session_state w).
Proof.
  intros Hsame Hact.
  pose proof (has_actor_same_session _ _ _ Hsame Hact) as (Hty1 & Hact1 & Hne).
  set (w1s := snd (st_success msg w1)).
  assert (same_session w1 w1s) as Hs1 by (by destruct w1).
  pose proof (has_actor_same_session admin _ _ Hs1 (conj Hty1 (conj Hact1 Hne)))
    as (Htys & Hacts & _).
  destruct (log_admin_action_actor action details w1s admin Htys Hacts
              (truthy_nonempty_dict _ Hne)) as (w2 & Hrun & Hs2 & Hc2 & _).
  exists w2. split.
  - unfold bind at 1. change (st_success msg w1) with (Ok tt : outcome (), w1s).
    unfold bind. by rewrite Hrun.
  - rewrite Hs2.
    destruct (audit_store_same_session _ _ Hsame) as [Ha Hc].
    destruct (audit_store_same_session _ _ Hs1) as [Ha1 Hc1].
    destruct Hsame as (Hss & _). destruct Hs1 as (Hss1 & _).
    by rewrite Ha1, Ha, Hc1, Hc, Hss1, Hss.
Qed.

Lemma validate_email_nonempty email : validate_email email = true → email_errors email = [].
Proof.
  intros H. unfold email_errors. destruct email as [|c email]; [discriminate H|].
  simpl. by rewrite H.
Qed.

Lemma validate_password_nonempty password :
  fst (validate_password password) = true → truthy (VStr password) = true.
Proof. intros H. by destruct password. Qed.

Lemma add_user_form_logs admin client w w1
    email full_name role phone password status department job_title :
  has_actor admin w →
  validate_email email = true → fst (validate_password password) = true →
  create_attempt client email password role
    (add_user_data full_name role status phone department job_title) w = (Ok true, w1) →
  ∃ w', add_user_form_submit email full_name role phone password status department
          job_title client w = (Raise RerunException, w') ∧
        appends_entry admin "create_user"
          (VDict [("email", VStr email); ("role", VStr role);
                  ("department", VStr department)]) w w'.
Proof.
  intros Hact Hemail Hpw Hattempt.
  unfold add_user_form_submit.
  rewrite (validate_email_nonempty _ Hemail), (validate_password_nonempty _ Hpw).
  simpl. destruct (validate_password password) as [valid msg]; simpl in Hpw; subst valid.
  simpl. unfold bind at 1. rewrite Hattempt.
  pose proof (create_attempt_frames client email password role
                (add_user_data full_name role status phone department job_title) w) as Hf.
  rewrite Hattempt in Hf. simpl in Hf.
  edestruct (success_then_log admin) as (w2 & -> & Hs2); [exact Hf | exact Hact |].
  eexists. split; [reflexivity|].
  unfold appends_entry, audit_store. simpl. rewrite Hs2.
  rewrite lookup_insert_ne by done. by rewrite lookup_insert_eq.
Qed.

Lemma edit_user_form_logs admin client w w1
    user_id email full_name role phone new_password status department job_title :
  has_actor admin w →
  validate_email email = true →
  (new_password = "" ∨ fst (validate_password new_password) = true) →
  update_attempt client user_id email
    (edit_update_data email full_name role status phone department job_title new_password)
    w = (Ok true, w1) →
  ∃ w', edit_user_form_submit user_id email full_name role phone new_password status
          department job_title client w = (Raise RerunException, w') ∧
        appends_entry admin "update_user"
          (VDict [("user_id", VStr user_id); ("email", VStr email);
                  ("changes",
                   VDict (edit_update_data email full_name role status phone department
                            job_title new_password))]) w w'.
Proof.
  intros Hact Hemail Hpw Hattempt.
  unfold edit_user_form_submit.
  rewrite (validate_email_nonempty _ Hemail).
  assert ((if truthy (VStr new_password)
           then let '(is_valid, msg) := validate_password new_password in
                if is_valid then [] else [msg]
           else []) = @nil string) as ->.
  { destruct Hpw as [-> | Hpw]; [done|].
    rewrite (validate_password_nonempty _ Hpw).
    destruct (validate_password new_password) as [valid msg]; simpl in Hpw. by subst. }
  simpl. unfold bind at 1. rewrite Hattempt.
  pose proof (update_attempt_frames client user_id email
                (edit_update_data email full_name role status phone department job_title
                   new_password) w) as Hf.
  rewrite Hattempt in Hf. simpl in Hf.
  edestruct (success_then_log admin) as (w2 & -> & Hs2); [exact Hf | exact Hact |].
  unfold bind at 1. simpl. unfold bind at 1. rewrite ss_discard_delete.
  eexists. split; [reflexivity|].
  unfold appends_entry, audit_store. simpl. rewrite Hs2.
  rewrite lookup_delete_ne by done.
  rewrite lookup_insert_ne by done. by rewrite lookup_insert_eq.
Qed.

Lemma delete_user_logs admin client w w1 user_id user_email :
  has_actor admin w →
  delete_attempt client user_id user_email w = (Ok true, w1) →
  ∃ w', delete_user_confirmed user_id user_email client w = (Raise RerunException, w') ∧
        appends_entry admin "delete_user"
          (VDict [("user_id", VStr user_id); ("email", VStr user_email)]) w w'.
Proof.
  intros Hact Hattempt.
  unfold delete_user_confirmed. unfold bind at 1. rewrite Hattempt.
  pose proof (delete_attempt_frames client user_id user_email w) as Hf.
  rewrite Hattempt in Hf. simpl in Hf.
  edestruct (success_then_log admin) as (w2 & -> & Hs2); [exact Hf | exact Hact |].
  unfold bind at 1. simpl. unfold bind at 1. rewrite ss_discard_delete.
  eexists. split; [reflexivity|].
  unfold appends_entry, audit_store. simpl. rewrite Hs2.
  rewrite lookup_delete_ne by done.
  rewrite lookup_insert_ne by done. by rewrite lookup_insert_eq.
Qed.

(** A whole bulk operation writes one entry: it names the operation,
    the number of successes and every selected identifier. *)
Lemma bulk_execute_logs admin client w w1 operation new_role selected_users n :
  has_actor admin w →
  bulk_loop operation new_role client selected_users 0 w = (Ok n, w1) →
  n > 0 →
  ∃ w', bulk_execute operation new_role client selected_users w
          = (Raise RerunException, w') ∧
        appends_entry admin "bulk_operation"
          (VDict [("operation", VStr (operation_label operation));
                  ("user_count", VInt n);
                  ("user_ids", VList (map VStr selected_users))]) w w'.
Proof.
  intros Hact Hloop Hn.
  unfold bulk_execute. unfold bind at 1. rewrite Hloop.
  destruct (Z.gtb_spec n 0) as [_|]; [|lia].
  pose proof (bulk_loop_frames operation new_role client selected_users 0 w) as Hf.
  rewrite Hloop in Hf. simpl in Hf.
  edestruct (success_then_log admin) as (w2 & -> & Hs2); [exact Hf | exact Hact |].
  eexists. split; [reflexivity|].
  unfold appends_entry, audit_store. simpl. by rewrite Hs2, lookup_insert_eq.
Qed.

(** C1, as stated, fails on a bulk operation: two members succeed and
    the store grows by one entry, not two. *)
Lemma bulk_two_members_one_entry :
  let selected := ["user-2"; "user-3"] in
  audit_store signed_in_world = [] ∧
  bulk_loop DeactivateUsers "" None selected 0 signed_in_world = (Ok 2, signed_in_world) ∧
  audit_store (snd (bulk_execute DeactivateUsers "" None selected signed_in_world)) =
    [audit_entry demo_admin "bulk_operation"
       (VDict [("operation", VStr "Deactivate Users"); ("user_count", VInt 2);
               ("user_ids", VList [VStr "user-2"; VStr "user-3"])]) login_time].
Proof. vm_compute. done. Qed.

(** Without an actor in session state a successful creation leaves the
    store as it was. *)
Example add_user_without_actor :
  let w := world_of ∅ login_time unreachable in
  audit_store
    (snd (add_user_form_submit "ann@example.com" "Ann" "User" "" "s3cretpass" "Active"
            "Sales" "Agent" None w)) = [].
Proof. vm_compute. done. Qed.

(** C1, amended. With an actor signed in, each successful account
    mutation made through a form appends exactly one entry to the audit
    store: [create_user] with the email of the new account, [update_user]
    and [delete_user] with the identifier and email of the target.  A
    bulk operation with at least one success appends exactly one entry
    for the whole operation, [bulk_operation], which carries the
    operation, the number of successes and all selected identifiers.
    Each of the four ends with [st.rerun()], its last statement, after
    the entry is written. *)
Theorem mutation_appends_audit_entry (admin : dict) (client : option SupabaseAdmin)
    (w w1 : world) :
  has_actor admin w →
  (∀ email full_name role phone password status department job_title,
     validate_email email = true → fst (validate_password password) = true →
     create_attempt client email password role
       (add_user_data full_name role status phone department job_title) w
       = (Ok true, w1) →
     ∃ w', add_user_form_submit email full_name role phone password status department
             job_title client w = (Raise RerunException, w') ∧
           appends_entry admin "create_user"
             (VDict [("email", VStr email); ("role", VStr role);
                     ("department", VStr department)]) w w') ∧
  (∀ user_id email full_name role phone new_password status department job_title,
     validate_email email = true →
     (new_password = "" ∨ fst (validate_password new_password) = true) →
     update_attempt client user_id email
       (edit_update_data email full_name role status phone department job_title
          new_password) w = (Ok true, w1) →
     ∃ w', edit_user_form_submit user_id email full_name role phone new_password status
             department job_title client w = (Raise RerunException, w') ∧
           appends_entry admin "update_user"
             (VDict [("user_id", VStr user_id); ("email", VStr email);
                     ("changes",
                      VDict (edit_update_data email full_name role status phone
                               department job_title new_password))]) w w') ∧
  (∀ user_id user_email,
     delete_attempt client user_id user_email w = (Ok true, w1) →
     ∃ w', delete_user_confirmed user_id user_email client w = (Raise RerunException, w') ∧
           appends_entry admin "delete_user"
             (VDict [("user_id", VStr user_id); ("email", VStr user_email)]) w w') ∧
  (∀ operation new_role selected_users n,
     bulk_loop operation new_role client selected_users 0 w = (Ok n, w1) →
     n > 0 →
     ∃ w', bulk_execute operation new_role client selected_users w
          = (Raise RerunException, w') ∧
           appends_entry admin "bulk_operation"
             (VDict [("operation", VStr (operation_label operation));
                     ("user_count", VInt n);
                     ("user_ids", VList (map VStr selected_users))]) w w').
Proof.
  intros Hact. repeat split.
  - intros. by eapply add_user_form_logs.
  - intros. by eapply edit_user_form_logs.
  - intros. by eapply delete_user_logs.
  - intros. by eapply bulk_execute_logs.
Qed.

Lemma signed_in_has_actor : has_actor demo_admin signed_in_world.
Proof.
  split; [split; intros v H; vm_compute in H; inversion H; subst; eauto|].
  split; [vm_compute; reflexivity | discriminate].
Qed.

Lemma mutation_appends_audit_entry_witness :
  has_actor demo_admin signed_in_world ∧
  ∃ w', delete_user_confirmed "user-2" "john.doe@example.com" None signed_in_world
          = (Raise RerunException, w') ∧
        appends_entry demo_admin "delete_user"
          (VDict [("user_id", VStr "user-2"); ("email", VStr "john.doe@example.com")])
          signed_in_world w'.
Proof.
  split; [apply signed_in_has_actor|].
  apply (proj1 (proj2 (proj2
           (mutation_appends_audit_entry demo_admin None signed_in_world
              (snd (delete_attempt None "user-2" "john.doe@example.com" signed_in_world))
              signed_in_has_actor)))).
  vm_compute. reflexivity.
Defined.

(** ** C9: the password-reset bulk operation *)

(** C9. For [Send Password Reset] the loop counts every selected
    identifier as a success and makes no client call: whatever the
    client (connected or demo) and whatever the backend would answer,
    the count after [N] identifiers is [N] and the world, the call
    history included, is as before. *)
Theorem bulk_password_reset_counts_all (new_role : string)
    (client : option SupabaseAdmin) (selected_users : list string) (w : world) :
  bulk_loop SendPasswordReset new_role client selected_users 0 w
  = (Ok (Z.of_nat (length selected_users)), w).
Proof.
  assert (∀ n, bulk_loop SendPasswordReset new_role client selected_users n w
               = (Ok (n + Z.of_nat (length selected_users)), w)) as H.
  { induction selected_users as [|user_id rest IH]; intros n; simpl.
    - unfold ret. do 2 f_equal. lia.
    - unfold bind, ret. simpl. rewrite IH. do 2 f_equal. lia. }
  apply (H 0).
Qed.

Example bulk_password_reset_unreachable :
  bulk_loop SendPasswordReset ""
    (Some {| url := "https://example.supabase.co"; key := "anon"; service_role_key := "srv" |})
    ["user-2"; "user-3"] 0 signed_in_world
  = (Ok 2, signed_in_world).
Proof. reflexivity. Qed.

(** ** C3: the bulk dispatcher under a fixed set of failing identifiers *)

Lemma bulk_one_fixed operation new_role client failing user_id w :
  operation ≠ SendPasswordReset → fails_on failing w →
  ∃ w', bulk_one operation new_role (Some client) user_id w
          = (Ok (negb (failing user_id)), w') ∧
        calls w' = (calls w ++ bulk_events operation new_role failing user_id)%list ∧
        backend w' = backend w.
Proof.
  intros Hop Hfail.
  destruct operation; try done; simpl;
    unfold update_user, delete_user, try_except, bind, sdk, logger, st_error, st_show, ret;
    simpl;
    match goal with
    | |- context [backend w (calls w) ?c] =>
        pose proof (Hfail (calls w) c user_id eq_refl) as Hr;
        destruct (backend w (calls w) c) as [v|e]; simpl in *; rewrite <- Hr; simpl
    end;
    try (eexists; (split; [reflexivity|]); by split).
  match goal with
  | |- context [backend w ?h (AdminDeleteUser user_id)] =>
      pose proof (Hfail h (AdminDeleteUser user_id) user_id eq_refl) as Hr2;
      destruct (backend w h (AdminDeleteUser user_id)) as [v2|e2]; simpl in *
  end.
  - eexists; (split; [reflexivity|]); split; [|done]. simpl. by rewrite <- app_assoc.
  - congruence.
Qed.

Lemma bulk_loop_fixed operation new_role client failing selected_users :
  operation ≠ SendPasswordReset →
  ∀ n w, fails_on failing w →
  ∃ w', bulk_loop operation new_role (Some client) selected_users n w
          = (Ok (n + Z.of_nat (length (List.filter (λ u, negb (failing u)) selected_users))),
             w') ∧
        calls w' =
          (calls w ++
             concat (map (bulk_events operation new_role failing) selected_users))%list ∧
        backend w' = backend w.
Proof.
  intros Hop. induction selected_users as [|user_id rest IH]; intros n w Hfail; simpl.
  - exists w. unfold ret. split; [do 2 f_equal; lia|]. by rewrite app_nil_r.
  - destruct (bulk_one_fixed operation new_role client failing user_id w Hop Hfail)
      as (w1 & Hone & Hcalls & Hback).
    unfold bind. rewrite Hone.
    assert (fails_on failing w1) as Hfail1 by (unfold fails_on; by rewrite Hback).
    destruct (IH (if negb (failing user_id) then n + 1 else n) w1 Hfail1)
      as (w' & -> & Hcalls' & Hback').
    exists w'. split; [|split].
    + do 2 f_equal. destruct (failing user_id); simpl; lia.
    + rewrite Hcalls', Hcalls. by rewrite <- app_assoc.
    + by rewrite Hback'.
Qed.

Lemma length_filter_negb {A} (p : A → bool) (l : list A) :
  Z.of_nat (length (List.filter (λ x, negb (p x)) l))
  = Z.of_nat (length l) - Z.of_nat (length (List.filter p l)).
Proof.
  induction l as [|x l IH]; simpl; [done|].
  destruct (p x); simpl; lia.
Qed.

Lemma calls_since_app (w w' : world) (events : list sdk_event) :
  calls w' = (calls w ++ events)%list → calls_since w w' = events.
Proof. intros H. unfold calls_since. by rewrite H, drop_app_length. Qed.

(** C3, as stated, fails for [Send Password Reset]: with a connected
    client whose backend fails on every identifier, the one selected
    identifier is counted as a success ([N - K] is 0) and no call is
    attempted. *)
Lemma bulk_password_reset_ignores_failures :
  let client := {| url := "https://example.supabase.co"; key := "anon";
                   service_role_key := "srv" |} in
  let selected := ["user-2"] in
  let failing := λ _ : string, true in
  fails_on failing signed_in_world ∧
  ∃ w', bulk_loop SendPasswordReset "" (Some client) selected 0 signed_in_world
          = (Ok 1, w') ∧
        1 ≠ Z.of_nat (length selected) - Z.of_nat (length (List.filter failing selected)) ∧
        calls_since signed_in_world w' = [].
Proof.
  simpl. split; [by intros h c u _|].
  exists signed_in_world. split; [reflexivity|]. split; [lia | reflexivity].
Qed.

(** C3, amended. For the four operations that call the client
    (activate, deactivate, change role, delete), with a connected client
    and a backend that fails exactly on a fixed set of identifiers, the
    loop makes the calls of every one of the [N] selected identifiers, in
    selection order and whatever the outcome of the earlier ones, and
    the success count is [N - K], [K] being the number of selected
    identifiers in the failing set. *)
Theorem bulk_counts_successes (operation : bulk_operation) (new_role : string)
    (client : SupabaseAdmin) (failing : string → bool)
    (selected_users : list string) (w : world) :
  operation ≠ SendPasswordReset →
  fails_on failing w →
  ∃ w', bulk_loop operation new_role (Some client) selected_users 0 w
          = (Ok (Z.of_nat (length selected_users)
                 - Z.of_nat (length (List.filter failing selected_users))), w') ∧
        calls_since w w'
          = concat (map (bulk_events operation new_role failing) selected_users).
Proof.
  intros Hop Hfail.
  destruct (bulk_loop_fixed operation new_role client failing selected_users Hop 0 w Hfail)
    as (w' & Hrun & Hcalls & _).
  exists w'. split.
  - rewrite Hrun. do 2 f_equal. rewrite length_filter_negb. lia.
  - by apply calls_since_app.
Qed.

Lemma bulk_counts_successes_witness :
  let w := world_of signed_in_session login_time fails_for_user3 in
  let client := {| url := "https://example.supabase.co"; key := "anon";
                   service_role_key := "srv" |} in
  fails_on (λ u, String.eqb u "user-3") w ∧
  ∃ w', bulk_loop DeleteUsers "" (Some client) ["user-2"; "user-3"; "user-4"] 0 w
          = (Ok 2, w') ∧
        map ev_call (calls_since w w')
          = [ProfilesDelete "user-2"; AdminDeleteUser "user-2";
             ProfilesDelete "user-3";
             ProfilesDelete "user-4"; AdminDeleteUser "user-4"].
Proof.
  intros w client.
  assert (fails_on (λ u, String.eqb u "user-3") w) as Hfail.
  { intros h c u Hc. simpl. unfold fails_for_user3. rewrite Hc.
    by destruct (String.eqb u "user-3"). }
  split; [exact Hfail|].
  destruct (bulk_counts_successes DeleteUsers "" client (λ u, String.eqb u "user-3")
              ["user-2"; "user-3"; "user-4"] w) as (w' & Hrun & Hcalls);
    [discriminate | exact Hfail |].
  exists w'. split; [exact Hrun|]. rewrite Hcalls. reflexivity.
Defined.

(** ** C10: where update_user sends the password *)

Lemma calls_since_refl (w : world) : calls_since w w = [].
Proof. unfold calls_since. by rewrite drop_all. Qed.

Ltac routed := repeat (apply Forall_cons_2; [assumption|]); apply Forall_nil_2.

(** Reads the calls a run added off the final world. *)
Ltac since_calls :=
  unfold calls_since; simpl; rewrite <- ?app_assoc; rewrite drop_app_length; simpl.

Lemma profile_updates_no_password (user_data : dict) :
  dict_lookup (profile_updates_of user_data) "password" = None.
Proof.
  unfold profile_updates_of.
  induction user_data as [|[k v] d IH]; [done|].
  cbn [List.filter fst].
  destruct (String.eqb k "password") eqn:Hk; cbn [negb]; [done|].
  cbn [dict_lookup]. by rewrite String.eqb_sym, Hk.
Qed.

Lemma auth_updates_password (user_data : dict) :
  dict_lookup (auth_updates_of user_data) "password" = password_of user_data.
Proof.
  unfold auth_updates_of, password_of.
  destruct (dict_lookup user_data "email") as [e|];
    destruct (dict_lookup user_data "password") as [p|]; try done;
    by destruct (truthy p).
Qed.

(** C10. Whatever [user_data] holds, every call [update_user] makes is
    either the credential update or the profiles update of that user;
    the payload of the profiles update has no [password] key, and the
    payload of the credential update carries the password of
    [user_data] exactly when there is one and it is not empty.  When
    there is one, the credential update is the first call made. *)
Theorem update_user_password_routing (user_id : string) (user_data : dict) (w : world) :
  let w' := snd (update_user user_id user_data w) in
  Forall (password_routed user_id user_data) (calls_since w w') ∧
  (∀ p, password_of user_data = Some p →
        ∃ outcome rest,
          calls_since w w'
          = SdkEvent (AdminUpdateUserById user_id (auth_updates_of user_data)) outcome
              :: rest ∧
          dict_lookup (auth_updates_of user_data) "password" = Some p).
Proof.
  assert (password_routed user_id user_data
            (SdkEvent (AdminUpdateUserById user_id (auth_updates_of user_data)) true) ∧
          password_routed user_id user_data
            (SdkEvent (AdminUpdateUserById user_id (auth_updates_of user_data)) false) ∧
          password_routed user_id user_data
            (SdkEvent (ProfilesUpdate user_id (profile_updates_of user_data)) true) ∧
          password_routed user_id user_data
            (SdkEvent (ProfilesUpdate user_id (profile_updates_of user_data)) false))
    as (Ha1 & Ha2 & Hp1 & Hp2).
  { unfold password_routed, dict_has; simpl.
    rewrite auth_updates_password, profile_updates_no_password. done. }
  assert (∀ p, password_of user_data = Some p →
               truthy (VDict (auth_updates_of user_data)) = true) as Hnonempty.
  { intros p Hp. rewrite <- auth_updates_password in Hp.
    by destruct (auth_updates_of user_data). }
  simpl.
  unfold update_user, try_except, bind, sdk, logger, st_error, st_show, ret.
  remember (truthy (VDict (profile_updates_of user_data))) as has_profile eqn:Hprof.
  clear Hprof.
  destruct (truthy (VDict (auth_updates_of user_data))) eqn:Hauth; simpl.
  - destruct (backend w (calls w) (AdminUpdateUserById _ _)) as [v|e]; simpl.
    + destruct has_profile; simpl.
      * match goal with
        | |- context [backend w ?h (ProfilesUpdate user_id ?c)] =>
            destruct (backend w h (ProfilesUpdate user_id c)) as [v2|e2]; simpl
        end;
          since_calls;
          (split; [routed|]);
          intros p Hp; do 2 eexists; (split; [reflexivity|]);
          by rewrite auth_updates_password.
      * since_calls. split; [routed|].
        intros p Hp; do 2 eexists; (split; [reflexivity|]).
        by rewrite auth_updates_password.
    + since_calls. split; [routed|].
      intros p Hp; do 2 eexists; (split; [reflexivity|]).
      by rewrite auth_updates_password.
  - assert (∀ p, password_of user_data ≠ Some p) as Hnone.
    { intros p Hp. specialize (Hnonempty p Hp). congruence. }
    destruct has_profile; simpl.
    + destruct (backend w (calls w) (ProfilesUpdate _ _)) as [v|e]; simpl;
        since_calls;
        (split; [routed | intros p Hp; by destruct (Hnone p)]).
    + unfold calls_since; simpl; rewrite drop_all.
      split; [constructor | intros p Hp; by destruct (Hnone p)].
Qed.

(** ** C6: the account client fails soft *)

Lemma quiet_soft {A} (P : A → Prop) (m : M A) : quiet m → soft P m.
Proof.
  intros Hq w. destruct (Hq w) as [Hc Hr]. exists [].
  split; [by rewrite Hc, app_nil_r|]. split; [done | by intros v _ ?].
Qed.

Lemma soft_weaken {A} (P Q : A → Prop) (m : M A) :
  (∀ v, P v → Q v) → soft P m → soft Q m.
Proof.
  intros HPQ Hm w. destruct (Hm w) as (events & Hc & Hr & Hv).
  exists events. split; [done|]. split; [done|]. intros v H1 H2. by apply HPQ, Hv.
Qed.

Lemma strict_sdk c : strict (sdk c).
Proof.
  intros w. eexists. split; [reflexivity|]. unfold sdk; simpl.
  destruct (backend w (calls w) c); (split; [discriminate|]); intros v Hv;
    [done | discriminate].
Qed.

Ltac quiet_value := intros w; split; [done | discriminate].

Lemma quiet_ret {A} (a : A) : quiet (ret a).
Proof. quiet_value. Qed.

Lemma quiet_raise {A} e : quiet (@raise A e).
Proof. quiet_value. Qed.

Lemma quiet_logger lvl msg : quiet (logger lvl msg).
Proof. quiet_value. Qed.

Lemma quiet_st_show kind msg : quiet (st_show kind msg).
Proof. quiet_value. Qed.

Lemma quiet_ss_set k v : quiet (ss_set k v).
Proof. intros w. split; [by destruct w | discriminate]. Qed.

Lemma quiet_py_attr v name : quiet (py_attr v name).
Proof.
  intros w. unfold py_attr. destruct v; try (split; [done | discriminate]).
  destruct (dict_lookup _ _); (split; [done | discriminate]).
Qed.

Lemma quiet_py_get v k : quiet (py_get v k).
Proof. intros w. destruct v; (split; [done | discriminate]). Qed.

Lemma quiet_py_first v : quiet (py_first v).
Proof.
  intros w. unfold py_first.
  destruct v as [| | |[|c s]| |[|x l]|d]; (split; [done | discriminate]).
Qed.

Lemma quiet_py_as_str v : quiet (py_as_str v).
Proof. intros w. destruct v; (split; [done | discriminate]). Qed.

Lemma quiet_py_len v : quiet (py_len v).
Proof. intros w. destruct v; (split; [done | discriminate]). Qed.

Lemma quiet_py_iter v : quiet (py_iter v).
Proof. intros w. destruct v; (split; [done | discriminate]). Qed.

Lemma quiet_bind {A B} (m : M A) (k : A → M B) :
  quiet m → (∀ a, quiet (k a)) → quiet (bind m k).
Proof.
  intros Hm Hk w. unfold bind. destruct (Hm w) as [Hc Hr].
  destruct (m w) as [[a|e] w1]; simpl in *.
  - destruct (Hk a w1) as [Hc2 Hr2]. split; [by rewrite Hc2 | done].
  - split; [done|]. intros [= ->]. by apply Hr.
Qed.

(** After a strict step the rest decides. *)
Lemma soft_bind_strict {A B} (P : B → Prop) (m : M A) (k : A → M B) :
  strict m → (∀ a, soft P (k a)) → soft P (bind m k).
Proof.
  intros Hm Hk w. destruct (Hm w) as (ev1 & Hc1 & Hr1 & Hv1). unfold bind.
  destruct (m w) as [[a|e] w1]; simpl in *.
  - destruct (Hk a w1) as (ev2 & Hc2 & Hr2 & Hv2).
    exists (ev1 ++ ev2)%list. split; [by rewrite Hc2, Hc1, app_assoc|].
    split; [done|].
    intros v Hv Hr. rewrite existsb_app in Hr.
    destruct (existsb ev_raised ev1) eqn:He1; [by destruct (Hv1 a)|].
    by apply Hv2.
  - exists ev1. split; [done|]. split; [|by intros v ?].
    intros [= ->]. by apply Hr1.
Qed.


(** [try: body except Exception: handler] with a body that no rerun
    ends and a handler that answers the failure value. *)
Lemma fail_soft_try_except {A} (body : M A) (handler : exn → M A) (failure : A) :
  soft (λ v, v = failure) body → (∀ e, answers (handler e) failure) →
  fail_soft (try_except body handler) failure.
Proof.
  intros Hb Hh w. destruct (Hb w) as (events & Hc & Hrerun & Hv). unfold try_except.
  destruct (body w) as [[v|[e|]] w1] eqn:Hbody; simpl in *; [| |done].
  - exists v, w1. split; [done|]. unfold any_raised.
    rewrite (calls_since_app _ _ _ Hc). by apply Hv.
  - destruct (Hh e w1) as [Hr Hcalls].
    destruct (handler e w1) as [r w2]; simpl in *; subst r.
    by exists failure, w2.
Qed.

Lemma answers_bind {A B} (m : M A) (k : A → M B) (a : A) (b : B) :
  answers m a → answers (k a) b → answers (bind m k) b.
Proof.
  intros Hm Hk w. unfold bind. destruct (Hm w) as [Hr Hc].
  destruct (m w) as [r w1]; simpl in *; subst r.
  destruct (Hk w1) as [Hr2 Hc2]. by rewrite Hc2.
Qed.

Lemma answers_ret {A} (a : A) : answers (ret a) a.
Proof. done. Qed.

Lemma answers_logger lvl msg : answers (logger lvl msg) tt.
Proof. done. Qed.

Lemma answers_st_show kind msg : answers (st_show kind msg) tt.
Proof. done. Qed.

Ltac answer_failure :=
  intros ?; unfold st_error;
  repeat first [ apply answers_ret
               | eapply answers_bind; [first [apply answers_logger | apply answers_st_show]|] ].

Ltac quiet_step :=
  first
    [ apply quiet_ret | apply quiet_raise | apply quiet_logger | apply quiet_st_show
    | apply quiet_ss_set | apply quiet_py_attr | apply quiet_py_get
    | apply quiet_py_first | apply quiet_py_as_str | apply quiet_py_len
    | apply quiet_py_iter | apply quiet_bind
    | match goal with
      | |- quiet (if ?b then _ else _) => destruct b
      | |- ∀ _, _ => intros ?
      end ].

Ltac soften :=
  unfold strict;
  repeat first
    [ apply strict_sdk
    | match goal with
      | |- soft _ (bind (if ?b then _ else _) _) => destruct b
      | |- soft _ (if ?b then _ else _) => destruct b
      | |- ∀ _, _ => intros ?
      end
    | solve [apply quiet_soft; repeat quiet_step]
    | apply soft_bind_strict; [solve [soften]|] ].






Lemma update_user_fail_soft user_id user_data :
  fail_soft (update_user user_id user_data) false.
Proof.
  unfold update_user. apply fail_soft_try_except; [soften | answer_failure].
Qed.





Lemma quiet_count_where field wanted items : quiet (count_where field wanted items).
Proof.
  induction items as [|p rest IH]; simpl; [apply quiet_ret|].
  apply quiet_bind; [apply quiet_py_get|]. intros v.
  apply quiet_bind; [apply IH|]. intros n. apply quiet_ret.
Qed.

Lemma quiet_count_profiles field wanted profiles :
  quiet (count_profiles field wanted profiles).
Proof.
  unfold count_profiles. apply quiet_bind; [apply quiet_py_iter|].
  intros items. apply quiet_count_where.
Qed.



(** When the user listing raises inside [get_user_stats],
    [get_all_users] absorbs it: the statistics are returned all the
    same, with [total_users] at 0 beside the four counts. *)
Lemma get_user_stats_listing_absorbed (w : world) (e : exn) :
  backend w (calls w) AdminListUsers = Raise e →
  ∃ active inactive admins regular w',
    get_user_stats w =
    (Ok (VDict [("total_users", VInt 0); ("active_users", VInt active);
                ("inactive_users", VInt inactive); ("admin_users", VInt admins);
                ("regular_users", VInt regular)]), w').
Proof.
  intros Hlist.
  unfold get_user_stats, try_except. unfold bind at 1.
  unfold get_all_users, try_except, bind at 1, sdk at 1. rewrite Hlist.
  unfold bind at 1, logger at 1. unfold bind at 1, st_error, st_show at 1. cbn [ret].
  unfold bind at 1, sdk at 1. cbn [calls backend].
  match goal with
  | |- context [backend w ?history ProfilesSelectRoleStatus] =>
      destruct (backend w history ProfilesSelectRoleStatus) as [data|e2]
  end.
  2:{ by exists 0, 0, 0, 0; eexists. }
  set (profiles := if truthy data then data else VList []).
  unfold bind at 1. cbn [py_len ret length Z.of_nat].
  match goal with
  | |- context [bind (count_profiles _ _ _) _ ?after] => generalize after; intros w2
  end.
  unfold bind at 1.
  destruct (quiet_count_profiles "status" "active" profiles w2) as [_ Hs1].
  destruct (count_profiles "status" "active" profiles w2) as [[active|[e1|]] w3];
    [| by exists 0, 0, 0, 0; eexists | by destruct Hs1].
  unfold bind at 1.
  destruct (quiet_count_profiles "status" "inactive" profiles w3) as [_ Hs2].
  destruct (count_profiles "status" "inactive" profiles w3) as [[inactive|[e1|]] w4];
    [| by exists 0, 0, 0, 0; eexists | by destruct Hs2].
  unfold bind at 1.
  destruct (quiet_count_profiles "role" "admin" profiles w4) as [_ Hs3].
  destruct (count_profiles "role" "admin" profiles w4) as [[admins|[e1|]] w5];
    [| by exists 0, 0, 0, 0; eexists | by destruct Hs3].
  unfold bind at 1.
  destruct (quiet_count_profiles "role" "user" profiles w5) as [_ Hs4].
  destruct (count_profiles "role" "user" profiles w5) as [[regular|[e1|]] w6];
    [| by exists 0, 0, 0, 0; eexists | by destruct Hs4].
  by exists active, inactive, admins, regular; eexists.
Qed.



(** ** C7: the schema bootstrap *)

Lemma run_statements_spec (statements : list string) :
  ∀ i n w,
  ∃ w' events warnings,
    run_statements i statements n w = (Ok (n + succeeded events), w') ∧
    calls w' = (calls w ++ events)%list ∧
    map ev_call events = map RpcExecSql (List.filter runnable statements) ∧
    logged w' = (logged w ++ warnings)%list ∧
    length warnings = failed events ∧
    Forall (λ r, fst r = LWarning) warnings.
Proof.
  induction statements as [|statement rest IH]; intros i n w.
  - exists w, [], []. simpl. unfold ret, succeeded. simpl.
    rewrite !app_nil_r. repeat split; try done. do 2 f_equal. lia.
  - cbn [run_statements List.filter]. fold (runnable statement).
    destruct (runnable statement).
    + unfold bind at 1. unfold try_except, bind at 1, sdk at 1.
      destruct (backend w (calls w) (RpcExecSql statement)) as [v|e]; simpl.
      * match goal with
        | |- context [run_statements ?i' rest ?n' ?w1] =>
            destruct (IH i' n' w1) as (w' & events & warnings & -> & Hc & Hm & Hl & Hn & Hw)
        end.
        exists w', (SdkEvent (RpcExecSql statement) false :: events), warnings.
        simpl in *. unfold succeeded, failed in *. simpl.
        repeat split; try done.
        -- do 2 f_equal. lia.
        -- by rewrite Hc, <- app_assoc.
        -- by rewrite Hm.
      * match goal with
        | |- context [run_statements ?i' rest ?n' ?w1] =>
            destruct (IH i' n' w1) as (w' & events & warnings & -> & Hc & Hm & Hl & Hn & Hw)
        end.
        eexists w', (SdkEvent (RpcExecSql statement) true :: events), (_ :: warnings).
        simpl in *. unfold succeeded, failed in *. simpl.
        repeat split; try done.
        -- by rewrite Hc, <- app_assoc.
        -- by rewrite Hm.
        -- rewrite Hl, <- app_assoc. reflexivity.
        -- by rewrite Hn.
        -- by apply Forall_cons_2.
    + apply IH.
Qed.

Lemma statements_of_runnable (setup_sql : string) :
  List.filter runnable (statements_of setup_sql)
  = List.filter (λ s, negb (startswith "--" s)) (statements_of setup_sql).
Proof.
  apply List.filter_ext_in. intros s Hin.
  unfold statements_of in Hin. apply List.filter_In in Hin as [_ Hs].
  unfold runnable. by rewrite Hs.
Qed.

Lemma filter_all {A} (p : A → bool) (l : list A) :
  Forall (λ x, p x = true) l → List.filter p l = l.
Proof.
  induction 1 as [|x l Hx _ IH]; simpl; [done|]. by rewrite Hx, IH.
Qed.

(** A statement that follows a comment line starts with [--] once
    stripped and is never sent, failure or no failure. *)
Example execute_setup_skips_commented :
  let w := world_of ∅ login_time accepting in
  statements_of two_statements
  = ["-- Create profiles table
CREATE TABLE IF NOT EXISTS profiles (id UUID)";
     "GRANT USAGE ON SCHEMA public TO anon"] ∧
  ∃ w', execute_setup two_statements w = (Ok true, w') ∧
        map ev_call (calls_since w w')
        = [RpcExecSql "GRANT USAGE ON SCHEMA public TO anon"].
Proof.
  split; [vm_compute; reflexivity|].
  eexists. split; vm_compute; reflexivity.
Qed.

(** C7 fails on the script of the repository itself.  Between its
    semicolons [get_setup_sql()] has 64 statements; 24 of them begin
    with a comment line once stripped, the five [CREATE TABLE] among
    them.  Against a backend that accepts every statement
    [execute_setup] sends the 40 others and none of these 24: nothing
    fails, nothing is logged as a warning, and no table is created. *)
Theorem execute_setup_drops_the_tables :
  let w := world_of ∅ login_time accepting in
  Z.of_nat (String.length get_setup_sql) = 9490 ∧
  length (statements_of get_setup_sql) = 64%nat ∧
  length (List.filter (startswith "--") (statements_of get_setup_sql)) = 24%nat ∧
  length (List.filter (is_substring "CREATE TABLE") (statements_of get_setup_sql)) = 5%nat ∧
  ∃ w', execute_setup get_setup_sql w = (Ok true, w') ∧
        length (calls_since w w') = 40%nat ∧
        failed (calls_since w w') = 0%nat ∧
        warnings_since w w' = [] ∧
        forallb (λ ev, match ev_call ev with
                       | RpcExecSql sql => negb (is_substring "CREATE TABLE" sql)
                       | _ => true
                       end) (calls_since w w') = true.
Proof.
  intros w. do 4 (split; [vm_compute; reflexivity|]).
  exists (snd (execute_setup get_setup_sql w)).
  split; [vm_compute; reflexivity|].
  do 3 (split; [vm_compute; reflexivity|]). vm_compute. reflexivity.
Qed.

(** What [execute_setup] does send, for any script: the pieces between
    the semicolons that are not empty and do not start with [--], each
    on its own and in order, whatever the outcome of the ones before it;
    each failure is caught and logged with one warning, and the result
    says whether at least one statement went through. *)
Lemma execute_setup_trace (setup_sql : string) (w : world) :
  ∃ w', execute_setup setup_sql w
          = (Ok (succeeded (calls_since w w') >? 0), w') ∧
        map ev_call (calls_since w w')
          = map RpcExecSql
              (List.filter (λ s, negb (startswith "--" s)) (statements_of setup_sql)) ∧
        length (warnings_since w w') = failed (calls_since w w').
Proof.
  destruct (run_statements_spec (statements_of setup_sql) 0 0 w)
    as (w1 & events & warnings & Hrun & Hc & Hm & Hl & Hn & Hw).
  destruct (execute_setup setup_sql w) as [r wf] eqn:Hexec.
  unfold execute_setup, try_except in Hexec. unfold bind at 1 in Hexec.
  rewrite Hrun in Hexec. unfold bind, logger, ret in Hexec. simpl in Hexec.
  assert (calls_since w wf = events) as Hsince.
  { apply calls_since_app. inversion Hexec; subst. exact Hc. }
  assert (warnings_since w wf = warnings) as Hwarn.
  { unfold warnings_since. inversion Hexec; subst. simpl.
    rewrite Hl, <- app_assoc, drop_app_length, List.filter_app. simpl.
    rewrite app_nil_r. apply filter_all.
    eapply Forall_impl; [exact Hw|]. intros [lvl msg] Hlvl. simpl in *. by subst. }
  exists wf. rewrite Hsince, Hwarn. split; [|split].
  - by inversion Hexec.
  - by rewrite Hm, statements_of_runnable.
  - exact Hn.
Qed.

(** ** C4: the list filters *)

Section FilterProperties.

Variable re_search_ignorecase : string → string → bool.

Lemma frame_wf_cell df (r : row) col s :
  frame_wf df = true → In r (rows df) → r !! col = Some s → has_column df col = true.
Proof.
  intros Hwf Hin Hcell. unfold frame_wf in Hwf.
  rewrite forallb_forall in Hwf. specialize (Hwf r Hin).
  rewrite forallb_forall in Hwf. apply (Hwf (col, s)).
  apply list_elem_of_In. by apply elem_of_map_to_list.
Qed.

Lemma filter_filter {A} (p q : A → bool) (l : list A) :
  List.filter q (List.filter p l) = List.filter (λ x, p x && q x) l.
Proof.
  induction l as [|x l IH]; simpl; [done|].
  destruct (p x); simpl; [|done]. destruct (q x); by rewrite IH.
Qed.

Lemma filter_true {A} (l : list A) : List.filter (λ _, true) l = l.
Proof. induction l as [|x l IH]; simpl; by rewrite ?IH. Qed.

Lemma str_contains_literal query cell :
  is_literal query = true →
  str_contains re_search_ignorecase query cell = substring_ignorecase query cell.
Proof. intros Hlit. unfold str_contains, substring_ignorecase. by rewrite Hlit. Qed.

(** The three filters of the source, one after the other, keep what
    [keeps] keeps. *)
Lemma filter_users_keeps df query role_filter status_filter :
  is_literal query = true → frame_wf df = true →
  has_column df "Email" = true → has_column df "Status" = true →
  filter_users re_search_ignorecase df query role_filter status_filter
  = Ok (List.filter (keeps df query role_filter status_filter) (rows df)).
Proof.
  intros Hlit Hwf Hemail Hstatus. unfold filter_users.
  destruct (df_empty df) eqn:Hempty.
  { unfold df_empty in Hempty. destruct (rows df) as [|r rs]; [done|].
    destruct (columns df) as [|c cs] eqn:Hcols; [|done].
    unfold has_column in Hemail. by rewrite Hcols in Hemail. }
  rewrite Hemail, Hstatus.
  assert (∀ r, In r (rows df) →
               (if has_column df "Full Name"
                then str_contains re_search_ignorecase query (r !! "Full Name")
                else false)
               = substring_ignorecase query (r !! "Full Name")) as Hname.
  { intros r Hin. destruct (has_column df "Full Name") eqn:Hcol.
    - by apply str_contains_literal.
    - destruct (r !! "Full Name") as [s|] eqn:Hcell; [|done].
      rewrite (frame_wf_cell df r _ s Hwf Hin Hcell) in Hcol. discriminate. }
  assert (∀ (l : list row),
            (if negb (String.eqb role_filter "All") && has_column df "Role"
             then List.filter (cell_is "Role" role_filter) l else l)
            = List.filter (λ r, negb (has_column df "Role")
                                 || spec_choice "Role" role_filter r) l) as Hrole.
  { intros l. unfold spec_choice.
    destruct (String.eqb role_filter "All"), (has_column df "Role"); simpl;
      by rewrite ?filter_true. }
  assert (∀ (l : list row),
            (if negb (String.eqb status_filter "All")
             then Ok (List.filter (cell_is "Status" status_filter) l) else Ok l)
            = @Ok exn (list row) (List.filter (spec_choice "Status" status_filter) l))
    as Hstat.
  { intros l. unfold spec_choice.
    destruct (String.eqb status_filter "All"); simpl; by rewrite ?filter_true. }
  destruct (truthy (VStr query)) eqn:Hq; simpl.
  - rewrite Hrole, Hstat, !filter_filter. f_equal.
    apply List.filter_ext_in. intros r Hin. unfold keeps, spec_text.
    rewrite Hq, (Hname r Hin), str_contains_literal by done.
    simpl. by rewrite andb_assoc.
  - rewrite Hrole, Hstat, !filter_filter. f_equal.
    apply List.filter_ext_in. intros r Hin. unfold keeps. rewrite Hq. simpl.
    by rewrite ?andb_assoc.
Qed.

(** C4, amended. For a table with its [Email] and [Status] columns and
    a query without regular-expression operators, the rows shown are
    exactly the rows that pass all three tests: the query is empty or
    is, case folded, a substring of the email or of the display name;
    the role filter is [All], or the table has no [Role] column, or the
    role is the chosen one; the status filter is [All] or the status is
    the chosen one. *)
Theorem filter_users_conjunction (df : DataFrame)
    (query role_filter status_filter : string) :
  is_literal query = true → frame_wf df = true →
  has_column df "Email" = true → has_column df "Status" = true →
  ∃ shown,
    filter_users re_search_ignorecase df query role_filter status_filter = Ok shown ∧
    (∀ r, In r shown ↔
          In r (rows df) ∧
          (query = "" ∨ spec_text query r = true) ∧
          (role_filter = "All" ∨ has_column df "Role" = false ∨
           r !! "Role" = Some role_filter) ∧
          (status_filter = "All" ∨ r !! "Status" = Some status_filter)) ∧
    shown = List.filter (keeps df query role_filter status_filter) (rows df).
Proof.
  intros Hlit Hwf Hemail Hstatus.
  eexists. split; [by apply filter_users_keeps|]. split; [|done].
  intros r. rewrite List.filter_In. unfold keeps, spec_choice, cell_is.
  rewrite !andb_true_iff, !orb_true_iff, negb_true_iff, negb_true_iff.
  assert (truthy (VStr query) = false ↔ query = "") as -> by (by destruct query).
  rewrite !String.eqb_eq.
  assert (∀ col choice,
            match r !! col with Some s => String.eqb s choice | None => false end = true
            ↔ r !! col = Some choice) as Hcell.
  { intros col choice. destruct (r !! col) as [s|]; [|done].
    rewrite String.eqb_eq. split; [by intros -> | by intros [= ->]]. }
  rewrite !Hcell. tauto.
Qed.

End FilterProperties.

(** *** The filters on the two tables of the source *)

(** C4, as stated, fails on the live table: with the role filter on
    [Admin] the one record, which has no role at all, is still shown,
    while the conjunction of the three tests keeps nothing. *)
Lemma filter_users_role_without_column :
  shown_ids (filter_users no_regex live_users "" "Admin" "All") = [Some "9f1c"] ∧
  List.filter (spec_keeps "" "Admin" "All") (rows live_users) = [].
Proof. split; vm_compute; reflexivity. Qed.

Lemma filter_users_conjunction_witness :
  is_literal "DOE" = true ∧ frame_wf demo_users = true ∧
  has_column demo_users "Email" = true ∧ has_column demo_users "Status" = true ∧
  ∃ shown,
    filter_users no_regex demo_users "DOE" "User" "Active" = Ok shown ∧
    shown = List.filter (keeps demo_users "DOE" "User" "Active") (rows demo_users).
Proof.
  assert (is_literal "DOE" = true) as Hlit by (vm_compute; reflexivity).
  assert (frame_wf demo_users = true) as Hwf by (vm_compute; reflexivity).
  assert (has_column demo_users "Email" = true) as He by (vm_compute; reflexivity).
  assert (has_column demo_users "Status" = true) as Hs by (vm_compute; reflexivity).
  repeat (split; [assumption|]).
  destruct (filter_users_conjunction no_regex demo_users "DOE" "User" "Active"
              Hlit Hwf He Hs) as (shown & Hrun & _ & Hshown).
  exists shown. split; assumption.
Defined.

Example filter_users_demo_doe :
  shown_ids (filter_users no_regex demo_users "DOE" "User" "Active") = [Some "user-2"].
Proof. vm_compute. reflexivity. Qed.

Example filter_users_demo_active :
  shown_ids (filter_users no_regex demo_users "" "All" "Active")
  = [Some "user-1"; Some "user-2"; Some "user-4"].
Proof. vm_compute. reflexivity. Qed.

(** *** The other statements on concrete worlds *)

Lemma log_admin_action_appends_one_witness :
  audit_typed signed_in_world ∧
  ∃ w', log_admin_action "delete_user" (VDict [("user_id", VStr "user-2")]) signed_in_world
          = (Ok tt, w') ∧
        audit_store w' =
          [audit_entry demo_admin "delete_user" (VDict [("user_id", VStr "user-2")])
             login_time].
Proof.
  split; [apply signed_in_has_actor|].
  destruct (log_admin_action_appends_one "delete_user"
              (VDict [("user_id", VStr "user-2")]) signed_in_world)
    as (w' & Hrun & Hstore); [apply signed_in_has_actor|].
  exists w'. split; [exact Hrun | exact Hstore].
Defined.


Lemma update_user_password_routing_witness :
  let w := world_of ∅ login_time accepting in
  let user_data := [("email", VStr "ann@example.com"); ("password", VStr "s3cretpass");
                    ("role", VStr "user")] in
  password_of user_data = Some (VStr "s3cretpass") ∧
  map ev_call (calls_since w (snd (update_user "user-2" user_data w)))
  = [AdminUpdateUserById "user-2"
       [("email", VStr "ann@example.com"); ("password", VStr "s3cretpass")];
     ProfilesUpdate "user-2" [("email", VStr "ann@example.com"); ("role", VStr "user")]] ∧
  Forall (password_routed "user-2" user_data)
    (calls_since w (snd (update_user "user-2" user_data w))).
Proof.
  intros w user_data.
  split; [reflexivity|]. split; [vm_compute; reflexivity|].
  exact (proj1 (update_user_password_routing "user-2" user_data w)).
Defined.

(** * Further properties of the code *)

(** ** The session life cycle *)

Lemma create_session_spec (token : string) (user_data : dict) (w : world) :
  create_session token user_data w =
  (Ok token,
   with_session
     (λ s, <["session_created" := VTime (clock w)]>
             (<["admin_authenticated" := VBool true]>
                (<["admin_user" := VDict user_data]>
                   (<["session_token" := VStr token]> s)))) w).
Proof. by destruct w. Qed.

(** X1. A session made by [create_session] is accepted by
    [validate_session], which then changes nothing, as long as no more
    than 24 hours have passed, the 24th hour included; one microsecond
    later [validate_session] does not return: it removes the token, the
    user and the flag and the rerun of [logout] ends the run. *)
Theorem session_valid_for_a_day (token : string) (user_data : dict) (w : world) (now : Z) :
  token ≠ "" →
  let w1 := at_time now (snd (create_session token user_data w)) in
  (now - clock w ≤ SESSION_LIFETIME → validate_session w1 = (Ok true, w1)) ∧
  (now - clock w > SESSION_LIFETIME →
   ∃ w2, validate_session w1 = (Raise RerunException, w2) ∧
         session_state w2 !! "session_token" = None ∧
         session_state w2 !! "admin_user" = None ∧
         session_state w2 !! "admin_authenticated" = None).
Proof.
  intros Htok. rewrite create_session_spec. simpl.
  assert (session_typed
            (at_time now
               (with_session
                  (λ s, <["session_created" := VTime (clock w)]>
                          (<["admin_authenticated" := VBool true]>
                             (<["admin_user" := VDict user_data]>
                                (<["session_token" := VStr token]> s)))) w)))
    as Hty.
  { split; intros v; simpl.
    - rewrite !lookup_insert_ne by done. rewrite lookup_insert_eq.
      intros [= <-]. by eexists.
    - rewrite lookup_insert_eq. intros [= <-]. by eexists. }
  match type of Hty with session_typed ?x => set (w1 := x) in * end.
  assert (¬ no_session w1) as Hsession.
  { intros [H|H]; simpl in H.
    - rewrite !lookup_insert_ne in H by done. by rewrite lookup_insert_eq in H.
    - by rewrite lookup_insert_eq in H. }
  assert (expired w1 ↔ now - clock w > SESSION_LIFETIME) as Hexp.
  { unfold expired. simpl. rewrite lookup_insert_eq. split.
    - by intros (c & [= <-] & ?).
    - intros ?. by eexists. }
  destruct (validate_session_cases w1 Hty)
    as [[Hno _] | [(_ & Hex & w2 & Hv & Hs2) | (_ & Hnex & Hv)]]; [done| |].
  - split; [intros Hle; apply Hexp in Hex; lia|]. intros _.
    exists w2. split; [done|]. rewrite Hs2.
    rewrite lookup_delete_eq.
    rewrite (lookup_delete_ne _ "session_token" "admin_user") by done.
    rewrite lookup_delete_eq.
    rewrite (lookup_delete_ne _ "session_token" "admin_authenticated") by done.
    rewrite (lookup_delete_ne _ "admin_user" "admin_authenticated") by done.
    by rewrite lookup_delete_eq.
  - split; [done|]. intros Hgt. by apply Hexp in Hgt.
Qed.

Lemma session_valid_for_a_day_witness :
  let w := world_of ∅ login_time unreachable in
  let w1 := at_time (login_time + SESSION_LIFETIME)
              (snd (create_session "k3Jq0bTn" demo_admin w)) in
  "k3Jq0bTn" ≠ "" ∧ validate_session w1 = (Ok true, w1).
Proof.
  intros w w1. split; [discriminate|].
  apply (proj1 (session_valid_for_a_day "k3Jq0bTn" demo_admin w
                  (login_time + SESSION_LIFETIME) ltac:(discriminate))).
  simpl. lia.
Defined.

(** X2. [logout] removes the token, the user and the authenticated flag
    and nothing else, and then ends the run with [st.rerun()] instead of
    returning: every other key of session state, the audit log and the
    creation time among them, keeps its value, and a second [logout]
    leaves session state as the first one left it. *)
Theorem logout_removes_three_keys (w : world) :
  ∃ w', logout w = (Raise RerunException, w') ∧
        rerun_requested w' = true ∧
        session_state w' !! "session_token" = None ∧
        session_state w' !! "admin_user" = None ∧
        session_state w' !! "admin_authenticated" = None ∧
        (∀ k, k ≠ "session_token" → k ≠ "admin_user" → k ≠ "admin_authenticated" →
              session_state w' !! k = session_state w !! k) ∧
        audit_store w' = audit_store w ∧
        session_state (snd (logout w')) = session_state w'.
Proof.
  destruct (logout_spec w) as (w' & Hrun & Hs & _ & _ & Hrerun).
  destruct (logout_spec w') as (w'' & Hrun' & Hs' & _).
  exists w'. split; [done|]. split; [done|].
  assert (session_state w' !! "session_token" = None) as Ht
    by (rewrite Hs; apply lookup_delete_eq).
  assert (session_state w' !! "admin_user" = None) as Hu.
  { rewrite Hs, lookup_delete_ne by done. apply lookup_delete_eq. }
  assert (session_state w' !! "admin_authenticated" = None) as Ha.
  { rewrite Hs, !lookup_delete_ne by done. apply lookup_delete_eq. }
  assert (∀ k, k ≠ "session_token" → k ≠ "admin_user" → k ≠ "admin_authenticated" →
               session_state w' !! k = session_state w !! k) as Hframe.
  { intros k H1 H2 H3. rewrite Hs. by rewrite !lookup_delete_ne. }
  repeat split; try done.
  - unfold audit_store. by rewrite Hframe.
  - rewrite Hrun'. simpl. rewrite Hs'.
    rewrite (delete_id _ "admin_authenticated") by done.
    rewrite (delete_id _ "admin_user") by done.
    by rewrite delete_id.
Qed.

(** ** Signing in against the backend *)

Lemma authenticate_admin_outcome email password w :
  ∃ b w', authenticate_admin email password w = (Ok b, w') ∧
          if b : bool
          then ∃ user, admin_confirmed email password w user ∧
                       session_state w' =
                         <["admin_authenticated" := VBool true]>
                           (<["admin_user" := user]> (session_state w))
          else session_state w' = session_state w.
Proof.
  unfold authenticate_admin, get_user_profile, try_except, bind, sdk, st_error, st_show,
    logger, ret, raise, ss_set, py_attr, py_as_str, py_first, py_get.
  destruct (backend w (calls w) (SignInWithPassword email password)) as [user|e] eqn:Hsign;
    simpl; [|by do 2 eexists].
  destruct user as [| | | | | |fields]; simpl; try (by do 2 eexists).
  1-4: match goal with |- context [if ?b then _ else _] => destruct b end; by do 2 eexists.
  destruct fields as [|field fields']; [by do 2 eexists|].
  destruct (dict_lookup (field :: fields') "id") as [uidv|] eqn:Hid; [|by do 2 eexists].
  destruct uidv as [| | |uid| | |]; try (by do 2 eexists).
  simpl.
  match goal with
  | |- context [backend w ?h (ProfilesSelectById uid)] =>
      destruct (backend w h (ProfilesSelectById uid)) as [data|e] eqn:Hsel
  end; simpl; [|by do 2 eexists].
  destruct data as [|b|n|[|c s]| |[|x rest]|d]; simpl; try (by do 2 eexists);
    try (match goal with |- context [if ?b then _ else _] => destruct b end;
         by do 2 eexists).
  destruct x as [|b|n|[|c s]| |l|profile]; simpl; try (by do 2 eexists);
    try (match goal with |- context [if ?b then _ else _] => destruct b end;
         by do 2 eexists);
    try (match goal with
         | |- context [match ?l with [] => _ | _ :: _ => _ end] => destruct l
         end; by do 2 eexists).
  destruct profile as [|item profile']; [by do 2 eexists|].
  destruct (is_str (dict_get (item :: profile') "role") "admin") eqn:Hrole;
    [|by do 2 eexists].
  do 2 eexists. split; [reflexivity|]. simpl.
  eexists. split; [|reflexivity].
  split; [exact Hsign|]. do 4 eexists. repeat split; try done.
  unfold is_str in Hrole. destruct (dict_get _ _); try done.
  by apply String.eqb_eq in Hrole as ->.
Qed.

(** X3. [authenticate_admin] never raises.  When it returns [False] it
    leaves session state as it was; it returns [True] only after the
    sign-in succeeded and the profile row of the signed-in user has the
    role [admin], and then it has stored that user under [admin_user]
    and set [admin_authenticated], and nothing else. *)
Theorem authenticate_admin_admits_admins (email password : string) (w : world) :
  ∃ b w', authenticate_admin email password w = (Ok b, w') ∧
          (b = false → session_state w' = session_state w) ∧
          (b = true →
           ∃ user, admin_confirmed email password w user ∧
                   session_state w' =
                     <["admin_authenticated" := VBool true]>
                       (<["admin_user" := user]> (session_state w))).
Proof.
  destruct (authenticate_admin_outcome email password w) as (b & w' & Hrun & Hb).
  exists b, w'. split; [done|]. by destruct b.
Qed.

Lemma authenticate_admin_admits_admins_witness :
  let w := world_of ∅ login_time one_admin in
  ∃ w', authenticate_admin "root@example.com" "s3cretpass" w = (Ok true, w') ∧
        session_state w' !! "admin_authenticated" = Some (VBool true).
Proof.
  intros w.
  destruct (authenticate_admin_admits_admins "root@example.com" "s3cretpass" w)
    as (b & w' & Hrun & _ & Htrue).
  assert (b = true) as ->.
  { assert (fst (authenticate_admin "root@example.com" "s3cretpass" w) = Ok true) as H
      by (vm_compute; reflexivity).
    rewrite Hrun in H. by inversion H. }
  exists w'. split; [exact Hrun|].
  destruct (Htrue eq_refl) as (user & _ & ->). apply lookup_insert_eq.
Defined.

(** X4. [authenticate_admin] creates no session token: when there was
    none before it, [validate_session] returns [False] right after a
    successful sign-in, at its first test, and changes nothing. *)
Theorem sign_in_leaves_no_token (email password : string) (w w' : world) :
  session_state w !! "session_token" = None →
  authenticate_admin email password w = (Ok true, w') →
  validate_session w' = (Ok false, w').
Proof.
  intros Hnone Hrun.
  destruct (authenticate_admin_outcome email password w) as (b & w1 & Hrun1 & Hb).
  rewrite Hrun in Hrun1. inversion Hrun1; subst b w1.
  destruct Hb as (user & _ & Hs).
  unfold validate_session, bind, ss_get. rewrite Hs.
  rewrite !lookup_insert_ne by done. by rewrite Hnone.
Qed.

Lemma sign_in_leaves_no_token_witness :
  let w := world_of ∅ login_time one_admin in
  let w' := snd (authenticate_admin "root@example.com" "s3cretpass" w) in
  session_state w !! "session_token" = None ∧
  authenticate_admin "root@example.com" "s3cretpass" w = (Ok true, w') ∧
  validate_session w' = (Ok false, w').
Proof.
  intros w w'.
  assert (authenticate_admin "root@example.com" "s3cretpass" w = (Ok true, w')) as Hrun.
  { subst w'. destruct (authenticate_admin _ _ w) as [r w1] eqn:Hr. simpl.
    assert (fst (authenticate_admin "root@example.com" "s3cretpass" w) = Ok true) as H
      by (vm_compute; reflexivity).
    rewrite Hr in H. simpl in H. by subst r. }
  split; [reflexivity|]. split; [exact Hrun|].
  exact (sign_in_leaves_no_token "root@example.com" "s3cretpass" w w' eq_refl Hrun).
Defined.

(** ** The audit store only grows *)

Lemma has_actor_after_log admin w w' entries :
  has_actor admin w →
  session_state w' = <["audit_logs" := VList entries]> (session_state w) →
  has_actor admin w'.
Proof.
  intros ([Huser Hlogs] & Hact & Hne) Hs. unfold has_actor, audit_typed, actor in *.
  rewrite Hs. rewrite lookup_insert_ne by done. rewrite lookup_insert_eq.
  repeat split; try done. intros v [= <-]. by eexists.
Qed.

(** X5. With an actor signed in, two actions logged one after the other
    leave two entries at the end of the audit store, in the order of the
    calls and behind the entries that were there, which are kept as they
    were; the actor is still signed in afterwards. *)
Theorem audit_entries_in_order (admin : dict) (w : world)
    (action1 action2 : string) (details1 details2 : value) :
  has_actor admin w →
  ∃ w2, (log_admin_action action1 details1 ;;; log_admin_action action2 details2) w
          = (Ok tt, w2) ∧
        audit_store w2 =
          (audit_store w ++
             [audit_entry admin action1 details1 (clock w);
              audit_entry admin action2 details2 (clock w)])%list ∧
        has_actor admin w2.
Proof.
  intros Hact. pose proof Hact as (Hty & Hactor & Hne).
  destruct (log_admin_action_actor action1 details1 w admin Hty Hactor
              (truthy_nonempty_dict _ Hne)) as (w1 & Hrun1 & Hs1 & Hc1 & _).
  pose proof (has_actor_after_log admin w w1 _ Hact Hs1) as Hact1.
  pose proof Hact1 as (Hty1 & Hactor1 & _).
  destruct (log_admin_action_actor action2 details2 w1 admin Hty1 Hactor1
              (truthy_nonempty_dict _ Hne)) as (w2 & Hrun2 & Hs2 & _).
  exists w2. unfold bind. rewrite Hrun1, Hrun2. split; [done|].
  pose proof (audit_store_insert _ _ _ Hs1) as Hst1.
  split.
  - rewrite (audit_store_insert _ _ _ Hs2), Hst1, Hc1, <- app_assoc. done.
  - by eapply has_actor_after_log.
Qed.

Lemma audit_entries_in_order_witness :
  has_actor demo_admin signed_in_world ∧
  ∃ w2, (log_admin_action "create_user" (VDict [("email", VStr "ann@example.com")]) ;;;
         log_admin_action "delete_user" (VDict [("user_id", VStr "user-2")]))
          signed_in_world = (Ok tt, w2) ∧
        map (λ entry, dict_get (match entry with VDict d => d | _ => [] end) "action")
          (audit_store w2)
        = [VStr "create_user"; VStr "delete_user"].
Proof.
  split; [apply signed_in_has_actor|].
  destruct (audit_entries_in_order demo_admin signed_in_world "create_user" "delete_user"
              (VDict [("email", VStr "ann@example.com")])
              (VDict [("user_id", VStr "user-2")]) signed_in_has_actor)
    as (w2 & Hrun & Hstore & _).
  exists w2. split; [exact Hrun|]. rewrite Hstore. reflexivity.
Defined.

(** ** The forms: validation, failure, and what reaches the audit log *)

Lemma show_errors_spec (errors : list string) (w : world) :
  ∃ w', show_errors errors w = (Ok tt, w') ∧
        session_state w' = session_state w ∧ clock w' = clock w ∧
        backend w' = backend w ∧ calls w' = calls w ∧ logged w' = logged w ∧
        rerun_requested w' = rerun_requested w ∧
        shown w' = (shown w ++ map (λ e, (UiError, [VStr e])) errors)%list.
Proof.
  revert w. induction errors as [|error rest IH]; intros w; simpl.
  - exists w. unfold ret. by rewrite app_nil_r.
  - unfold bind, st_error, st_show.
    match goal with
    | |- context [show_errors rest ?w1] =>
        destruct (IH w1) as (w' & -> & Hs & Hc & Hb & Hk & Hl & Hr & Hsh)
    end.
    exists w'. simpl in *. repeat split; try done.
    by rewrite Hsh, <- app_assoc.
Qed.

Lemma show_errors_only (errors : list string) (w : world) :
  errors ≠ [] →
  ∃ w' msgs, show_errors errors w = (Ok tt, w') ∧ only_errors_shown w w' msgs.
Proof.
  intros Hne. destruct (show_errors_spec errors w)
    as (w' & Hrun & Hs & Hc & Hb & Hk & Hl & Hr & Hsh).
  exists w', (map (λ e, (UiError, [VStr e])) errors). split; [done|].
  unfold only_errors_shown. repeat split; try done.
  - by destruct errors.
  - by apply Forall_map, Forall_true.
Qed.

Lemma email_errors_invalid email : validate_email email = false → email_errors email ≠ [].
Proof.
  intros H. unfold email_errors. destruct (truthy (VStr email)); simpl; [|done].
  by rewrite H.
Qed.

Lemma password_errors_invalid password :
  fst (validate_password password) = false →
  (if negb (truthy (VStr password)) then ["Password is required"]
   else let '(is_valid, msg) := validate_password password in
        if is_valid then [] else [msg]) ≠ [].
Proof.
  intros H. destruct (truthy (VStr password)); simpl; [|done].
  destruct (validate_password password) as [valid msg]. simpl in H. by subst.
Qed.

(** X6. When the email is not well formed, or the password is not
    acceptable, the add-user form stops at validation: it shows at least
    one error and does nothing else; no SDK call is made and session
    state, the audit log with it, stays as it was.  The edit-user form
    does the same for a malformed email or an unacceptable new password. *)
Theorem invalid_input_stops_the_form (client : option SupabaseAdmin) (w : world)
    (user_id email full_name role phone password status department job_title : string) :
  (validate_email email = false ∨ fst (validate_password password) = false →
   ∃ w' msgs,
     add_user_form_submit email full_name role phone password status department
       job_title client w = (Ok tt, w') ∧ only_errors_shown w w' msgs) ∧
  (validate_email email = false ∨
   (password ≠ "" ∧ fst (validate_password password) = false) →
   ∃ w' msgs,
     edit_user_form_submit user_id email full_name role phone password status
       department job_title client w = (Ok tt, w') ∧ only_errors_shown w w' msgs).
Proof.
  split.
  - intros Hbad. unfold add_user_form_submit.
    match goal with
    | |- context [nonempty ?errs] =>
        assert (errs ≠ []) as Hne;
        [|destruct errs as [|e errs'] eqn:Herrs; [done|];
          cbn [nonempty]; by apply show_errors_only]
    end.
    destruct Hbad as [He|Hp].
    + apply email_errors_invalid in He. intros Happ.
      by apply app_eq_nil in Happ as [? _].
    + apply password_errors_invalid in Hp. intros Happ.
      by apply app_eq_nil in Happ as [_ ?].
  - intros Hbad. unfold edit_user_form_submit.
    match goal with
    | |- context [nonempty ?errs] =>
        assert (errs ≠ []) as Hne;
        [|destruct errs as [|e errs'] eqn:Herrs; [done|];
          cbn [nonempty]; by apply show_errors_only]
    end.
    destruct Hbad as [He|[Hp1 Hp2]].
    + apply email_errors_invalid in He. intros Happ.
      by apply app_eq_nil in Happ as [? _].
    + intros Happ. apply app_eq_nil in Happ as [_ Happ].
      destruct password as [|c password]; [done|]. simpl in Happ.
      destruct (validate_password (String c password)) as [valid msg].
      simpl in Hp2. by subst.
Qed.

Lemma invalid_input_stops_the_form_witness :
  let client := Some {| url := "https://example.supabase.co"; key := "anon";
                        service_role_key := "srv" |} in
  validate_email "ann(at)example.com" = false ∧
  ∃ w' msgs,
    add_user_form_submit "ann(at)example.com" "Ann" "User" "" "s3cretpass" "Active"
      "Sales" "Agent" client signed_in_world = (Ok tt, w') ∧
    only_errors_shown signed_in_world w' msgs.
Proof.
  intros client.
  assert (validate_email "ann(at)example.com" = false) as H by (vm_compute; reflexivity).
  split; [exact H|].
  apply (proj1 (invalid_input_stops_the_form client signed_in_world "" "ann(at)example.com"
                  "Ann" "User" "" "s3cretpass" "Active" "Sales" "Agent")).
  left. exact H.
Defined.

Lemma same_session_of_run {A} (m : M A) (w w1 : world) (r : outcome A) :
  frames m → m w = (r, w1) → same_session w w1.
Proof. intros Hf Hrun. specialize (Hf w). by rewrite Hrun in Hf. Qed.

Lemma add_user_form_fails client w w1
    email full_name role phone password status department job_title :
  validate_email email = true → fst (validate_password password) = true →
  create_attempt client email password role
    (add_user_data full_name role status phone department job_title) w = (Ok false, w1) →
  add_user_form_submit email full_name role phone password status department job_title
    client w = (Ok tt, w1) ∧ same_session w w1.
Proof.
  intros Hemail Hpw Hattempt. split.
  - unfold add_user_form_submit.
    rewrite (validate_email_nonempty _ Hemail), (validate_password_nonempty _ Hpw).
    simpl. destruct (validate_password password) as [valid msg]; simpl in Hpw; subst valid.
    simpl. unfold bind. by rewrite Hattempt.
  - eapply same_session_of_run; [apply create_attempt_frames | exact Hattempt].
Qed.

Lemma edit_user_form_fails client w w1
    user_id email full_name role phone new_password status department job_title :
  validate_email email = true →
  (new_password = "" ∨ fst (validate_password new_password) = true) →
  update_attempt client user_id email
    (edit_update_data email full_name role status phone department job_title new_password)
    w = (Ok false, w1) →
  edit_user_form_submit user_id email full_name role phone new_password status department
    job_title client w = (Ok tt, w1) ∧ same_session w w1.
Proof.
  intros Hemail Hpw Hattempt. split.
  - unfold edit_user_form_submit. rewrite (validate_email_nonempty _ Hemail).
    assert ((if truthy (VStr new_password)
             then let '(is_valid, msg) := validate_password new_password in
                  if is_valid then [] else [msg]
             else []) = @nil string) as ->.
    { destruct Hpw as [-> | Hpw]; [done|].
      rewrite (validate_password_nonempty _ Hpw).
      destruct (validate_password new_password) as [valid msg]; simpl in Hpw. by subst. }
    simpl. unfold bind. by rewrite Hattempt.
  - eapply same_session_of_run; [apply update_attempt_frames | exact Hattempt].
Qed.

Lemma delete_user_fails client w w1 user_id user_email :
  delete_attempt client user_id user_email w = (Ok false, w1) →
  delete_user_confirmed user_id user_email client w = (Ok tt, w1) ∧ same_session w w1.
Proof.
  intros Hattempt. split.
  - unfold delete_user_confirmed, bind. by rewrite Hattempt.
  - eapply same_session_of_run; [apply delete_attempt_frames | exact Hattempt].
Qed.

(** X7. When the client call of a form fails (it returns [False]), the
    form ends there: the world is the one the call left, with the
    message the client showed; nothing is added to the audit log, no
    flag of session state changes and no rerun is requested. *)
Theorem failed_attempt_logs_nothing (client : option SupabaseAdmin) (w w1 : world)
    (user_id email full_name role phone password status department job_title : string) :
  (validate_email email = true → fst (validate_password password) = true →
   create_attempt client email password role
     (add_user_data full_name role status phone department job_title) w = (Ok false, w1) →
   add_user_form_submit email full_name role phone password status department job_title
     client w = (Ok tt, w1) ∧ same_session w w1) ∧
  (validate_email email = true →
   (password = "" ∨ fst (validate_password password) = true) →
   update_attempt client user_id email
     (edit_update_data email full_name role status phone department job_title password) w
     = (Ok false, w1) →
   edit_user_form_submit user_id email full_name role phone password status department
     job_title client w = (Ok tt, w1) ∧ same_session w w1) ∧
  (delete_attempt client user_id email w = (Ok false, w1) →
   delete_user_confirmed user_id email client w = (Ok tt, w1) ∧ same_session w w1).
Proof.
  split; [apply add_user_form_fails|].
  split; [apply edit_user_form_fails | apply delete_user_fails].
Qed.

Lemma failed_attempt_logs_nothing_witness :
  let client := Some {| url := "https://example.supabase.co"; key := "anon";
                        service_role_key := "srv" |} in
  let w1 := snd (delete_attempt client "user-2" "john.doe@example.com" signed_in_world) in
  delete_attempt client "user-2" "john.doe@example.com" signed_in_world = (Ok false, w1) ∧
  delete_user_confirmed "user-2" "john.doe@example.com" client signed_in_world
    = (Ok tt, w1) ∧
  audit_store w1 = [].
Proof.
  intros client w1.
  assert (delete_attempt client "user-2" "john.doe@example.com" signed_in_world
          = (Ok false, w1)) as Hattempt by (vm_compute; reflexivity).
  split; [exact Hattempt|].
  destruct (proj2 (proj2 (failed_attempt_logs_nothing client signed_in_world w1
                            "user-2" "john.doe@example.com" "" "" "" "" "" "" ""))
              Hattempt) as [Hrun _].
  split; [exact Hrun | vm_compute; reflexivity].
Defined.

Lemma edit_update_data_password
    (email full_name role status phone department job_title new_password : string) :
  dict_lookup
    (edit_update_data email full_name role status phone department job_title new_password)
    "password"
  = if truthy (VStr new_password) then Some (VStr new_password) else None.
Proof. unfold edit_update_data. by destruct new_password. Qed.

(** X8. When a new password is typed in the edit-user form and the
    update succeeds, the entry added to the audit log records it in
    clear under [changes]; when the field is left blank the recorded
    changes have no [password] key.  The form then ends with its
    [st.rerun()]. *)
Theorem edit_form_records_password (admin : dict) (client : option SupabaseAdmin)
    (w w1 : world)
    (user_id email full_name role phone new_password status department job_title : string) :
  has_actor admin w →
  validate_email email = true →
  (new_password = "" ∨ fst (validate_password new_password) = true) →
  update_attempt client user_id email
    (edit_update_data email full_name role status phone department job_title new_password)
    w = (Ok true, w1) →
  ∃ w' entry changes,
    edit_user_form_submit user_id email full_name role phone new_password status
      department job_title client w = (Raise RerunException, w') ∧
    last_entry w' = Some entry ∧ recorded_changes entry = VDict changes ∧
    dict_lookup changes "password"
    = if truthy (VStr new_password) then Some (VStr new_password) else None.
Proof.
  intros Hact Hemail Hpw Hattempt.
  destruct (edit_user_form_logs admin client w w1 user_id email full_name role phone
              new_password status department job_title Hact Hemail Hpw Hattempt)
    as (w' & Hrun & Hentry).
  do 3 eexists. split; [exact Hrun|]. unfold last_entry. rewrite Hentry.
  rewrite last_snoc. split; [reflexivity|]. split; [reflexivity|].
  apply edit_update_data_password.
Qed.

Lemma edit_form_records_password_witness :
  let w1 := snd (update_attempt None "user-2" "john.doe@example.com"
                   (edit_update_data "john.doe@example.com" "John Doe" "User" "Active"
                      "" "Engineering" "Engineer" "n3wpassword") signed_in_world) in
  has_actor demo_admin signed_in_world ∧
  ∃ w' entry changes,
    edit_user_form_submit "user-2" "john.doe@example.com" "John Doe" "User" ""
      "n3wpassword" "Active" "Engineering" "Engineer" None signed_in_world
    = (Raise RerunException, w') ∧
    last_entry w' = Some entry ∧ recorded_changes entry = VDict changes ∧
    dict_lookup changes "password" = Some (VStr "n3wpassword").
Proof.
  intros w1. split; [apply signed_in_has_actor|].
  apply (edit_form_records_password demo_admin None signed_in_world w1 "user-2"
           "john.doe@example.com" "John Doe" "User" "" "n3wpassword" "Active"
           "Engineering" "Engineer" signed_in_has_actor).
  - vm_compute. reflexivity.
  - right. vm_compute. reflexivity.
  - vm_compute. reflexivity.
Defined.

(** ** Bulk operations: demo mode and total failure *)

(** X9. In demo mode (no client) every bulk operation counts each
    selected identifier as a success and leaves the world, the call
    history included, as it was. *)
Theorem bulk_demo_mode_counts_all (operation : bulk_operation) (new_role : string)
    (selected_users : list string) (w : world) :
  bulk_loop operation new_role None selected_users 0 w
  = (Ok (Z.of_nat (length selected_users)), w).
Proof.
  assert (∀ n, bulk_loop operation new_role None selected_users n w
               = (Ok (n + Z.of_nat (length selected_users)), w)) as H.
  { induction selected_users as [|user_id rest IH]; intros n; simpl.
    - unfold ret. do 2 f_equal. lia.
    - unfold bind. destruct operation; simpl; unfold ret; rewrite IH;
        do 2 f_equal; lia. }
  apply (H 0).
Qed.

(** X10. When the backend fails on every selected identifier, an
    operation that calls the client ends with the message that it failed
    for all selected users: nothing is added to the audit log, session
    state is untouched and no rerun is requested. *)
Theorem bulk_all_failed_logs_nothing (operation : bulk_operation) (new_role : string)
    (client : SupabaseAdmin) (failing : string → bool)
    (selected_users : list string) (w : world) :
  operation ≠ SendPasswordReset →
  fails_on failing w →
  forallb failing selected_users = true →
  ∃ w', bulk_execute operation new_role (Some client) selected_users w = (Ok tt, w') ∧
        same_session w w' ∧ audit_store w' = audit_store w ∧
        last (shown w')
        = Some (UiError, [VStr "Operation failed for all selected users"]).
Proof.
  intros Hop Hfail Hall.
  destruct (bulk_loop_fixed operation new_role client failing selected_users Hop 0 w Hfail)
    as (w1 & Hrun & _ & _).
  assert (List.filter (λ u, negb (failing u)) selected_users = []) as Hnone.
  { clear Hrun. induction selected_users as [|u rest IH]; [done|].
    simpl in *. apply andb_true_iff in Hall as [Hu Hrest]. rewrite Hu. simpl. by apply IH. }
  rewrite Hnone in Hrun. simpl in Hrun.
  pose proof (same_session_of_run _ _ _ _
                (bulk_loop_frames operation new_role (Some client) selected_users 0) Hrun)
    as Hsame.
  unfold bulk_execute, bind. rewrite Hrun. simpl.
  eexists. split; [reflexivity|]. simpl.
  split; [exact Hsame|]. split.
  - unfold audit_store. simpl. by destruct Hsame as [-> _].
  - by rewrite last_snoc.
Qed.

Lemma bulk_all_failed_logs_nothing_witness :
  let client := {| url := "https://example.supabase.co"; key := "anon";
                   service_role_key := "srv" |} in
  let failing := λ _ : string, true in
  fails_on failing signed_in_world ∧ forallb failing ["user-2"; "user-3"] = true ∧
  ∃ w', bulk_execute DeleteUsers "" (Some client) ["user-2"; "user-3"] signed_in_world
          = (Ok tt, w') ∧
        audit_store w' = audit_store signed_in_world.
Proof.
  intros client failing.
  assert (fails_on failing signed_in_world) as Hfail by (by intros h c u _).
  split; [exact Hfail|]. split; [reflexivity|].
  destruct (bulk_all_failed_logs_nothing DeleteUsers "" client failing ["user-2"; "user-3"]
              signed_in_world ltac:(discriminate) Hfail eq_refl)
    as (w' & Hrun & _ & Hstore & _).
  exists w'. split; [exact Hrun | exact Hstore].
Defined.

(** ** bulk_update_users *)

Lemma update_each_runs (user_ids : list string) (updates : dict) (w : world) :
  ∃ w', update_each user_ids updates w = (Ok tt, w') ∧ same_session w w'.
Proof.
  revert w. induction user_ids as [|user_id rest IH]; intros w; simpl.
  - by exists w.
  - destruct (update_user_fail_soft user_id updates w) as (v & w1 & Hrun & _).
    pose proof (same_session_of_run _ _ _ _ (update_user_frames user_id updates) Hrun)
      as Hs1.
    destruct (IH w1) as (w' & Hrest & Hs').
    exists w'. unfold bind. rewrite Hrun, Hrest. split; [done|].
    by eapply same_session_trans.
Qed.

(** X11. [bulk_update_users] returns [True] whatever the backend does:
    the value of each [update_user] is dropped and [update_user] never
    raises, so a failure of some or of all updates is not reported to the
    caller.  Session state is left as it was. *)
Theorem bulk_update_users_reports_success (user_ids : list string) (updates : dict)
    (w : world) :
  ∃ w', bulk_update_users user_ids updates w = (Ok true, w') ∧ same_session w w'.
Proof.
  destruct (update_each_runs user_ids updates w) as (w1 & Hrun & Hs).
  unfold bulk_update_users, try_except, bind. rewrite Hrun. simpl.
  eexists. split; [reflexivity|]. by destruct Hs as (? & ? & ? & ?).
Qed.

Example bulk_update_users_unreachable :
  let run := bulk_update_users ["user-2"; "user-3"] [("status", VStr "inactive")]
               signed_in_world in
  fst run = Ok true ∧
  map ev_raised (calls (snd run)) = [true; true] ∧
  map fst (shown (snd run)) = [UiError; UiError].
Proof. vm_compute. done. Qed.

(** ** reset_password_form *)

Lemma show_then_log admin kind msg action details (tail : M unit) w w1 :
  same_session w w1 → has_actor admin w →
  ∃ w2, (st_show kind msg ;;; log_admin_action action details ;;; tail) w1 = tail w2 ∧
        session_state w2 =
          <["audit_logs" :=
              VList (audit_store w ++ [audit_entry admin action details (clock w)])]>
            (session_state w) ∧
        calls w2 = calls w1 ∧ rerun_requested w2 = rerun_requested w1.
Proof.
  intros Hsame Hact.
  pose proof (has_actor_same_session _ _ _ Hsame Hact) as (Hty1 & Hact1 & Hne).
  set (w1s := snd (st_show kind msg w1)).
  assert (same_session w1 w1s) as Hs1 by (by destruct w1).
  pose proof (has_actor_same_session admin _ _ Hs1 (conj Hty1 (conj Hact1 Hne)))
    as (Htys & Hacts & _).
  destruct (log_admin_action_actor action details w1s admin Htys Hacts
              (truthy_nonempty_dict _ Hne)) as (w2 & Hrun & Hs2 & Hc2 & _ & Hk2 & _ & Hr2).
  exists w2. split; [|split; [|split]].
  - unfold bind at 1. change (st_show kind msg w1) with (Ok tt : outcome (), w1s).
    unfold bind. by rewrite Hrun.
  - rewrite Hs2.
    destruct (audit_store_same_session _ _ Hsame) as [Ha Hc].
    destruct (audit_store_same_session _ _ Hs1) as [Ha1 Hc1].
    destruct Hsame as (Hss & _). destruct Hs1 as (Hss1 & _).
    by rewrite Ha1, Ha, Hc1, Hc, Hss1, Hss.
  - by rewrite Hk2.
  - by rewrite Hr2.
Qed.

Lemma st_show_then_log_last admin kind msg action details w w1 :
  same_session w w1 → has_actor admin w →
  ∃ w2, (st_show kind msg ;;; log_admin_action action details) w1 = (Ok tt, w2) ∧
        session_state w2 =
          <["audit_logs" :=
              VList (audit_store w ++ [audit_entry admin action details (clock w)])]>
            (session_state w) ∧
        calls w2 = calls w1 ∧ rerun_requested w2 = rerun_requested w1.
Proof.
  intros Hsame Hact.
  destruct (show_then_log admin kind msg action details (ret tt) w w1 Hsame Hact)
    as (w2 & Hrun & Hrest).
  exists w2. split; [|exact Hrest].
  unfold bind in *.
  destruct (st_show kind msg w1) as [[u|e] wa]; [|done].
  destruct (log_admin_action action details wa) as [[u'|e'] wb]; [|done].
  destruct u'. exact Hrun.
Qed.

(** X12. The [Send Reset Email] button with a connected client makes
    exactly one SDK call, the reset email for the address of the user.
    If the call goes through, one [password_reset_email] entry is added
    to the audit log; if it raises, nothing is added.  Either way no
    rerun is requested. *)
Theorem reset_email_one_call (admin : dict) (client : SupabaseAdmin)
    (user_id user_email : string) (w : world) :
  has_actor admin w →
  ∃ w' raised,
    reset_email_clicked user_id user_email (Some client) w = (Ok tt, w') ∧
    calls_since w w' = [SdkEvent (ResetPasswordEmail user_email) raised] ∧
    rerun_requested w' = rerun_requested w ∧
    if raised then audit_store w' = audit_store w
    else appends_entry admin "password_reset_email"
           (VDict [("user_id", VStr user_id); ("email", VStr user_email)]) w w'.
Proof.
  intros Hact. unfold reset_email_clicked.
  destruct (reset_user_password user_email w) as [r w1] eqn:Hrun.
  pose proof Hrun as Hrun0.
  unfold reset_user_password, try_except, bind, sdk, logger, st_error, st_show, ret in Hrun.
  destruct (backend w (calls w) (ResetPasswordEmail user_email)) as [v|e];
    simpl in Hrun; inversion Hrun; subst r; clear Hrun.
  - match type of H1 with ?x = w1 => set (wa := x) in * end.
    assert (same_session w w1) as Hsame by (by subst w1).
    unfold bind at 1. rewrite Hrun0.
    unfold st_success.
    destruct (st_show_then_log_last admin UiSuccess
                [VStr "Password reset email sent to "; VStr user_email; VStr "!"]
                "password_reset_email"
                (VDict [("user_id", VStr user_id); ("email", VStr user_email)])
                w w1 Hsame Hact) as (w2 & Hrun2 & Hs2 & Hk2 & Hr2).
    exists w2, false. split; [exact Hrun2|]. split; [|split].
    + apply calls_since_app. rewrite Hk2. by subst w1.
    + rewrite Hr2. by subst w1.
    + unfold appends_entry. by apply audit_store_insert in Hs2.
  - unfold bind at 1. rewrite Hrun0. exists w1, true. subst w1. simpl.
    split; [done|]. split; [|done].
    unfold calls_since. simpl. by rewrite drop_app_length.
Qed.

Lemma reset_email_one_call_witness :
  let client := {| url := "https://example.supabase.co"; key := "anon";
                   service_role_key := "srv" |} in
  let w := world_of signed_in_session login_time accepting in
  has_actor demo_admin w ∧
  ∃ w', reset_email_clicked "user-2" "john.doe@example.com" (Some client) w = (Ok tt, w') ∧
        map ev_call (calls_since w w') = [ResetPasswordEmail "john.doe@example.com"].
Proof.
  intros client w.
  assert (has_actor demo_admin w) as Hact.
  { split; [split; intros v H; vm_compute in H; inversion H; subst; eauto|].
    split; [vm_compute; reflexivity | discriminate]. }
  split; [exact Hact|].
  destruct (reset_email_one_call demo_admin client "user-2" "john.doe@example.com" w Hact)
    as (w' & raised & Hrun & Hcalls & _).
  exists w'. split; [exact Hrun|]. by rewrite Hcalls.
Defined.

Lemma manual_reset_errors_nil (new_password : string) :
  fst (validate_password new_password) = true →
  manual_reset_errors new_password new_password = [].
Proof.
  intros Hpw. unfold manual_reset_errors.
  rewrite (validate_password_nonempty _ Hpw), String.eqb_refl. simpl.
  destruct (validate_password new_password) as [valid msg]. simpl in Hpw. by subst.
Qed.

Lemma manual_reset_errors_mismatch (new_password confirm_password : string) :
  new_password ≠ confirm_password →
  manual_reset_errors new_password confirm_password ≠ [].
Proof.
  intros Hne. unfold manual_reset_errors.
  destruct (String.eqb_spec new_password confirm_password) as [|_]; [done|].
  simpl. intros H. by apply app_eq_nil in H as [_ ?].
Qed.

(** The one call a manual reset makes: the credential update, carrying
    the password and nothing else. *)
Lemma update_user_password_only (user_id new_password : string) (w : world) :
  new_password ≠ "" →
  ∃ w1 raised,
    update_user user_id [("password", VStr new_password)] w = (Ok (negb raised), w1) ∧
    calls w1 =
      (calls w ++
         [SdkEvent (AdminUpdateUserById user_id [("password", VStr new_password)])
            raised])%list.
Proof.
  intros Hne. destruct new_password as [|c s]; [done|].
  unfold update_user.
  change (auth_updates_of [("password", VStr (String c s))])
    with [("password", VStr (String c s))].
  change (profile_updates_of [("password", VStr (String c s))]) with (@nil (string * value)).
  unfold try_except, bind, sdk, logger, st_error, st_show, ret. simpl.
  destruct (backend w (calls w)
              (AdminUpdateUserById user_id [("password", VStr (String c s))])) as [v|e];
    simpl.
  - eexists _, false. by split.
  - eexists _, true. by split.
Qed.

(** X13. The manual password reset with a connected client: when the
    two passwords differ it stops at validation, showing errors and
    doing nothing else; when they agree and the password is acceptable
    it makes exactly one SDK call, the credential update of that user
    with the password as its only field, so that the profiles table is
    not touched.  If the call goes through, one [password_reset_manual]
    entry is added to the audit log, naming the user and not the
    password, and the form ends with its [st.rerun()]; if it raises,
    nothing is added and the form returns. *)
Theorem manual_reset_one_call (admin : dict) (client : SupabaseAdmin)
    (user_id user_email new_password confirm_password : string) (w : world) :
  has_actor admin w →
  (new_password ≠ confirm_password →
   ∃ w' msgs,
     manual_reset_submit user_id user_email new_password confirm_password (Some client) w
     = (Ok tt, w') ∧ only_errors_shown w w' msgs) ∧
  (new_password = confirm_password → fst (validate_password new_password) = true →
   ∃ w' (raised : bool),
     manual_reset_submit user_id user_email new_password confirm_password (Some client) w
     = (if raised then Ok tt else Raise RerunException, w') ∧
     calls_since w w'
     = [SdkEvent (AdminUpdateUserById user_id [("password", VStr new_password)]) raised] ∧
     if raised then audit_store w' = audit_store w
     else appends_entry admin "password_reset_manual"
            (VDict [("user_id", VStr user_id); ("email", VStr user_email)]) w w').
Proof.
  intros Hact. split.
  - intros Hne. unfold manual_reset_submit.
    pose proof (manual_reset_errors_mismatch _ _ Hne) as Herr.
    destruct (manual_reset_errors new_password confirm_password) as [|e errs]; [done|].
    cbn [nonempty]. by apply show_errors_only.
  - intros <- Hpw. unfold manual_reset_submit.
    rewrite (manual_reset_errors_nil _ Hpw). cbn [nonempty].
    assert (new_password ≠ "") as Hne by (intros ->; discriminate Hpw).
    destruct (update_user_password_only user_id new_password w Hne)
      as (w1 & raised & Hrun & Hcalls).
    pose proof (same_session_of_run _ _ _ _
                  (update_user_frames user_id [("password", VStr new_password)]) Hrun)
      as Hsame.
    unfold bind at 1. rewrite Hrun. destruct raised; simpl.
    + exists w1, true. split; [done|]. split; [by apply calls_since_app|].
      by apply audit_store_same_session.
    + unfold st_success.
      edestruct (show_then_log admin UiSuccess) as (w2 & -> & Hs2 & Hk2 & _);
        [exact Hsame | exact Hact |].
      unfold bind at 1. simpl. unfold bind at 1. rewrite ss_discard_delete.
      eexists _, false. split; [reflexivity|]. split.
      * apply calls_since_app. simpl. by rewrite Hk2.
      * unfold appends_entry, audit_store. simpl. rewrite Hs2.
        rewrite lookup_delete_ne by done.
        rewrite lookup_insert_ne by done. by rewrite lookup_insert_eq.
Qed.

Lemma manual_reset_one_call_witness :
  let client := {| url := "https://example.supabase.co"; key := "anon";
                   service_role_key := "srv" |} in
  let w := world_of signed_in_session login_time accepting in
  has_actor demo_admin w ∧ fst (validate_password "n3wpassword") = true ∧
  ∃ w' (raised : bool),
    manual_reset_submit "user-2" "john.doe@example.com" "n3wpassword" "n3wpassword"
      (Some client) w = (if raised then Ok tt else Raise RerunException, w') ∧
    calls_since w w'
    = [SdkEvent (AdminUpdateUserById "user-2" [("password", VStr "n3wpassword")]) raised].
Proof.
  intros client w.
  assert (has_actor demo_admin w) as Hact.
  { split; [split; intros v H; vm_compute in H; inversion H; subst; eauto|].
    split; [vm_compute; reflexivity | discriminate]. }
  assert (fst (validate_password "n3wpassword") = true) as Hpw by (vm_compute; reflexivity).
  split; [exact Hact|]. split; [exact Hpw|].
  destruct (proj2 (manual_reset_one_call demo_admin client "user-2" "john.doe@example.com"
                     "n3wpassword" "n3wpassword" w Hact) eq_refl Hpw)
    as (w' & raised & Hrun & Hcalls & _).
  by exists w', raised.
Defined.

(** ** create_sample_users *)



Example create_sample_users_unreachable :
  let run := create_sample_users (world_of ∅ login_time unreachable) in
  fst run = Ok true ∧ map ev_raised (calls (snd run)) = [true; true; true] ∧
  map fst (logged (snd run)) = [LWarning; LWarning; LWarning].
Proof. vm_compute. done. Qed.

(** ** The inline handlers of app.py *)

(** X15. The bulk buttons and the add-user modal of [app.py] make no SDK
    call at all: with an actor signed in, each of them adds its entry to
    the audit log ([bulk_activate], [bulk_deactivate], [bulk_delete] with
    the number of selected users, [create_user] with the email and role
    typed) while the call history stays as it was; the modal then ends
    with its [st.rerun()]. *)
Theorem inline_handlers_log_without_calls (admin : dict) (w : world) :
  has_actor admin w →
  (∀ button selected_users,
     ∃ w', bulk_button_clicked button selected_users w = (Ok tt, w') ∧
           calls w' = calls w ∧
           appends_entry admin (bulk_button_action button)
             (VDict [("user_count", VInt (Z.of_nat (length selected_users)))]) w w') ∧
  (∀ new_email new_password new_role,
     new_email ≠ "" → new_password ≠ "" →
     ∃ w', inline_create_user new_email new_password new_role w
             = (Raise RerunException, w') ∧
           calls w' = calls w ∧
           appends_entry admin "create_user"
             (VDict [("email", VStr new_email); ("role", VStr new_role)]) w w').
Proof.
  intros Hact. split.
  - intros button selected_users. unfold bulk_button_clicked.
    destruct button; unfold st_success, st_error;
      match goal with
      | |- context [bind (st_show ?kind ?msg) (λ _, log_admin_action ?action ?details)] =>
          destruct (st_show_then_log_last admin kind msg action details w w
                      (same_session_refl w) Hact) as (w' & Hrun & Hs & Hk & _)
      end;
      exists w'; (split; [exact Hrun|]); (split; [exact Hk|]);
      unfold appends_entry; by apply audit_store_insert in Hs.
  - intros new_email new_password new_role He Hp. unfold inline_create_user.
    destruct new_email as [|c1 e]; [done|]. destruct new_password as [|c2 p]; [done|].
    cbn [truthy andb]. unfold st_success.
    edestruct (show_then_log admin UiSuccess) as (w2 & -> & Hs2 & Hk2 & _);
      [apply same_session_refl | exact Hact |].
    eexists. split; [reflexivity|]. simpl. split; [exact Hk2|].
    unfold appends_entry, audit_store. simpl. rewrite Hs2.
    rewrite lookup_insert_ne by done. by rewrite lookup_insert_eq.
Qed.

Lemma inline_handlers_log_without_calls_witness :
  has_actor demo_admin signed_in_world ∧
  ∃ w', bulk_button_clicked DeleteSelected ["user-2"; "user-3"] signed_in_world
          = (Ok tt, w') ∧
        calls w' = [] ∧
        audit_store w' =
          [audit_entry demo_admin "bulk_delete" (VDict [("user_count", VInt 2)]) login_time].
Proof.
  split; [apply signed_in_has_actor|].
  destruct (proj1 (inline_handlers_log_without_calls demo_admin signed_in_world
                     signed_in_has_actor) DeleteSelected ["user-2"; "user-3"])
    as (w' & Hrun & Hk & Hentry).
  exists w'. split; [exact Hrun|]. split; [exact Hk | exact Hentry].
Defined.

(** ** login_form and require_auth *)

Lemma truthy_nonempty_str (s : string) : s ≠ "" → truthy (VStr s) = true.
Proof. by destruct s. Qed.

(** X16. When the client cannot be constructed, [login_form] falls back
    to the default credentials: those of the [admin] section of the
    secrets, [entremotivator@gmail.com] and [admin123] where the section
    or a key is missing.  A non-blank email and password are then
    accepted exactly when both equal the defaults; on acceptance the
    session is the one [create_session] writes for the demo
    administrator and the form ends with its [st.rerun()], otherwise it
    returns [False] and session state is untouched; no SDK call is made
    either way. *)
Theorem demo_login_fallback (connect : M SupabaseAdmin) (secrets section : dict)
    (token email password : string) (e : exn) (w w1 : world) :
  email ≠ "" → password ≠ "" →
  connect w = (Raise (Exception e), w1) →
  admin_secrets secrets = VDict section →
  let accepted :=
    is_str (default_email section) email && is_str (default_password section) password in
  ∃ w', login_form_submit connect secrets token email password w
          = (if accepted then Raise RerunException else Ok false, w') ∧
        calls w' = calls w1 ∧
        session_state w' =
          (if accepted then demo_session_of token email (clock w1) (session_state w1)
           else session_state w1).
Proof.
  intros He Hp Hconn Hsec accepted.
  unfold login_form_submit. rewrite (truthy_nonempty_str _ He), (truthy_nonempty_str _ Hp).
  cbn [negb orb]. unfold try_except, bind at 1. rewrite Hconn.
  unfold secret_or. fold (admin_secrets secrets). rewrite Hsec.
  unfold py_get_or, bind at 1, ret at 1.
  fold (default_email section). unfold bind at 1, ret at 1.
  fold (default_password section). fold accepted.
  destruct accepted.
  - unfold bind at 1. rewrite create_session_spec.
    eexists. split; [reflexivity|]. by destruct w1.
  - eexists. split; [reflexivity|]. by destruct w1.
Qed.

Lemma demo_login_fallback_witness :
  let w := world_of ∅ login_time unreachable in
  ∃ w', login_form_submit (init_fails (Exn "KeyError" "supabase")) [] "k3Jq0bTn"
          "entremotivator@gmail.com" "admin123" w = (Raise RerunException, w') ∧
        calls w' = [] ∧
        session_state w' = demo_session.
Proof.
  intros w.
  destruct (demo_login_fallback (init_fails (Exn "KeyError" "supabase")) [] []
              "k3Jq0bTn" "entremotivator@gmail.com" "admin123"
              (Exn "KeyError" "supabase") w
              (snd (init_fails (Exn "KeyError" "supabase") w)))
    as (w' & Hrun & Hk & Hs); [done | done | reflexivity | reflexivity |].
  exists w'. split; [exact Hrun|]. split; [exact Hk | exact Hs].
Defined.

(** The gate, case by case. *)
Lemma require_auth_cases (login : M bool) (w : world) :
  session_typed w →
  (authenticated w = false ∧
   require_auth login w = (login ;;; ret LoginShown) w) ∨
  (authenticated w = true ∧ no_session w ∧
   require_auth login w =
     (Ok SessionExpired,
      snd (st_error [VStr "Session expired. Please log in again."] w))) ∨
  (authenticated w = true ∧ ¬ no_session w ∧ expired w ∧
   ∃ w1, validate_session w = (Raise RerunException, w1) ∧
         require_auth login w = (Raise RerunException, w1)) ∨
  (authenticated w = true ∧ ¬ (no_session w ∨ expired w) ∧
   require_auth login w = (Ok Proceed, w)).
Proof.
  intros Hty.
  assert (require_auth login w =
          if negb (authenticated w) then (login ;;; ret LoginShown) w
          else (let* valid := validate_session in
                if negb valid then
                  st_error [VStr "Session expired. Please log in again."] ;;;
                  ret SessionExpired
                else ret Proceed) w) as ->.
  { unfold require_auth, is_admin_authenticated, ss_get_or, authenticated.
    unfold bind at 1. by destruct (truthy _). }
  destruct (authenticated w); [|by left].
  right. cbn [negb].
  destruct (validate_session_cases w Hty)
    as [[Hno Hv] | [(Hs & Hex & w' & Hv & _) | (Hs & Hnex & Hv)]].
  - left. split; [done|]. split; [done|]. unfold bind at 1. by rewrite Hv.
  - right. left. split; [done|]. split; [done|]. split; [done|].
    exists w'. split; [done|]. unfold bind at 1. by rewrite Hv.
  - right. right. split; [done|]. split; [intros [?|?]; contradiction|].
    unfold bind at 1. by rewrite Hv.
Qed.

(** X17. On a session state as [create_session] writes it,
    [require_auth] lets the page go on exactly when the
    [admin_authenticated] flag is truthy, the session exists and it is
    not expired, and then it changes nothing; with the flag unset it
    runs the login form and stops the page, without judging the
    session. *)
Theorem require_auth_opens_for_valid_sessions (login : M bool) (w : world) :
  session_typed w →
  (fst (require_auth login w) = Ok Proceed ↔
   authenticated w = true ∧ ¬ (no_session w ∨ expired w)) ∧
  (fst (require_auth login w) = Ok Proceed → snd (require_auth login w) = w) ∧
  (authenticated w = false →
   ∀ b w1, login w = (Ok b, w1) → require_auth login w = (Ok LoginShown, w1)).
Proof.
  intros Hty.
  destruct (require_auth_cases login w Hty)
    as [[Hflag ->] | [(Hflag & Hno & ->)
                     | [(Hflag & _ & Hex & w1 & _ & ->) | (Hflag & Hgood & ->)]]].
  - split; [|split].
    + split; [|intros [? _]; congruence].
      unfold bind. destruct (login w) as [[b|e] w1]; simpl; discriminate.
    + unfold bind. destruct (login w) as [[b|e] w1]; simpl; discriminate.
    + intros _ b w1 Hl. unfold bind. by rewrite Hl.
  - split; [|split]; simpl.
    + split; [discriminate | intros [_ Hn]; destruct Hn; by left].
    + discriminate.
    + congruence.
  - split; [|split]; simpl.
    + split; [discriminate | intros [_ Hn]; destruct Hn; by right].
    + discriminate.
    + congruence.
  - split; [|split]; simpl; [done | done | congruence].
Qed.

Lemma require_auth_opens_for_valid_sessions_witness :
  session_typed fresh_world ∧
  require_auth (ret false) fresh_world = (Ok Proceed, fresh_world) ∧
  fst (require_auth (ret false) stale_world) ≠ Ok Proceed.
Proof.
  pose proof (require_auth_opens_for_valid_sessions (ret false) fresh_world
                (demo_session_typed _ _)) as (Hiff & Hsame & _).
  pose proof (require_auth_opens_for_valid_sessions (ret false) stale_world
                (demo_session_typed _ _)) as (Hiff' & _).
  split; [apply demo_session_typed|]. split.
  - assert (fst (require_auth (ret false) fresh_world) = Ok Proceed) as Hp.
    { apply Hiff. split; [reflexivity|]. intros [[H|H] | (created & Hc & Hgt)].
      - vm_compute in H. discriminate.
      - vm_compute in H. discriminate.
      - assert (created = login_time) as ->.
        { unfold fresh_world, world_of, demo_session in Hc. simpl in Hc.
          rewrite lookup_insert_eq in Hc. by inversion Hc. }
        unfold fresh_world, world_of, SESSION_LIFETIME in Hgt. simpl in Hgt. lia. }
    specialize (Hsame Hp).
    destruct (require_auth (ret false) fresh_world) as [r w']. simpl in *. by subst.
  - intros Hp. apply Hiff' in Hp as [_ Hn]. apply Hn. right.
    exists login_time. split.
    + unfold stale_world, world_of, demo_session. simpl. by rewrite lookup_insert_eq.
    + unfold stale_world, world_of, SESSION_LIFETIME. simpl. lia.
Defined.

(** X18. A sign-in through a client that could be constructed never
    gets past [require_auth] on its own: [login_form] leaves the outcome to
    [authenticate_admin], which writes no session token, so that after a
    successful sign-in from a state without token, which [login_form]
    ends with its [st.rerun()], [require_auth] shows the expiry message
    and stops the page, whatever time it is. *)
Theorem backend_sign_in_is_stopped (connect : M SupabaseAdmin) (client : SupabaseAdmin)
    (secrets : dict) (token email password : string) (login : M bool)
    (w w1 w' : world) :
  email ≠ "" → password ≠ "" →
  connect w = (Ok client, w1) →
  session_state w1 !! "session_token" = None →
  login_form_submit connect secrets token email password w
    = (Raise RerunException, w') →
  authenticated w' = true ∧
  ∃ w'', require_auth login w' = (Ok SessionExpired, w'') ∧
         session_state w'' = session_state w' ∧
         shown w'' =
           (shown w' ++ [(UiError, [VStr "Session expired. Please log in again."])])%list.
Proof.
  intros He Hp Hconn Hnone Hrun.
  unfold login_form_submit in Hrun.
  rewrite (truthy_nonempty_str _ He), (truthy_nonempty_str _ Hp) in Hrun.
  cbn [negb orb] in Hrun. unfold try_except, bind at 1 in Hrun. rewrite Hconn in Hrun.
  unfold bind at 1 in Hrun.
  destruct (authenticate_admin_outcome email password w1) as (b & w2 & Hauth & Hb).
  rewrite Hauth in Hrun. destruct b; simpl in Hrun; [|by inversion Hrun].
  destruct Hb as (user & _ & Hs2).
  assert (session_state w' = session_state w2) as Hs' by (inversion Hrun; by destruct w2).
  assert (session_state w' !! "session_token" = None) as Htok.
  { rewrite Hs', Hs2. rewrite !lookup_insert_ne by done. exact Hnone. }
  assert (authenticated w' = true) as Hflag.
  { unfold authenticated. rewrite Hs', Hs2. by rewrite lookup_insert_eq. }
  split; [exact Hflag|].
  unfold require_auth, is_admin_authenticated, ss_get_or. unfold bind at 1.
  fold (authenticated w'). rewrite Hflag. cbn [negb].
  unfold bind at 1, validate_session, bind at 1, ss_get. rewrite Htok. simpl.
  eexists. split; [reflexivity|]. by simpl.
Qed.

Lemma backend_sign_in_is_stopped_witness :
  let w := world_of ∅ login_time one_admin in
  let client := {| url := "https://db.example.com"; key := "anon"; service_role_key := "service" |} in
  let w' := snd (login_form_submit (ret client) [] "k3Jq0bTn"
                   "root@example.com" "s3cretpass" w) in
  fst (login_form_submit (ret client) [] "k3Jq0bTn" "root@example.com" "s3cretpass" w)
    = Raise RerunException ∧
  fst (require_auth (ret false) w') = Ok SessionExpired.
Proof.
  intros w client w'.
  assert (fst (login_form_submit (ret client) [] "k3Jq0bTn"
                 "root@example.com" "s3cretpass" w) = Raise RerunException) as Hok
    by (vm_compute; reflexivity).
  split; [exact Hok|].
  destruct (backend_sign_in_is_stopped (ret client) client [] "k3Jq0bTn"
              "root@example.com" "s3cretpass" (ret false) w w w')
    as (_ & w'' & -> & _); [done | done | reflexivity | reflexivity | | reflexivity].
  subst w'. destruct (login_form_submit _ _ _ _ _ w) as [r w2]. simpl in *. by subst r.
Defined.

(** ** The recent activity of the dashboard *)

Lemma activity_rows_dicts (logs : list value) (w : world) :
  Forall is_dict logs → activity_rows logs w = (Ok (map entry_row logs), w).
Proof.
  induction 1 as [|log rest [fields ->] _ IH]; [done|].
  cbn [activity_rows py_get_or]. unfold bind, ret in *. by rewrite IH.
Qed.

Lemma last_ten_snoc {A} (l : list A) (x : A) :
  last_ten (l ++ [x]) = (drop (length l - 9)%nat l ++ [x])%list.
Proof.
  unfold last_ten. rewrite length_app. simpl.
  replace (length l + 1 - 10)%nat with (length l - 9)%nat by lia.
  rewrite drop_app_le by lia. done.
Qed.

(** X19. An action logged by a signed-in actor reaches the dashboard:
    over an audit store of entries, [Recent Activity] then lists the
    rows of the ten newest entries and no more, oldest first, and its
    last row is the action just logged, with the time of logging, the
    actor's email and the details. *)
Theorem logged_action_reaches_dashboard (admin : dict) (action : string) (details : value)
    (w : world) :
  has_actor admin w →
  Forall is_dict (audit_store w) →
  ∃ w' rows,
    log_admin_action action details w = (Ok tt, w') ∧
    recent_activity w' = (Ok rows, w') ∧
    rows = map entry_row (last_ten (audit_store w')) ∧
    length rows = Nat.min 10 (length (audit_store w) + 1) ∧
    last rows =
      Some (Activity (VStr (isoformat (clock w))) (VStr action)
              [dict_get admin "email"; VStr " - ";
               if truthy details then details else VDict []]).
Proof.
  intros Hact Hdicts. pose proof Hact as (Hty & Hactor & Hne).
  destruct (log_admin_action_actor action details w admin Hty Hactor
              (truthy_nonempty_dict _ Hne)) as (w' & Hrun & Hs & _).
  pose proof (audit_store_insert _ _ _ Hs) as Hstore.
  exists w', (map entry_row (last_ten (audit_store w'))).
  split; [exact Hrun|].
  assert (Forall is_dict (audit_store w')) as Hdicts'.
  { rewrite Hstore. apply Forall_app. split; [done|].
    apply Forall_cons_2; [by eexists | apply Forall_nil_2]. }
  split; [|split; [done|]].
  - unfold recent_activity, ss_get_or. unfold bind at 1.
    rewrite Hs, lookup_insert_eq. cbn [default from_option id py_last_ten ret].
    rewrite Hstore.
    remember (last_ten (audit_store w ++ [audit_entry admin action details (clock w)]))
      as recent eqn:Hrecent.
    assert (Forall is_dict recent) as Hrd.
    { subst recent. unfold last_ten. apply Forall_drop. by rewrite <- Hstore. }
    assert (recent ≠ []) as Hrn.
    { subst recent. rewrite last_ten_snoc. by destruct (drop _ _). }
    destruct recent as [|first others]; [done|].
    cbn [truthy py_iter ret]. unfold bind at 1. cbn [ret].
    by apply activity_rows_dicts.
  - rewrite Hstore, last_ten_snoc, map_app, length_app, length_map, length_drop.
    split; [cbn [length map]; lia|]. cbn [map]. by rewrite last_snoc.
Qed.

Lemma logged_action_reaches_dashboard_witness :
  has_actor demo_admin signed_in_world ∧
  Forall is_dict (audit_store signed_in_world) ∧
  ∃ w', log_admin_action "delete_user" (VDict [("user_id", VStr "user-2")])
          signed_in_world = (Ok tt, w') ∧
        fst (recent_activity w') =
          Ok [Activity (VStr "2024-01-20T09:00:00") (VStr "delete_user")
                [VStr "entremotivator@gmail.com"; VStr " - ";
                 VDict [("user_id", VStr "user-2")]]].
Proof.
  split; [apply signed_in_has_actor|]. split; [apply Forall_nil_2|].
  destruct (logged_action_reaches_dashboard demo_admin "delete_user"
              (VDict [("user_id", VStr "user-2")]) signed_in_world
              signed_in_has_actor (Forall_nil_2 _))
    as (w' & rows & Hrun & Hshow & Hrows & Hlen & Hlast).
  exists w'. split; [exact Hrun|]. rewrite Hshow. simpl.
  destruct rows as [|r1 [|r2 rest]]; [done | | done].
  simpl in Hlast. inversion Hlast. reflexivity.
Defined.

(** Without any entry the table shows the five demo rows. *)
Example recent_activity_empty :
  fst (recent_activity signed_in_world) = Ok demo_activity.
Proof. reflexivity. Qed.

(** ** The list filters at their edges *)

Lemma List_filter_sublist {A} (p : A → bool) (l : list A) : sublist (List.filter p l) l.
Proof.
  induction l as [|x l IH]; [constructor|]. simpl.
  destruct (p x); [by apply sublist_skip | by apply sublist_cons].
Qed.

Section FilterEdges.

Variable re_search_ignorecase : string → string → bool.

(** X20. The filter block at its edges, for a query of ordinary
    characters.  An empty table shows nothing.  On a table with rows a
    non-empty query needs the [Email] column and a status choice other
    than [All] needs the [Status] column: without them the block raises
    [KeyError], for [Email] first.  In every other case the rows shown
    are rows of the table in the order of the table, and all of them
    when the query is empty and both choices are [All]. *)
Theorem filter_users_missing_columns (df : DataFrame)
    (query role_filter status_filter : string) :
  is_literal query = true →
  let shown := filter_users re_search_ignorecase df query role_filter status_filter in
  (df_empty df = true → shown = Ok []) ∧
  (df_empty df = false →
   (query ≠ "" → has_column df "Email" = false → shown = Raise (Exn "KeyError" "Email")) ∧
   (query = "" ∨ has_column df "Email" = true →
    status_filter ≠ "All" → has_column df "Status" = false →
    shown = Raise (Exn "KeyError" "Status")) ∧
   (query = "" ∨ has_column df "Email" = true →
    status_filter = "All" ∨ has_column df "Status" = true →
    ∃ kept, shown = Ok kept ∧ sublist kept (rows df) ∧
            (query = "" → role_filter = "All" → status_filter = "All" →
             kept = rows df))).
Proof.
  intros _ shown. subst shown. unfold filter_users. split; [by intros ->|].
  intros ->. split; [|split].
  - intros Hq He. destruct query as [|c q]; [done|]. cbn [truthy]. by rewrite He.
  - intros Hq Hs Hc.
    assert (String.eqb status_filter "All" = false) as -> by by apply String.eqb_neq.
    rewrite Hc. cbn [negb].
    destruct Hq as [-> | ->]; [done|]. by destruct (truthy (VStr query)).
  - intros Hq Hs.
    set (text := λ row : gmap string string,
           str_contains re_search_ignorecase query (row !! "Email") ||
           (if has_column df "Full Name"
            then str_contains re_search_ignorecase query (row !! "Full Name")
            else false)).
    assert (∃ searched,
              (if truthy (VStr query)
               then if has_column df "Email"
                    then Ok (List.filter text (rows df))
                    else Raise (Exn "KeyError" "Email")
               else Ok (rows df)) = Ok searched ∧
              sublist searched (rows df) ∧ (query = "" → searched = rows df))
      as (searched & -> & Hsub & Hall).
    { destruct Hq as [-> | ->].
      - by exists (rows df).
      - destruct (truthy (VStr query)) eqn:Ht.
        + exists (List.filter text (rows df)). split; [done|].
          split; [apply List_filter_sublist|]. intros ->. done.
        + by exists (rows df). }
    set (by_role :=
           if negb (String.eqb role_filter "All") && has_column df "Role"
           then List.filter (cell_is "Role" role_filter) searched else searched).
    assert (sublist by_role (rows df) ∧
            (query = "" → role_filter = "All" → by_role = rows df)) as [Hsub' Hall'].
    { subst by_role.
      destruct (negb (String.eqb role_filter "All") && has_column df "Role") eqn:Hr.
      - split; [by etrans; [apply List_filter_sublist|]|]. intros _ ->. done.
      - split; [done|]. auto. }
    destruct Hs as [-> | ->].
    + exists by_role. split; [done|]. split; [done|]. auto.
    + destruct (negb (String.eqb status_filter "All")) eqn:Hst.
      * eexists. split; [done|]. split; [by etrans; [apply List_filter_sublist|]|].
        intros _ _ ->. done.
      * exists by_role. split; [done|]. split; [done|]. auto.
Qed.

End FilterEdges.

Lemma filter_users_missing_columns_witness :
  is_literal "john" = true ∧
  filter_users no_regex {| columns := ["ID"]; rows := [{["ID" := "9f1c"]}] |}
    "john" "All" "All" = Raise (Exn "KeyError" "Email") ∧
  ∃ kept, filter_users no_regex live_users "john" "Admin" "Active" = Ok kept ∧
          sublist kept (rows live_users).
Proof.
  assert (is_literal "john" = true) as Hlit by (vm_compute; reflexivity).
  split; [exact Hlit|]. split.
  - apply (filter_users_missing_columns no_regex
             {| columns := ["ID"]; rows := [{["ID" := "9f1c"]}] |} "john" "All" "All" Hlit);
      done.
  - destruct (filter_users_missing_columns no_regex live_users "john" "Admin" "Active" Hlit)
      as [_ Hrows].
    destruct (Hrows eq_refl) as (_ & _ & Hshown).
    destruct Hshown as (kept & Hrun & Hsub & _); [by right | by right |].
    by exists kept.
Defined.

(** ** The statistics *)

Lemma count_where_dicts (field wanted : string) (profiles : list value) (w : world) :
  Forall is_dict profiles →
  count_where field wanted profiles w = (Ok (matching field wanted profiles), w).
Proof.
  unfold matching. induction 1 as [|p rest [fields ->] _ IH]; [done|].
  cbn [count_where py_get List.filter]. unfold bind, ret in *. rewrite IH.
  destruct (is_str (dict_get fields field) wanted); [|done].
  cbn [length]. do 2 f_equal. lia.
Qed.

Lemma count_profiles_dicts (field wanted : string) (profiles : list value) (w : world) :
  Forall is_dict profiles →
  count_profiles field wanted (VList profiles) w
  = (Ok (matching field wanted profiles), w).
Proof. intros Hd. unfold count_profiles, bind. simpl. by apply count_where_dicts. Qed.

Lemma is_str_exclusive (v : value) (a b : string) :
  a ≠ b → is_str v a = true → is_str v b = false.
Proof.
  intros Hab. destruct v; try done. unfold is_str.
  intros Ha%String.eqb_eq. subst. by apply String.eqb_neq.
Qed.

Lemma matching_exclusive (field a b : string) (profiles : list value) :
  a ≠ b →
  0 ≤ matching field a profiles ∧ 0 ≤ matching field b profiles ∧
  matching field a profiles + matching field b profiles ≤ Z.of_nat (length profiles).
Proof.
  intros Hab. unfold matching. split; [lia|]. split; [lia|].
  induction profiles as [|p rest IH]; [done|]. cbn [List.filter length].
  destruct p as [| | | | | |fields]; try (cbn [length]; lia).
  destruct (is_str (dict_get fields field) a) eqn:Ha.
  - rewrite (is_str_exclusive _ a b Hab Ha). cbn [length]. lia.
  - destruct (is_str (dict_get fields field) b); cbn [length]; lia.
Qed.

(** X21. When the listing answers with the accounts and the profile
    query with rows, [get_user_stats] counts the accounts for
    [total_users] and the profile rows for the four other numbers: the
    rows whose status is [active], whose status is [inactive], whose
    role is [admin], whose role is [user].  Active and inactive rows
    together, and admin and regular rows together, are never more than
    the profile rows; the total comes from the other list and is not
    tied to them. *)
Theorem get_user_stats_counts (w : world) (users profiles : list value) :
  backend w (calls w) AdminListUsers = Ok (VList users) →
  backend w (calls w ++ [SdkEvent AdminListUsers false])%list ProfilesSelectRoleStatus
    = Ok (VList profiles) →
  Forall is_dict profiles →
  let active := matching "status" "active" profiles in
  let inactive := matching "status" "inactive" profiles in
  let admins := matching "role" "admin" profiles in
  let regular := matching "role" "user" profiles in
  (∃ w', get_user_stats w =
           (Ok (VDict [("total_users", VInt (Z.of_nat (length users)));
                       ("active_users", VInt active);
                       ("inactive_users", VInt inactive);
                       ("admin_users", VInt admins);
                       ("regular_users", VInt regular)]), w')) ∧
  0 ≤ active ∧ 0 ≤ inactive ∧ active + inactive ≤ Z.of_nat (length profiles) ∧
  0 ≤ admins ∧ 0 ≤ regular ∧ admins + regular ≤ Z.of_nat (length profiles).
Proof.
  intros Husers Hprofiles Hdicts active inactive admins regular.
  split.
  - unfold get_user_stats, try_except. unfold bind at 1.
    unfold get_all_users, try_except, bind at 1, sdk at 1. rewrite Husers. cbn [ret].
    unfold bind at 1, sdk at 1. cbn [calls backend]. rewrite Hprofiles.
    assert ((if truthy (VList users) then VList users else VList []) = VList users)
      as -> by by destruct users.
    assert ((if truthy (VList profiles) then VList profiles else VList [])
            = VList profiles) as -> by by destruct profiles.
    unfold bind at 1. cbn [py_len ret].
    match goal with
    | |- context [bind (count_profiles _ _ _) _ ?after] => generalize after; intros w2
    end.
    unfold bind. repeat (rewrite count_profiles_dicts by done; cbn beta iota).
    by eexists.
  - pose proof (matching_exclusive "status" "active" "inactive" profiles) as Hs.
    pose proof (matching_exclusive "role" "admin" "user" profiles) as Hr.
    subst active inactive admins regular. split_and!; [apply Hs | apply Hs | apply Hs
      | apply Hr | apply Hr | apply Hr]; done.
Qed.

Lemma get_user_stats_counts_witness :
  ∃ w', get_user_stats (world_of ∅ login_time two_profiles) =
          (Ok (VDict [("total_users", VInt 3); ("active_users", VInt 1);
                      ("inactive_users", VInt 0); ("admin_users", VInt 1);
                      ("regular_users", VInt 0)]), w').
Proof.
  destruct (get_user_stats_counts (world_of ∅ login_time two_profiles)
              [VDict [("id", VStr "7c2e")]; VDict [("id", VStr "9f1c")];
               VDict [("id", VStr "a41b")]]
              [VDict [("role", VStr "admin"); ("status", VStr "active")];
               VDict [("role", VStr "moderator"); ("status", VStr "suspended")]]
              eq_refl eq_refl) as [Hrun _].
  - apply Forall_cons_2; [by eexists|]. apply Forall_cons_2; [by eexists|].
    apply Forall_nil_2.
  - exact Hrun.
Defined.

(** ** The addresses validate_email accepts *)

Lemma cut_first_app (p : ascii → bool) (sep : ascii) (a b : list ascii) :
  forallb p a = true → p sep = false →
  cut_first sep (a ++ sep :: b) = Some (a, b).
Proof.
  intros Ha Hsep. induction a as [|c a IH]; simpl.
  - by rewrite Ascii.eqb_refl.
  - simpl in Ha. apply andb_true_iff in Ha as [Hc Ha].
    destruct (Ascii.eqb_spec c sep) as [->|_]; [congruence|]. by rewrite IH.
Qed.

Lemma cut_first_split (sep : ascii) (cs a b : list ascii) :
  cut_first sep cs = Some (a, b) → cs = (a ++ sep :: b)%list.
Proof.
  revert a. induction cs as [|c cs IH]; intros a; simpl; [done|].
  destruct (Ascii.eqb_spec c sep) as [->|_]; [by intros [= <- <-]|].
  destruct (cut_first sep cs) as [[a' b']|]; [|done].
  intros [= <- <-]. simpl. by rewrite (IH a').
Qed.

Lemma cut_last_none (p : ascii → bool) (sep : ascii) (b : list ascii) :
  forallb p b = true → p sep = false → cut_last sep b = None.
Proof.
  intros Hb Hsep. induction b as [|c b IH]; simpl; [done|].
  simpl in Hb. apply andb_true_iff in Hb as [Hc Hb]. rewrite IH by done.
  destruct (Ascii.eqb_spec c sep) as [->|_]; [congruence | done].
Qed.

Lemma cut_last_app (p : ascii → bool) (sep : ascii) (a b : list ascii) :
  forallb p b = true → p sep = false →
  cut_last sep (a ++ sep :: b) = Some (a, b).
Proof.
  intros Hb Hsep. induction a as [|c a IH]; simpl.
  - by rewrite (cut_last_none p), Ascii.eqb_refl.
  - by rewrite IH.
Qed.

Lemma cut_last_split (sep : ascii) (cs a b : list ascii) :
  cut_last sep cs = Some (a, b) → cs = (a ++ sep :: b)%list.
Proof.
  revert a. induction cs as [|c cs IH]; intros a; simpl; [done|].
  destruct (cut_last sep cs) as [[a' b']|].
  - intros [= <- <-]. simpl. by rewrite (IH a').
  - destruct (Ascii.eqb_spec c sep) as [->|_]; [by intros [= <- <-] | done].
Qed.

Lemma email_shape_parts (cs : list ascii) :
  email_shape cs = true ↔
  ∃ loc dom tld, email_parts loc dom tld = true ∧ cs = email_text loc dom tld.
Proof.
  unfold email_shape, email_parts, email_text. split.
  - destruct (cut_first "@" cs) as [[loc rest]|] eqn:Hat; [|done].
    apply cut_first_split in Hat as ->.
    destruct (cut_last "." rest) as [[dom tld]|] eqn:Hdot;
      [|by rewrite andb_false_r].
    apply cut_last_split in Hdot as ->.
    intros H. exists loc, dom, tld. split; [|done].
    by rewrite <- !andb_assoc in *.
  - intros (loc & dom & tld & Hparts & ->).
    rewrite <- !andb_assoc in Hparts.
    apply andb_true_iff in Hparts as [Hl1 Hparts].
    apply andb_true_iff in Hparts as [Hl2 Hparts].
    apply andb_true_iff in Hparts as [Hd1 Hparts].
    apply andb_true_iff in Hparts as [Hd2 Hparts].
    apply andb_true_iff in Hparts as [Ht1 Ht2].
    rewrite (cut_first_app is_local_char) by done.
    rewrite (cut_last_app is_letter) by done.
    by rewrite Hl1, Hl2, Hd1, Hd2, Ht1, Ht2.
Qed.

(** X22. [validate_email] accepts exactly the addresses of the shape
    [local@domain.tld], with a non-empty local part of letters, digits
    and [._%+-], a non-empty domain of letters, digits, dots and
    hyphens, and two or more closing letters, and the same addresses
    followed by one line feed; so an accepted address has exactly the
    one [@] and no space, and may end with a line break. *)
Theorem validate_email_accepts (email : string) :
  validate_email email = true ↔
  ∃ loc dom tld,
    email_parts loc dom tld = true ∧
    (list_ascii_of_string email = email_text loc dom tld ∨
     list_ascii_of_string email = (email_text loc dom tld ++ ["010"%char])%list).
Proof.
  unfold validate_email. rewrite orb_true_iff. split.
  - intros [Hshape | Hline].
    + apply email_shape_parts in Hshape as (loc & dom & tld & Hparts & Hcs).
      exists loc, dom, tld. split; [done | by left].
    + destruct (cut_last "010" (list_ascii_of_string email)) as [[body rest]|] eqn:Hcut;
        [|done].
      destruct rest; [|done]. apply cut_last_split in Hcut.
      apply email_shape_parts in Hline as (loc & dom & tld & Hparts & ->).
      exists loc, dom, tld. split; [done | by right].
  - intros (loc & dom & tld & Hparts & [Hcs | Hcs]); rewrite Hcs.
    + left. apply email_shape_parts. by exists loc, dom, tld.
    + right. rewrite (cut_last_app (λ _, false)) by done.
      apply email_shape_parts. by exists loc, dom, tld.
Qed.

Example validate_email_plain : validate_email "ann.lee+ops@mail.example.org" = true.
Proof. reflexivity. Qed.

Example validate_email_line_break :
  validate_email (String.append "ann@example.org" (String "010" EmptyString)) = true.
Proof. reflexivity. Qed.

Example validate_email_two_ats : validate_email "ann@lee@example.org" = false.
Proof. reflexivity. Qed.

Example validate_email_one_letter_tld : validate_email "ann@example.o" = false.
Proof. reflexivity. Qed.

(** ** What the setup sends *)

Lemma split_mentions (sep : ascii) (s : string) :
  Forall (λ piece, mentions sep piece = false) (split sep s).
Proof.
  induction s as [|c s IH]; simpl; [by apply Forall_cons_2|].
  destruct (Ascii.eqb_spec c sep) as [->|Hne]; [by apply Forall_cons_2|].
  destruct (split sep s) as [|piece rest]; simpl.
  - apply Forall_cons_2; [|done]. simpl. rewrite orb_false_r. by apply Ascii.eqb_neq.
  - apply Forall_cons in IH as [Hp Hr]. apply Forall_cons_2; [|done].
    simpl. rewrite Hp, orb_false_r. by apply Ascii.eqb_neq.
Qed.

Lemma lstrip_mentions (c : ascii) (s : string) :
  mentions c s = false → mentions c (lstrip s) = false.
Proof.
  induction s as [|c' s IH]; simpl; [done|]. intros H.
  apply orb_false_iff in H as [Hc Hs]. destruct (is_space c'); [by apply IH|].
  simpl. by rewrite Hc, Hs.
Qed.

Lemma rstrip_mentions (c : ascii) (s : string) :
  mentions c s = false → mentions c (rstrip s) = false.
Proof.
  induction s as [|c' s IH]; simpl; [done|]. intros H.
  apply orb_false_iff in H as [Hc Hs]. specialize (IH Hs).
  destruct (rstrip s) as [|r rs].
  - destruct (is_space c'); [done|]. simpl. by rewrite Hc.
  - cbn [mentions] in *. by rewrite Hc, IH.
Qed.

Lemma statements_of_mentions (setup_sql : string) :
  Forall (λ stmt, mentions ";" stmt = false ∧ stmt ≠ "") (statements_of setup_sql).
Proof.
  unfold statements_of. apply List.Forall_forall. intros stmt Hin.
  apply List.filter_In in Hin as [Hin Hne]. split; [|by destruct stmt].
  apply List.in_map_iff in Hin as (piece & <- & Hin).
  pose proof (split_mentions ";" setup_sql) as Hall.
  rewrite List.Forall_forall in Hall. unfold strip.
  by apply rstrip_mentions, lstrip_mentions, Hall.
Qed.

(** X23. No statement that [execute_setup] sends holds a semicolon:
    the script is cut at every [;], those inside a function body and
    inside a string included, so each call carries one piece, which is
    not empty and does not start with [--]. *)
Theorem execute_setup_sends_pieces (setup_sql : string) (w : world) :
  ∃ w' b, execute_setup setup_sql w = (Ok b, w') ∧
    Forall (λ ev, ∃ stmt, ev_call ev = RpcExecSql stmt ∧
                          mentions ";" stmt = false ∧ stmt ≠ "" ∧
                          startswith "--" stmt = false)
           (calls_since w w').
Proof.
  destruct (run_statements_spec (statements_of setup_sql) 0 0 w)
    as (w1 & events & warnings & Hrun & Hc & Hm & _).
  unfold execute_setup, try_except. unfold bind at 1. rewrite Hrun.
  unfold bind, logger, ret. cbn beta iota. eexists _, _. split; [reflexivity|].
  unfold calls_since. cbn [calls]. rewrite Hc, drop_app_length.
  apply List.Forall_forall. intros ev Hin.
  assert (In (ev_call ev) (map RpcExecSql (List.filter runnable (statements_of setup_sql))))
    as Hcall by (rewrite <- Hm; by apply List.in_map).
  apply List.in_map_iff in Hcall as (stmt & Hstmt & Hsent).
  apply List.filter_In in Hsent as [Hsent Hrunnable].
  pose proof (statements_of_mentions setup_sql) as Hall.
  rewrite List.Forall_forall in Hall. destruct (Hall stmt Hsent) as [Hsemi Hne].
  exists stmt. split; [done|]. split; [done|]. split; [done|].
  unfold runnable in Hrunnable. apply andb_true_iff in Hrunnable as [_ H].
  by apply negb_true_iff.
Qed.

(** The body of a trigger function goes out in four pieces. *)
Example trigger_function_is_cut :
  map ev_call (calls (snd (execute_setup trigger_function (world_of ∅ login_time accepting))))
  = [RpcExecSql "CREATE FUNCTION touch() RETURNS TRIGGER AS $$ BEGIN NEW.updated_at = NOW()";
     RpcExecSql "RETURN NEW";
     RpcExecSql "END";
     RpcExecSql "$$ language 'plpgsql'"].
Proof. vm_compute. reflexivity. Qed.

(** ** Changes done by halves *)

(** X24. [delete_user] removes the profile row first and the account
    second.  When the first call raises, the second is never made; when
    the first passes and the second raises, the profile row is already
    gone.  Both failures are answered with [False], so that [False] does
    not say that nothing was deleted; [True] is the answer exactly when
    both calls passed. *)
Theorem delete_user_profile_first (user_id : string) (w : world) :
  let first := backend w (calls w) (ProfilesDelete user_id) in
  let second :=
    backend w (calls w ++ [SdkEvent (ProfilesDelete user_id) false])%list
      (AdminDeleteUser user_id) in
  ∃ w', delete_user user_id w = (Ok (negb (raises first) && negb (raises second)), w') ∧
        calls_since w w' =
          if raises first then [SdkEvent (ProfilesDelete user_id) true]
          else [SdkEvent (ProfilesDelete user_id) false;
                SdkEvent (AdminDeleteUser user_id) (raises second)].
Proof.
  intros first second. subst first second.
  unfold delete_user, try_except. unfold bind at 1, sdk at 1.
  destruct (backend w (calls w) (ProfilesDelete user_id)) as [v1|e1]; cbn [raises negb andb].
  - unfold bind at 1, sdk at 1. cbn [calls backend].
    destruct (backend w _ (AdminDeleteUser user_id)) as [v2|e2]; cbn [raises negb].
    + eexists. split; [reflexivity|]. by since_calls.
    + eexists. split; [reflexivity|]. by since_calls.
  - eexists. split; [reflexivity|]. by since_calls.
Qed.

(** X25. [create_user] makes the account before the profile row.  When
    the account is made and the profile row is refused, the answer is
    [False] and one error is shown, while the account stays: the
    creation is the first call of the two, and it passed. *)
Theorem create_user_leaves_account (email password : string) (user_data : dict)
    (fields : dict) (uid created_at : value) (e : exn) (w : world) :
  let creation :=
    AdminCreateUser [("email", VStr email); ("password", VStr password);
                     ("email_confirm", VBool true)] in
  let profile :=
    ProfilesInsert [("id", uid); ("email", VStr email);
                    ("full_name", dict_get_or user_data "full_name" (VStr ""));
                    ("role", dict_get_or user_data "role" (VStr "user"));
                    ("status", dict_get_or user_data "status" (VStr "active"));
                    ("created_at", created_at)] in
  backend w (calls w) creation = Ok (VDict fields) →
  fields ≠ [] →
  dict_lookup fields "id" = Some uid →
  dict_lookup fields "created_at" = Some created_at →
  backend w (calls w ++ [SdkEvent creation false])%list profile = Raise e →
  ∃ w', create_user email password user_data w = (Ok false, w') ∧
        calls_since w w' = [SdkEvent creation false; SdkEvent profile true] ∧
        shown w' =
          (shown w ++ [(UiError, [VStr "Failed to create user: "; VStr (exn_str e)])])%list.
Proof.
  intros creation profile Hcreate Hne Hid Hat Hinsert. subst creation profile.
  unfold create_user, try_except. unfold bind at 1, sdk at 1. rewrite Hcreate.
  rewrite (truthy_nonempty_dict _ Hne).
  unfold bind at 1. cbn [py_attr]. rewrite Hid. cbn [ret].
  unfold bind at 1. cbn [py_attr]. rewrite Hat. cbn [ret].
  unfold bind at 1, sdk at 1. cbn [calls backend]. rewrite Hinsert.
  eexists. split; [reflexivity|]. split; [by since_calls | done].
Qed.

Lemma create_user_leaves_account_witness :
  ∃ w', create_user "ann@example.com" "s3cretpass" [("role", VStr "admin")]
          (world_of ∅ login_time profiles_locked) = (Ok false, w') ∧
        map ev_raised (calls w') = [false; true].
Proof.
  destruct (create_user_leaves_account "ann@example.com" "s3cretpass"
              [("role", VStr "admin")]
              [("id", VStr "b7d0"); ("created_at", VStr "2024-01-20T09:00:00Z")]
              (VStr "b7d0") (VStr "2024-01-20T09:00:00Z")
              (Exn "APIError" "permission denied for table profiles")
              (world_of ∅ login_time profiles_locked))
    as (w' & Hrun & Hcalls & _); [reflexivity | done | reflexivity | reflexivity
                                  | reflexivity |].
  exists w'. split; [exact Hrun|].
  change (calls w') with (calls_since (world_of ∅ login_time profiles_locked) w').
  by rewrite Hcalls.
Defined.

(** ** Closing a modal *)

Lemma audit_typed_same_session w w1 : same_session w w1 → audit_typed w → audit_typed w1.
Proof. intros (Hs & _) Hty. unfold audit_typed in *. by rewrite Hs. Qed.

(** The success message and the audit entry leave every key but
    [audit_logs] alone, with or without an actor. *)
Lemma success_then_log_keeps msg action details (tail : M unit) w1 :
  audit_typed w1 →
  ∃ w2, (st_success msg ;;; log_admin_action action details ;;; tail) w1 = tail w2 ∧
        (∀ k, k ≠ "audit_logs" → session_state w2 !! k = session_state w1 !! k) ∧
        rerun_requested w2 = rerun_requested w1.
Proof.
  intros Hty. set (w1s := snd (st_success msg w1)).
  assert (same_session w1 w1s) as Hs1 by (by destruct w1).
  pose proof (audit_typed_same_session _ _ Hs1 Hty) as Htys.
  destruct Hs1 as (Hss & _ & _ & Hrr).
  assert (∃ w2, log_admin_action action details w1s = (Ok tt, w2) ∧
                (∀ k, k ≠ "audit_logs" → session_state w2 !! k = session_state w1s !! k) ∧
                rerun_requested w2 = rerun_requested w1s) as (w2 & Hrun & Hkeep & Hr2).
  { destruct (truthy (actor w1s)) eqn:Hactor.
    - assert (∃ admin, actor w1s = VDict admin) as [admin Hadmin].
      { unfold actor in *. destruct Htys as [Huser _].
        destruct (session_state w1s !! "admin_user") as [v|]; [|done].
        destruct (Huser v eq_refl) as [d ->]. by exists d. }
      rewrite Hadmin in Hactor.
      destruct (log_admin_action_actor action details w1s admin Htys Hadmin Hactor)
        as (w2 & Hrun & Hs2 & _ & _ & _ & _ & Hr2).
      exists w2. split; [done|]. split; [|done].
      intros k Hk. rewrite Hs2. by rewrite lookup_insert_ne.
    - exists w1s. by rewrite log_admin_action_no_actor. }
  exists w2. split; [|split].
  - unfold bind at 1. change (st_success msg w1) with (Ok tt : outcome (), w1s).
    unfold bind. by rewrite Hrun.
  - intros k Hk. by rewrite Hkeep, Hss.
  - by rewrite Hr2, Hrr.
Qed.

(** X26. A form whose client call succeeded closes its modal and ends
    with [st.rerun()], with or without an actor: the add-user form sets
    [show_add_user] to [False]; the edit-user form sets [show_edit_user]
    to [False] and removes [edit_user_id]; the delete confirmation sets
    [show_delete_user] to [False] and removes [delete_user_id], while
    the [delete_user_email] that [enhanced_app.py] stored with it stays
    in session state. *)
Theorem successful_form_closes_its_modal (client : option SupabaseAdmin) (w w1 : world)
    (user_id email full_name role phone password status department job_title : string) :
  audit_typed w →
  (validate_email email = true → fst (validate_password password) = true →
   create_attempt client email password role
     (add_user_data full_name role status phone department job_title) w = (Ok true, w1) →
   ∃ w', add_user_form_submit email full_name role phone password status department
           job_title client w = (Raise RerunException, w') ∧
         modal_closed "show_add_user" w') ∧
  (validate_email email = true →
   (password = "" ∨ fst (validate_password password) = true) →
   update_attempt client user_id email
     (edit_update_data email full_name role status phone department job_title password) w
     = (Ok true, w1) →
   ∃ w', edit_user_form_submit user_id email full_name role phone password status
           department job_title client w = (Raise RerunException, w') ∧
         modal_closed "show_edit_user" w' ∧
         session_state w' !! "edit_user_id" = None) ∧
  (delete_attempt client user_id email w = (Ok true, w1) →
   ∃ w', delete_user_confirmed user_id email client w = (Raise RerunException, w') ∧
         modal_closed "show_delete_user" w' ∧
         session_state w' !! "delete_user_id" = None ∧
         session_state w' !! "delete_user_email" = session_state w !! "delete_user_email").
Proof.
  intros Hty. split; [|split].
  - intros Hemail Hpw Hattempt. unfold add_user_form_submit.
    rewrite (validate_email_nonempty _ Hemail), (validate_password_nonempty _ Hpw).
    simpl. destruct (validate_password password) as [valid msg]; simpl in Hpw; subst valid.
    simpl. unfold bind at 1. rewrite Hattempt.
    pose proof (same_session_of_run _ _ _ _ (create_attempt_frames _ _ _ _ _) Hattempt)
      as Hsame.
    edestruct success_then_log_keeps as (w2 & -> & Hkeep & Hr2);
      [exact (audit_typed_same_session _ _ Hsame Hty)|].
    eexists. split; [reflexivity|]. split; [|done]. simpl. apply lookup_insert_eq.
  - intros Hemail Hpw Hattempt. unfold edit_user_form_submit.
    rewrite (validate_email_nonempty _ Hemail).
    assert ((if truthy (VStr password)
             then let '(is_valid, msg) := validate_password password in
                  if is_valid then [] else [msg]
             else []) = []) as ->.
    { destruct Hpw as [-> | Hpw]; [done|].
      destruct (truthy (VStr password)); [|done].
      by destruct (validate_password password) as [[] msg]. }
    simpl. unfold bind at 1. rewrite Hattempt.
    pose proof (same_session_of_run _ _ _ _ (update_attempt_frames _ _ _ _) Hattempt)
      as Hsame.
    edestruct success_then_log_keeps as (w2 & -> & Hkeep & Hr2);
      [exact (audit_typed_same_session _ _ Hsame Hty)|].
    unfold bind at 1, ss_set at 1. unfold bind at 1. rewrite ss_discard_delete.
    eexists. split; [reflexivity|]. unfold modal_closed. cbn.
    split; [split; [|done]|].
    + rewrite lookup_delete_ne by done. apply lookup_insert_eq.
    + apply lookup_delete_eq.
  - intros Hattempt. unfold delete_user_confirmed. unfold bind at 1. rewrite Hattempt.
    pose proof (same_session_of_run _ _ _ _ (delete_attempt_frames _ _ _) Hattempt)
      as Hsame.
    edestruct success_then_log_keeps as (w2 & -> & Hkeep & Hr2);
      [exact (audit_typed_same_session _ _ Hsame Hty)|].
    unfold bind at 1, ss_set at 1. unfold bind at 1. rewrite ss_discard_delete.
    eexists. split; [reflexivity|]. unfold modal_closed. cbn.
    split; [split; [|done]|split].
    + rewrite lookup_delete_ne by done. apply lookup_insert_eq.
    + apply lookup_delete_eq.
    + rewrite lookup_delete_ne by done. rewrite lookup_insert_ne by done.
      rewrite Hkeep by done. destruct Hsame as (Hs & _). by rewrite Hs.
Qed.

Lemma successful_form_closes_its_modal_witness :
  let client := {| url := "https://db.example.com"; key := "anon";
                   service_role_key := "service" |} in
  audit_typed delete_modal_open ∧
  ∃ w', delete_user_confirmed "user-2" "john.doe@example.com" (Some client)
          delete_modal_open = (Raise RerunException, w') ∧
        session_state w' !! "show_delete_user" = Some (VBool false) ∧
        session_state w' !! "delete_user_id" = None ∧
        session_state w' !! "delete_user_email" = Some (VStr "john.doe@example.com").
Proof.
  intros client.
  assert (audit_typed delete_modal_open) as Hty.
  { split; intros v Hv; vm_compute in Hv.
    - inversion Hv. by eexists.
    - discriminate. }
  split; [exact Hty|].
  destruct (successful_form_closes_its_modal (Some client) delete_modal_open
              (snd (delete_attempt (Some client) "user-2" "john.doe@example.com"
                      delete_modal_open))
              "user-2" "john.doe@example.com" "" "" "" "" "" "" "" Hty)
    as (_ & _ & Hdelete).
  destruct Hdelete as (w' & Hrun & [Hflag _] & Hid & Hmail); [reflexivity|].
  exists w'. split; [exact Hrun|]. split; [exact Hflag|]. split; [exact Hid|].
  rewrite Hmail. reflexivity.
Defined.
